(** * Code Time (swdc-vscode): session, preferences, telemetry and onboarding

    A shallow embedding of [DataController.ts] and
    [lib/user/OnboardManager.ts].  JavaScript values are modelled by
    [jsval]; the module-level variables, the local key-value store, the
    editor configuration, the offline batch file, the timer queue and the
    log of outward actions are the fields of [world]; an [async] function
    is a computation in the state-and-exception monad [M], run to
    completion without interleaving.  The HTTP transport is an oracle
    that answers the n-th request. *)

From Stdlib Require Import ZArith String Ascii List Lia Bool DecimalString.
From stdpp Require Import base gmap strings list.

Set Warnings "-register-all".

Open Scope string_scope.
Open Scope Z_scope.
Open Scope list_scope.

(** ** JavaScript values *)

Module JS.

Inductive jsval : Type :=
| JUndefined
| JNull
| JBool (b : bool)
| JNum (n : Z)
| JStr (s : string)
| JArr (elems : list jsval)
| JObj (fields : list (string * jsval)).

(** [if (v)], [!v], [v && ...]: the value converted to a boolean. *)
Definition truthy (v : jsval) : bool :=
  match v with
  | JUndefined | JNull => false
  | JBool b => b
  | JNum n => negb (n =? 0)
  | JStr s => negb (String.eqb s "")
  | JArr _ | JObj _ => true
  end.

(** [a === b].  Primitives are compared by value; arrays and objects are
    compared by identity, and no two values that meet in the modelled code
    are the same heap object (they come from different responses, from the
    store or from the configuration). *)
Definition strict_eq (a b : jsval) : bool :=
  match a, b with
  | JUndefined, JUndefined => true
  | JNull, JNull => true
  | JBool x, JBool y => Bool.eqb x y
  | JNum x, JNum y => x =? y
  | JStr x, JStr y => String.eqb x y
  | _, _ => false
  end.

Definition strict_ne (a b : jsval) : bool := negb (strict_eq a b).

(** Own property [k] of an object literal; [undefined] when absent. *)
Fixpoint assoc (k : string) (fields : list (string * jsval)) : jsval :=
  match fields with
  | [] => JUndefined
  | (k', v) :: rest => if String.eqb k k' then v else assoc k rest
  end.

(** [o[k] = v] on the fields of an object: an existing key keeps its
    position, a new key is appended. *)
Fixpoint put_field (k : string) (v : jsval) (fields : list (string * jsval))
  : list (string * jsval) :=
  match fields with
  | [] => [(k, v)]
  | (k', v') :: rest =>
      if String.eqb k k' then (k, v) :: rest else (k', v') :: put_field k v rest
  end.

Definition decimal (n : Z) : string := NilZero.string_of_int (Z.to_int n).

(** Template-literal conversion [`${v}`]. *)
Fixpoint to_string (v : jsval) : string :=
  match v with
  | JUndefined => "undefined"
  | JNull => "null"
  | JBool true => "true"
  | JBool false => "false"
  | JNum n => decimal n
  | JStr s => s
  | JArr elems =>
      String.concat ","
        (List.map (fun e => match e with
                            | JUndefined | JNull => ""
                            | _ => to_string e
                            end) elems)
  | JObj _ => "[object Object]"
  end.

Definition is_space (c : ascii) : bool :=
  match c with
  | " "%char | "009"%char | "010"%char | "011"%char | "012"%char | "013"%char => true
  | _ => false
  end.

Definition digit_of (c : ascii) : option Z :=
  let n := Z.of_nat (nat_of_ascii c) in
  if (48 <=? n) && (n <=? 57) then Some (n - 48) else None.

Fixpoint skip_spaces (s : string) : string :=
  match s with
  | String c rest => if is_space c then skip_spaces rest else s
  | EmptyString => s
  end.

(** Longest prefix of decimal digits, accumulated left to right. *)
Fixpoint leading_digits (s : string) (acc : option Z) : option Z :=
  match s with
  | String c rest =>
      match digit_of c with
      | Some d => leading_digits rest (Some (10 * default 0 acc + d))
      | None => acc
      end
  | EmptyString => acc
  end.

(** [parseInt(v, 10)]; [None] is [NaN].  Numbers are the integers. *)
Definition parseInt (v : jsval) : option Z :=
  match v with
  | JNum n => Some n
  | JStr s =>
      match skip_spaces s with
      | String "-"%char rest => Z.opp <$> leading_digits rest None
      | String "+"%char rest => leading_digits rest None
      | s' => leading_digits s' None
      end
  | _ => None
  end.

Definition number_to_string (n : option Z) : string :=
  match n with Some z => decimal z | None => "NaN" end.

End JS.

Export JS.

(** ** The runtime: world, transport oracle and the monad of async code *)

Module Runtime.

(** A request handed to the transport ([softwareGet], [softwarePost],
    [softwarePut]): the api path, the body and the authorization token. *)
Inductive request : Type :=
| Get (api : string) (jwt : jsval)
| Post (api : string) (body : jsval) (jwt : jsval)
| Put (api : string) (body : jsval) (jwt : jsval).

(** A normalized response.  [resp_ok] and [resp_deactivated] are the
    transport's classification, [resp_data] is [resp.data]. *)
Record response : Type := {
  resp_ok : bool;
  resp_deactivated : bool;
  resp_data : jsval
}.

(** How the promise returned by the transport settles. *)
Inductive reply : Type :=
| Resolved (r : response)
| Rejected.

(** Closures handed to [setTimeout]. *)
Inductive callback : Type :=
| CbFetchDailyKpmSessionInfo
| CbUserStatusFetchHandler (tryCountUntilFoundUser : Z)
| CbOnboardSecondaryWindow
| CbOnboardRetry.

(** Outward actions, in the order they happen. *)
Inductive event : Type :=
| EHttp (r : request)
| ECleanSessionInfo
| ESetContext (key : string) (value : bool)
| EUpdateShowMusicMetrics (value : jsval)
| EDeleteFile
| EShowOfflinePrompt (addReconnectMsg : bool)
| ESuccessFunction (created : bool)
| ESetTimeout (ms : Z) (cb : callback)
| EFetchDailyKpmSessionInfo.

(** What the code reads from outside and cannot change. *)
Record environment : Type := {
  transport : nat -> request -> reply;   (* answer to the n-th request *)
  window_focused : Z -> bool;            (* [window.state.focused] at a time *)
  JSON_parse : string -> option jsval;   (* [None] is a thrown SyntaxError *)
  os_username : jsval;
  hostname : jsval;
  timezone : jsval;
  PLUGIN_ID : jsval;
  os_name : jsval;
  plugin_version : jsval;
  session_ctime : jsval
}.

Record world : Type := {
  (* DataController.ts, module level *)
  loggedInCacheState : bool;
  initializedPrefs : bool;
  cachedJwt : jsval;
  (* OnboardManager.ts, module level *)
  secondary_window_activate_counter : Z;
  retry_counter : Z;
  (* local collaborators *)
  items : gmap string jsval;           (* getItem / setItem *)
  configuration : gmap string jsval;   (* workspace.getConfiguration() *)
  dataStoreFile : option string;       (* the offline batch file *)
  sessionFile : bool;                  (* does session.json exist *)
  now : Z;                             (* milliseconds *)
  timers : list (Z * callback);        (* due time, closure *)
  requests : nat;                      (* requests sent so far *)
  trace : list event
}.

Definition with_loggedInCacheState (b : bool) (w : world) : world :=
  {| loggedInCacheState := b; initializedPrefs := initializedPrefs w;
     cachedJwt := cachedJwt w;
     secondary_window_activate_counter := secondary_window_activate_counter w;
     retry_counter := retry_counter w; items := items w;
     configuration := configuration w; dataStoreFile := dataStoreFile w;
     sessionFile := sessionFile w; now := now w; timers := timers w;
     requests := requests w; trace := trace w |}.

Definition with_initializedPrefs (b : bool) (w : world) : world :=
  {| loggedInCacheState := loggedInCacheState w; initializedPrefs := b;
     cachedJwt := cachedJwt w;
     secondary_window_activate_counter := secondary_window_activate_counter w;
     retry_counter := retry_counter w; items := items w;
     configuration := configuration w; dataStoreFile := dataStoreFile w;
     sessionFile := sessionFile w; now := now w; timers := timers w;
     requests := requests w; trace := trace w |}.

Definition with_cachedJwt (v : jsval) (w : world) : world :=
  {| loggedInCacheState := loggedInCacheState w;
     initializedPrefs := initializedPrefs w; cachedJwt := v;
     secondary_window_activate_counter := secondary_window_activate_counter w;
     retry_counter := retry_counter w; items := items w;
     configuration := configuration w; dataStoreFile := dataStoreFile w;
     sessionFile := sessionFile w; now := now w; timers := timers w;
     requests := requests w; trace := trace w |}.

Definition with_secondary_window_activate_counter (n : Z) (w : world) : world :=
  {| loggedInCacheState := loggedInCacheState w;
     initializedPrefs := initializedPrefs w; cachedJwt := cachedJwt w;
     secondary_window_activate_counter := n;
     retry_counter := retry_counter w; items := items w;
     configuration := configuration w; dataStoreFile := dataStoreFile w;
     sessionFile := sessionFile w; now := now w; timers := timers w;
     requests := requests w; trace := trace w |}.

Definition with_retry_counter (n : Z) (w : world) : world :=
  {| loggedInCacheState := loggedInCacheState w;
     initializedPrefs := initializedPrefs w; cachedJwt := cachedJwt w;
     secondary_window_activate_counter := secondary_window_activate_counter w;
     retry_counter := n; items := items w;
     configuration := configuration w; dataStoreFile := dataStoreFile w;
     sessionFile := sessionFile w; now := now w; timers := timers w;
     requests := requests w; trace := trace w |}.

Definition with_items (m : gmap string jsval) (w : world) : world :=
  {| loggedInCacheState := loggedInCacheState w;
     initializedPrefs := initializedPrefs w; cachedJwt := cachedJwt w;
     secondary_window_activate_counter := secondary_window_activate_counter w;
     retry_counter := retry_counter w; items := m;
     configuration := configuration w; dataStoreFile := dataStoreFile w;
     sessionFile := sessionFile w; now := now w; timers := timers w;
     requests := requests w; trace := trace w |}.

Definition with_configuration (m : gmap string jsval) (w : world) : world :=
  {| loggedInCacheState := loggedInCacheState w;
     initializedPrefs := initializedPrefs w; cachedJwt := cachedJwt w;
     secondary_window_activate_counter := secondary_window_activate_counter w;
     retry_counter := retry_counter w; items := items w;
     configuration := m; dataStoreFile := dataStoreFile w;
     sessionFile := sessionFile w; now := now w; timers := timers w;
     requests := requests w; trace := trace w |}.

Definition with_dataStoreFile (f : option string) (w : world) : world :=
  {| loggedInCacheState := loggedInCacheState w;
     initializedPrefs := initializedPrefs w; cachedJwt := cachedJwt w;
     secondary_window_activate_counter := secondary_window_activate_counter w;
     retry_counter := retry_counter w; items := items w;
     configuration := configuration w; dataStoreFile := f;
     sessionFile := sessionFile w; now := now w; timers := timers w;
     requests := requests w; trace := trace w |}.

Definition with_now (t : Z) (w : world) : world :=
  {| loggedInCacheState := loggedInCacheState w;
     initializedPrefs := initializedPrefs w; cachedJwt := cachedJwt w;
     secondary_window_activate_counter := secondary_window_activate_counter w;
     retry_counter := retry_counter w; items := items w;
     configuration := configuration w; dataStoreFile := dataStoreFile w;
     sessionFile := sessionFile w; now := t; timers := timers w;
     requests := requests w; trace := trace w |}.

Definition with_timers (q : list (Z * callback)) (w : world) : world :=
  {| loggedInCacheState := loggedInCacheState w;
     initializedPrefs := initializedPrefs w; cachedJwt := cachedJwt w;
     secondary_window_activate_counter := secondary_window_activate_counter w;
     retry_counter := retry_counter w; items := items w;
     configuration := configuration w; dataStoreFile := dataStoreFile w;
     sessionFile := sessionFile w; now := now w; timers := q;
     requests := requests w; trace := trace w |}.

Definition with_requests (n : nat) (w : world) : world :=
  {| loggedInCacheState := loggedInCacheState w;
     initializedPrefs := initializedPrefs w; cachedJwt := cachedJwt w;
     secondary_window_activate_counter := secondary_window_activate_counter w;
     retry_counter := retry_counter w; items := items w;
     configuration := configuration w; dataStoreFile := dataStoreFile w;
     sessionFile := sessionFile w; now := now w; timers := timers w;
     requests := n; trace := trace w |}.

Definition with_trace (t : list event) (w : world) : world :=
  {| loggedInCacheState := loggedInCacheState w;
     initializedPrefs := initializedPrefs w; cachedJwt := cachedJwt w;
     secondary_window_activate_counter := secondary_window_activate_counter w;
     retry_counter := retry_counter w; items := items w;
     configuration := configuration w; dataStoreFile := dataStoreFile w;
     sessionFile := sessionFile w; now := now w; timers := timers w;
     requests := requests w; trace := t |}.

(** Exceptions: a rejected transport promise, or a property access or
    assignment the language refuses. *)
Inductive exn : Type :=
| TransportFailure
| TypeError.

Inductive outcome (A : Type) : Type :=
| Returned (a : A)
| Thrown (e : exn).
Arguments Returned {A} a.
Arguments Thrown {A} e.

(** An async function body: it may change the world and either returns or
    throws (its promise resolves or rejects); the changes made before a
    throw stay. *)
Definition M (A : Type) : Type := world -> outcome A * world.

#[global] Instance M_ret : MRet M := fun A a w => (Returned a, w).

#[global] Instance M_bind : MBind M := fun A B f m w =>
  match m w with
  | (Returned a, w') => f a w'
  | (Thrown e, w') => (Thrown e, w')
  end.

Definition throw {A} (e : exn) : M A := fun w => (Thrown e, w).

(** [promise.catch(h)] and [try { } catch (e) { }]. *)
Definition catch {A} (m : M A) (h : exn -> M A) : M A := fun w =>
  match m w with
  | (Returned a, w') => (Returned a, w')
  | (Thrown e, w') => h e w'
  end.

(** A promise that is neither awaited nor returned: the caller goes on
    whatever happens to it.  In a non-interleaved execution its body runs
    to completion where it is started. *)
Definition detach {A} (m : M A) : M unit := fun w =>
  (Returned tt, snd (m w)).

Definition gets {A} (f : world -> A) : M A := fun w => (Returned (f w), w).
Definition modify (f : world -> world) : M unit := fun w => (Returned tt, f w).
Definition emit (e : event) : M unit :=
  modify (fun w => with_trace (trace w ++ [e]) w).

(** [v.k]: reading a property of [undefined] or [null] throws. *)
Definition prop (v : jsval) (k : string) : M jsval :=
  match v with
  | JUndefined | JNull => throw TypeError
  | JObj fields => mret (assoc k fields)
  | _ => mret JUndefined
  end.

(** [o[k] = v] in strict mode: refused on [undefined], [null] and on
    primitives; a named property put on an array is not part of what is
    sent, so the array is returned as it is. *)
Definition set_prop (o : jsval) (k : string) (v : jsval) : M jsval :=
  match o with
  | JObj fields => mret (JObj (put_field k v fields))
  | JArr elems => mret (JArr elems)
  | _ => throw TypeError
  end.

Section WithEnvironment.

Variable env : environment.

(** The three transport wrappers: the request is recorded, the oracle
    answers it, a rejected promise is a throw at the [await]. *)
Definition send (r : request) : M response := fun w =>
  let w' := with_requests (S (requests w)) (with_trace (trace w ++ [EHttp r]) w) in
  match transport env (requests w) r with
  | Resolved resp => (Returned resp, w')
  | Rejected => (Thrown TransportFailure, w')
  end.

Definition softwareGet (api : string) (jwt : jsval) : M response :=
  send (Get api jwt).
Definition softwarePost (api : string) (body jwt : jsval) : M response :=
  send (Post api body jwt).
Definition softwarePut (api : string) (body jwt : jsval) : M response :=
  send (Put api body jwt).

End WithEnvironment.

(** Modelled from the spec: [isResponseOk] and [isUserDeactivated] of
    HttpClient are not among the sources; the transport returns "a
    normalized response with an ok/not-ok/deactivated classification". *)
Definition isResponseOk (resp : response) : bool := resp_ok resp.
Definition isUserDeactivated (resp : response) : bool := resp_deactivated resp.

(** Modelled from the spec: [getItem] and [setItem] of Util are not among
    the sources; they are the "key-value get/set for jwt, name".  A key
    that was never set reads as [null]. *)
Definition getItem (key : string) : M jsval :=
  gets (fun w => default JNull (items w !! key)).
Definition setItem (key : string) (value : jsval) : M unit :=
  modify (fun w => with_items (<[key := value]> (items w)) w).

(** Modelled from the spec: the "existing session file" and "existing
    token" conditions of the onboarding flow ([softwareSessionFileExists]
    and [jwtExists] of Util). *)
Definition softwareSessionFileExists : M bool := gets sessionFile.
Definition jwtExists : M bool :=
  gets (fun w => truthy (default JNull (items w !! "jwt"))).

(** [workspace.getConfiguration().get(key)] and [.update(key, value,
    ConfigurationTarget.Global)]. *)
Definition config_get (key : string) : M jsval :=
  gets (fun w => default JUndefined (configuration w !! key)).
Definition config_update (key : string) (value : jsval) : M unit :=
  modify (fun w => with_configuration (<[key := value]> (configuration w)) w).

(** [fs.existsSync(f)] followed by [fs.readFileSync(f).toString()]. *)
Definition readDataStoreFile : M (option string) := gets dataStoreFile.
Definition deleteFile : M unit :=
  modify (fun w => with_dataStoreFile None w);; emit EDeleteFile.

Definition nowInSecs : M Z := gets (fun w => now w / 1000).

(** [setTimeout(cb, ms)]: the closure becomes due [ms] after now. *)
Definition setTimeout (cb : callback) (ms : Z) : M unit :=
  modify (fun w => with_timers (timers w ++ [(now w + ms, cb)]) w);;
  emit (ESetTimeout ms cb).

End Runtime.

Export Runtime.

(** ** A JSON reader

    An executable instance for [JSON_parse], used to run the code on
    concrete batch files.  It reads the JSON grammar with integer number
    literals (a literal with a fraction or an exponent is refused, numbers
    being the integers here); a repeated key keeps its first position and
    its last value, as in JavaScript. *)

Module Json.

Definition is_ws (c : ascii) : bool :=
  match c with
  | " "%char | "009"%char | "010"%char | "013"%char => true
  | _ => false
  end.

Fixpoint skip_ws (s : string) : string :=
  match s with
  | String c rest => if is_ws c then skip_ws rest else s
  | EmptyString => s
  end.

Definition hex_of (c : ascii) : option Z :=
  let n := Z.of_nat (nat_of_ascii c) in
  if (48 <=? n) && (n <=? 57) then Some (n - 48)
  else if (65 <=? n) && (n <=? 70) then Some (n - 55)
  else if (97 <=? n) && (n <=? 102) then Some (n - 87)
  else None.

Definition byte (n : Z) : ascii := ascii_of_nat (Z.to_nat n).

(** The UTF-8 bytes of the code unit of a [\uXXXX] escape. *)
Definition utf8 (u : Z) : string :=
  if u <? 128 then String (byte u) ""
  else if u <? 2048 then
    String (byte (192 + u / 64)) (String (byte (128 + u mod 64)) "")
  else
    String (byte (224 + u / 4096))
      (String (byte (128 + (u / 64) mod 64))
         (String (byte (128 + u mod 64)) "")).

(** The character named by a one-letter escape. *)
Definition unescape (e : ascii) : option ascii :=
  if Ascii.eqb e "034" then Some "034"%char
  else if Ascii.eqb e "\" then Some "\"%char
  else if Ascii.eqb e "/" then Some "/"%char
  else if Ascii.eqb e "b" then Some "008"%char
  else if Ascii.eqb e "f" then Some "012"%char
  else if Ascii.eqb e "n" then Some "010"%char
  else if Ascii.eqb e "r" then Some "013"%char
  else if Ascii.eqb e "t" then Some "009"%char
  else None.

(** A string literal after its opening quote: the decoded characters and
    what follows the closing quote. *)
Fixpoint parse_chars (s : string) : option (string * string) :=
  match s with
  | EmptyString => None
  | String c rest =>
      if Ascii.eqb c "034" then Some ("", rest)
      else if Ascii.eqb c "\" then
        match rest with
        | String e rest1 =>
            if Ascii.eqb e "u" then
              match rest1 with
              | String h3 (String h2 (String h1 (String h0 rest2))) =>
                  match hex_of h3, hex_of h2, hex_of h1, hex_of h0 with
                  | Some x3, Some x2, Some x1, Some x0 =>
                      match parse_chars rest2 with
                      | Some (str, out) =>
                          Some (utf8 (4096 * x3 + 256 * x2 + 16 * x1 + x0) +:+ str, out)
                      | None => None
                      end
                  | _, _, _, _ => None
                  end
              | _ => None
              end
            else
              match unescape e with
              | Some ch =>
                  match parse_chars rest1 with
                  | Some (str, out) => Some (String ch str, out)
                  | None => None
                  end
              | None => None
              end
        | EmptyString => None
        end
      else if (nat_of_ascii c <? 32)%nat then None
      else
        match parse_chars rest with
        | Some (str, out) => Some (String c str, out)
        | None => None
        end
  end.

Fixpoint take_digits (s : string) (acc : Z) : Z * string :=
  match s with
  | String c rest =>
      match digit_of c with
      | Some d => take_digits rest (10 * acc + d)
      | None => (acc, s)
      end
  | EmptyString => (acc, s)
  end.

(** Does a fraction, an exponent or one more digit follow. *)
Definition number_goes_on (s : string) : bool :=
  match s with
  | String c _ =>
      Ascii.eqb c "." || Ascii.eqb c "e" || Ascii.eqb c "E"
      || bool_decide (is_Some (digit_of c))
  | EmptyString => false
  end.

Definition parse_number (s : string) : option (jsval * string) :=
  let '(negative, s1) :=
    match s with
    | String c rest => if Ascii.eqb c "-" then (true, rest) else (false, s)
    | EmptyString => (false, s)
    end in
  match s1 with
  | String c rest =>
      match digit_of c with
      | Some d =>
          let '(n, out) := if d =? 0 then (0, rest) else take_digits rest d in
          if number_goes_on out then None
          else Some (JNum (if negative then - n else n), out)
      | None => None
      end
  | EmptyString => None
  end.

Fixpoint strip_prefix (p s : string) : option string :=
  match p, s with
  | EmptyString, _ => Some s
  | String a p', String b s' => if Ascii.eqb a b then strip_prefix p' s' else None
  | String _ _, EmptyString => None
  end.

Fixpoint parse_value (fuel : nat) (s : string) : option (jsval * string) :=
  match fuel with
  | O => None
  | S fuel' =>
      match skip_ws s with
      | String c rest =>
          if Ascii.eqb c "{" then
            match skip_ws rest with
            | String c' out =>
                if Ascii.eqb c' "}" then Some (JObj [], out)
                else parse_members fuel' rest []
            | EmptyString => None
            end
          else if Ascii.eqb c "[" then
            match skip_ws rest with
            | String c' out =>
                if Ascii.eqb c' "]" then Some (JArr [], out)
                else parse_elements fuel' rest []
            | EmptyString => None
            end
          else if Ascii.eqb c "034" then
            '(str, out) ← parse_chars rest; Some (JStr str, out)
          else if Ascii.eqb c "t" then
            out ← strip_prefix "rue" rest; Some (JBool true, out)
          else if Ascii.eqb c "f" then
            out ← strip_prefix "alse" rest; Some (JBool false, out)
          else if Ascii.eqb c "n" then
            out ← strip_prefix "ull" rest; Some (JNull, out)
          else parse_number (String c rest)
      | EmptyString => None
      end
  end
with parse_elements (fuel : nat) (s : string) (acc : list jsval)
  : option (jsval * string) :=
  match fuel with
  | O => None
  | S fuel' =>
      '(v, rest) ← parse_value fuel' s;
      match skip_ws rest with
      | String c out =>
          if Ascii.eqb c "," then parse_elements fuel' out (acc ++ [v])
          else if Ascii.eqb c "]" then Some (JArr (acc ++ [v]), out)
          else None
      | EmptyString => None
      end
  end
with parse_members (fuel : nat) (s : string) (acc : list (string * jsval))
  : option (jsval * string) :=
  match fuel with
  | O => None
  | S fuel' =>
      match skip_ws s with
      | String q rest =>
          if Ascii.eqb q "034" then
            '(key, rest1) ← parse_chars rest;
            match skip_ws rest1 with
            | String c rest2 =>
                if Ascii.eqb c ":" then
                  '(v, rest3) ← parse_value fuel' rest2;
                  match skip_ws rest3 with
                  | String c' out =>
                      if Ascii.eqb c' "," then
                        parse_members fuel' out (put_field key v acc)
                      else if Ascii.eqb c' "}" then
                        Some (JObj (put_field key v acc), out)
                      else None
                  | EmptyString => None
                  end
                else None
            | EmptyString => None
            end
          else None
      | EmptyString => None
      end
  end.

(** [JSON.parse(text)]: one value, then nothing but white space. *)
Definition parse (text : string) : option jsval :=
  match parse_value (2 * String.length text + 2) text with
  | Some (v, rest) =>
      match skip_ws rest with
      | EmptyString => Some v
      | String _ _ => None
      end
  | None => None
  end.

End Json.

(** ** DataController.ts *)

Module DataController.

Record userStatus : Type := { loggedIn : bool }.

Record loggedOnResult : Type := { loggedOn : bool; state : jsval }.

(** [content.split(/\r?\n/)]: cut at every line feed, together with the
    carriage return right before it when there is one. *)
Fixpoint split_lines (content : string) : list string :=
  match content with
  | EmptyString => [EmptyString]
  | String c rest =>
      if Ascii.eqb c "010" then EmptyString :: split_lines rest
      else
        match rest with
        | String c' rest' =>
            if Ascii.eqb c "013" && Ascii.eqb c' "010"
            then EmptyString :: split_lines rest'
            else
              match split_lines rest with
              | line :: lines => String c line :: lines
              | [] => [String c EmptyString]
              end
        | EmptyString => [String c EmptyString]
        end
  end.

Section WithEnvironment.

Variable env : environment.

Definition serverIsAvailable : M bool :=
  catch
    (result ← softwareGet env "/ping" JNull; mret (isResponseOk result))
    (fun e => mret false).

(** The callback given to [map] in [sendOfflineData]: the parsed line, or
    [undefined] when the line is empty, does not parse, or parses to a
    falsy value. *)
Definition parse_item (item : string) : jsval :=
  let obj :=
    if truthy (JStr item) then
      match JSON_parse env item with
      | Some v => v
      | None => JNull
      end
    else JNull in
  if truthy obj then obj else JUndefined.

Definition payloads (content : string) : list jsval :=
  List.filter truthy (List.map parse_item (split_lines content)).

Definition sendOfflineData : M unit :=
  catch
    (file ← readDataStoreFile;
     match file with
     | Some content =>
         if truthy (JStr content) then
           jwt ← getItem "jwt";
           detach
             (resp ← softwarePost env "/data/batch" (JArr (payloads content)) jwt;
              if isResponseOk resp || isUserDeactivated resp then
                serverAvailablePromise ← serverIsAvailable;
                if serverAvailablePromise : bool then deleteFile else mret tt
              else mret tt)
         else mret tt
     | None => mret tt
     end)
    (fun e => mret tt).

Definition status_fail : jsval := JObj [("status", JStr "fail")].
Definition status_ok : jsval := JObj [("status", JStr "ok")].

Definition sendMusicData (trackData : jsval) : M jsval :=
  jwt ← getItem "jwt";
  catch
    (resp ← softwarePost env "/data/music" trackData jwt;
     if negb (isResponseOk resp) then mret status_fail else mret status_ok)
    (fun e => mret status_fail).

Definition getAppJwt (serverIsOnline : bool) : M jsval :=
  if serverIsOnline then
    secs ← nowInSecs;
    resp ← softwareGet env ("/data/apptoken?token=" +:+ decimal secs) JNull;
    if isResponseOk resp then prop (resp_data resp) "jwt" else mret JNull
  else mret JNull.

Definition onboard_body (creation_annotation : string) : jsval :=
  JObj [("timezone", timezone env); ("username", os_username env);
        ("creation_annotation", JStr creation_annotation);
        ("hostname", hostname env)].

Definition createAnonymousUser (serverIsOnline : bool) : M unit :=
  appJwt ← getAppJwt serverIsOnline;
  if truthy appJwt && serverIsOnline then
    jwt ← getItem "jwt";
    cached ← gets cachedJwt;
    if negb (truthy jwt) && negb (truthy cached) then
      resp ← softwarePost env "/data/onboard" (onboard_body "NO_JWT") appJwt;
      if isResponseOk resp && truthy (resp_data resp) then
        newJwt ← prop (resp_data resp) "jwt";
        if truthy newJwt then
          setItem "jwt" newJwt;;
          modify (with_cachedJwt newJwt)
        else mret tt
      else mret tt
    else
      if negb (truthy jwt) && truthy cached then setItem "jwt" cached
      else mret tt
  else mret tt.

Definition isLoggedOn (serverIsOnline : bool) (jwt : jsval) : M loggedOnResult :=
  if serverIsOnline then
    resp ← softwareGet env "/users/plugin/state" jwt;
    if isResponseOk resp && truthy (resp_data resp) then
      st ← prop (resp_data resp) "state";
      let state := if truthy st then st else JStr "UNKNOWN" in
      if strict_eq state (JStr "OK") then
        email ← prop (resp_data resp) "email";
        setItem "name" email;;
        pluginJwt ← prop (resp_data resp) "jwt";
        modify (with_cachedJwt pluginJwt);;
        (if truthy pluginJwt && strict_ne pluginJwt jwt then
           setItem "jwt" pluginJwt;;
           modify (with_initializedPrefs false)
         else mret tt);;
        mret {| loggedOn := true; state := state |}
      else mret {| loggedOn := false; state := state |}
    else mret {| loggedOn := false; state := JStr "UNKNOWN" |}
  else mret {| loggedOn := false; state := JStr "UNKNOWN" |}.

Definition getUser (serverIsOnline : bool) (jwt : jsval) : M jsval :=
  if truthy jwt && serverIsOnline then
    resp ← softwareGet env "/users/me" jwt;
    if isResponseOk resp then
      if truthy (resp_data resp) then
        user ← prop (resp_data resp) "data";
        if truthy user then mret user else mret JNull
      else mret JNull
    else mret JNull
  else mret JNull.

Definition sendPreferencesUpdate (userId : option Z) (userPrefs : jsval) : M unit :=
  showMusicMetrics ← config_get "showMusicMetrics";
  showGitMetrics ← config_get "showGitMetrics";
  showWeeklyRanking ← config_get "showWeeklyRanking";
  userPrefs ← set_prop userPrefs "showMusic" showMusicMetrics;
  userPrefs ← set_prop userPrefs "showGit" showGitMetrics;
  userPrefs ← set_prop userPrefs "showRank" showWeeklyRanking;
  emit (EUpdateShowMusicMetrics showMusicMetrics);;
  let api := "/users/" +:+ number_to_string userId +:+ "/preferences" in
  jwt ← getItem "jwt";
  resp ← softwarePut env api userPrefs jwt;
  mret tt.

(** [p !== null && p !== undefined ? p : null] *)
Definition set_or_null (p : jsval) : jsval :=
  if strict_ne p JNull && strict_ne p JUndefined then p else JNull.

Definition initializePreferences : M unit :=
  jwt ← getItem "jwt";
  serverIsOnline ← serverIsAvailable;
  if truthy jwt && serverIsOnline then
    user ← getUser serverIsOnline jwt;
    if truthy user then
      prefs ← prop user "preferences";
      if truthy prefs then
        id ← prop user "id";
        let userId := parseInt id in
        showMusic ← prop prefs "showMusic";
        showGit ← prop prefs "showGit";
        showRank ← prop prefs "showRank";
        let prefsShowMusic := set_or_null showMusic in
        let prefsShowGit := set_or_null showGit in
        let prefsShowRank := set_or_null showRank in
        if strict_eq prefsShowMusic JNull || strict_eq prefsShowGit JNull
           || strict_eq prefsShowRank JNull then
          sendPreferencesUpdate userId prefs
        else
          (if strict_ne prefsShowMusic JNull then
             config_update "showMusicMetrics" prefsShowMusic;;
             emit (EUpdateShowMusicMetrics prefsShowMusic)
           else mret tt);;
          (if strict_ne prefsShowGit JNull then
             config_update "showGitMetrics" prefsShowGit
           else mret tt);;
          (if strict_ne prefsShowRank JNull then
             config_update "showWeeklyRanking" prefsShowRank
           else mret tt)
      else mret tt
    else mret tt
  else mret tt.

Definition updatePreferences : M unit :=
  showMusicMetrics ← config_get "showMusicMetrics";
  showGitMetrics ← config_get "showGitMetrics";
  showWeeklyRanking ← config_get "showWeeklyRanking";
  emit (EUpdateShowMusicMetrics showMusicMetrics);;
  jwt ← getItem "jwt";
  serverIsOnline ← serverIsAvailable;
  if truthy jwt && serverIsOnline then
    user ← getUser serverIsOnline jwt;
    if negb (truthy user) then mret tt
    else
      id ← prop user "id";
      resp ← softwareGet env ("/users/" +:+ to_string id) jwt;
      if isResponseOk resp then
        if truthy (resp_data resp) then
          data ← prop (resp_data resp) "data";
          if truthy data then
            prefs ← prop data "preferences";
            if truthy prefs then
              showMusic ← prop prefs "showMusic";
              showGit ← prop prefs "showGit";
              showRank ← prop prefs "showRank";
              let prefsShowMusic := set_or_null showMusic in
              let prefsShowGit := set_or_null showGit in
              let prefsShowRank := set_or_null showRank in
              if strict_eq prefsShowMusic JNull || strict_eq prefsShowGit JNull
                 || strict_eq prefsShowRank JNull
                 || strict_ne prefsShowMusic showMusicMetrics
                 || strict_ne prefsShowGit showGitMetrics
                 || strict_ne prefsShowRank showWeeklyRanking then
                sendPreferencesUpdate (parseInt id) prefs
              else mret tt
            else mret tt
          else mret tt
        else mret tt
      else mret tt
  else mret tt.

Definition sendHeartbeat (reason : string) : M unit :=
  serverIsOnline ← serverIsAvailable;
  jwt ← getItem "jwt";
  if serverIsOnline && truthy jwt then
    start ← nowInSecs;
    let heartbeat :=
      JObj [("pluginId", PLUGIN_ID env); ("os", os_name env);
            ("start", JNum start); ("version", plugin_version env);
            ("hostname", hostname env); ("session_ctime", session_ctime env);
            ("timezone", timezone env); ("trigger_annotation", JStr reason)] in
    detach (softwarePost env "/data/heartbeat" heartbeat jwt)
  else mret tt.

Definition getUserStatus : M userStatus :=
  emit ECleanSessionInfo;;
  jwt ← getItem "jwt";
  serverIsOnline ← serverIsAvailable;
  loggedIn ←
    (if serverIsOnline then
       cached ← gets cachedJwt;
       (if negb (truthy jwt) && negb (truthy cached)
        then createAnonymousUser serverIsOnline else mret tt);;
       jwt ← getItem "jwt";
       loggedInResp ← isLoggedOn serverIsOnline jwt;
       cached ← gets cachedJwt;
       loggedInResp ←
         (if negb (loggedOn loggedInResp) && truthy cached && strict_ne jwt cached
          then isLoggedOn serverIsOnline cached else mret loggedInResp);
       mret (loggedOn loggedInResp)
     else mret false);
  initialized ← gets initializedPrefs;
  (if serverIsOnline && loggedIn && negb initialized then
     detach initializePreferences;;
     modify (with_initializedPrefs true)
   else mret tt);;
  let userStatus := {| loggedIn := loggedIn |} in
  (if negb loggedIn then setItem "name" JNull else mret tt);;
  emit (ESetContext "codetime:loggedIn" loggedIn);;
  lastState ← gets loggedInCacheState;
  (if serverIsOnline && negb (Bool.eqb lastState loggedIn) then
     detach (sendHeartbeat
               ("STATE_CHANGE:LOGGED_IN:" +:+ to_string (JBool loggedIn)));;
     setTimeout CbFetchDailyKpmSessionInfo 1000
   else mret tt);;
  modify (with_loggedInCacheState loggedIn);;
  mret userStatus.

Definition refetchUserStatusLazily (tryCountUntilFoundUser : Z) : M unit :=
  setTimeout (CbUserStatusFetchHandler tryCountUntilFoundUser) 10000.

Definition userStatusFetchHandler (tryCountUntilFoundUser : Z) : M unit :=
  userStatus ← getUserStatus;
  if negb (loggedIn userStatus) then
    if 0 <? tryCountUntilFoundUser then
      refetchUserStatusLazily (tryCountUntilFoundUser - 1)
    else mret tt
  else mret tt.

End WithEnvironment.

End DataController.

(** ** lib/user/OnboardManager.ts *)

Module OnboardManager.

(** 10 minutes *)
Definition check_online_interval_ms : Z := 1000 * 60 * 10.

(** Modelled from the spec: [showOfflinePrompt] of Util is not among the
    sources; it "shows an offline prompt". *)
Definition showOfflinePrompt (addReconnectMsg : bool) : M unit :=
  emit (EShowOfflinePrompt addReconnectMsg).

(** The callback [successFunction(ctx, created)] given by the caller. *)
Definition successFunction (created : bool) : M unit :=
  emit (ESuccessFunction created).

Section WithEnvironment.

Variable env : environment.

Definition createAnonymousUser (serverIsOnline : bool) : M jsval :=
  appJwt ← DataController.getAppJwt env serverIsOnline;
  if truthy appJwt && serverIsOnline then
    jwt ← getItem "jwt";
    if negb (truthy jwt) then
      resp ← softwarePost env "/data/onboard"
               (DataController.onboard_body env "NO_SESSION_FILE") appJwt;
      if isResponseOk resp && truthy (resp_data resp) then
        newJwt ← prop (resp_data resp) "jwt";
        if truthy newJwt then
          setItem "jwt" newJwt;;
          mret newJwt
        else mret JNull
      else mret JNull
    else mret JNull
  else mret JNull.

(** The part of [onboardPlugin] that prompts on the first failure and
    calls activate again later. *)
Definition prompt_and_retry : M unit :=
  retries ← gets retry_counter;
  (if retries =? 0 then showOfflinePrompt true else mret tt);;
  setTimeout CbOnboardRetry check_online_interval_ms.

Definition onboardPlugin : M unit :=
  focused ← gets (fun w => window_focused env (now w));
  activations ← gets secondary_window_activate_counter;
  if negb focused && (activations =? 0) then
    setTimeout CbOnboardSecondaryWindow (1000 * 5)
  else
    serverIsOnline ← DataController.serverIsAvailable env;
    sessionFileExists ← softwareSessionFileExists;
    hasJwt ← jwtExists;
    if negb sessionFileExists || negb hasJwt then
      if negb serverIsOnline then prompt_and_retry
      else
        result ← createAnonymousUser serverIsOnline;
        if negb (truthy result) then prompt_and_retry
        else successFunction true
    else successFunction false.

End WithEnvironment.

End OnboardManager.

(** ** The event loop: timers *)

Module EventLoop.

(** The pending timer that is due first (the one armed first among equal
    due times), and the others. *)
Fixpoint next_timer (q : list (Z * callback))
  : option ((Z * callback) * list (Z * callback)) :=
  match q with
  | [] => None
  | t :: rest =>
      match next_timer rest with
      | Some (t', rest') =>
          if fst t <=? fst t' then Some (t, rest) else Some (t', t :: rest')
      | None => Some (t, [])
      end
  end.

Section WithEnvironment.

Variable env : environment.

(** The bodies of the closures given to [setTimeout]. *)
Definition run_callback (cb : callback) : M unit :=
  match cb with
  | CbFetchDailyKpmSessionInfo => emit EFetchDailyKpmSessionInfo
  | CbUserStatusFetchHandler tries =>
      detach (DataController.userStatusFetchHandler env tries)
  | CbOnboardSecondaryWindow =>
      modify (fun w => with_secondary_window_activate_counter
                         (secondary_window_activate_counter w + 1) w);;
      detach (OnboardManager.onboardPlugin env)
  | CbOnboardRetry =>
      modify (fun w => with_retry_counter (retry_counter w + 1) w);;
      detach (OnboardManager.onboardPlugin env)
  end.

(** One turn: the clock moves to the due time of the next timer and its
    closure runs.  [None] when no timer is pending. *)
Definition tick (w : world) : option world :=
  match next_timer (timers w) with
  | Some ((due, cb), rest) =>
      Some (snd (run_callback cb
                   (with_now (Z.max (now w) due) (with_timers rest w))))
  | None => None
  end.

(** At most [turns] turns; stops early when no timer is pending. *)
Fixpoint run (turns : nat) (w : world) : world :=
  match turns with
  | O => w
  | S turns' =>
      match tick w with
      | Some w' => run turns' w'
      | None => w
      end
  end.

End WithEnvironment.

End EventLoop.

(** ** Vocabulary of the properties *)

Module Props.

(** The token held by the local store. *)
Definition stored_jwt (w : world) : jsval := default JNull (items w !! "jwt").

(** A token is present, in memory or in the store. *)
Definition token_present (w : world) : Prop :=
  truthy (cachedJwt w) = true \/ truthy (stored_jwt w) = true.

(** The events a computation adds to the log. *)
Definition emitted {A} (m : M A) (w : world) : list event :=
  drop (length (trace w)) (trace (snd (m w))).

Definition is_onboard_post (e : event) : bool :=
  match e with
  | EHttp (Post api _ _) => String.eqb api "/data/onboard"
  | _ => false
  end.

Definition is_put (e : event) : bool :=
  match e with
  | EHttp (Put _ _ _) => true
  | _ => false
  end.

Definition is_prompt (e : event) : bool :=
  match e with
  | EShowOfflinePrompt _ => true
  | _ => false
  end.

Definition is_timeout (e : event) : bool :=
  match e with
  | ESetTimeout _ _ => true
  | _ => false
  end.

(** What is kept of the log to follow [refetchUserStatusLazily]: the start
    of every status check ([getUserStatus] begins with [cleanSessionInfo])
    and every arming of the re-check timer. *)
Definition is_refetch_event (e : event) : bool :=
  match e with
  | ECleanSessionInfo => true
  | ESetTimeout _ (CbUserStatusFetchHandler _) => true
  | _ => false
  end.

(** A computation is stable for a relation between worlds when the world
    it ends in, whether it returns or throws, is related to the one it
    starts from. *)
Definition stable (R : relation world) {A} (m : M A) : Prop :=
  forall w, R w (snd (m w)).

(** A field of the world is left as it is. *)
Definition keeps {X} (field : world -> X) : relation world :=
  fun w w' => field w' = field w.

(** The log only grows, and by events outside [watch]. *)
Definition quiet (watch : event -> bool) : relation world :=
  fun w w' => exists d, trace w' = trace w ++ d /\ List.filter watch d = [].

(** The world after a request was handed to the transport. *)
Definition sent (r : request) (w : world) : world :=
  with_requests (S (requests w)) (with_trace (trace w ++ [EHttp r]) w).

(** [wp m Q w]: run from [w], [m] ends with an outcome and a world that
    satisfy [Q]. *)
Definition wp {A} (m : M A) (Q : outcome A -> world -> Prop) (w : world) : Prop :=
  Q (fst (m w)) (snd (m w)).

(** A token cached in memory is the token of the local store. *)
Definition persisted (w : world) : Prop :=
  truthy (cachedJwt w) = true -> stored_jwt w = cachedJwt w.

(** The fields the token invariant reads are left alone. *)
Definition keeps_token : relation world :=
  fun w w' => keeps cachedJwt w w' /\ keeps stored_jwt w w'.

(** The state of the two modules when they are loaded: the module-level
    variables have their initial values and no timer is armed; the local
    store, the configuration, the files and the clock are whatever they
    are. *)
Definition startup (store : gmap string jsval) (config : gmap string jsval)
    (batch : option string) (session : bool) (clock : Z) : world :=
  {| loggedInCacheState := false; initializedPrefs := false;
     cachedJwt := JNull;
     secondary_window_activate_counter := 0; retry_counter := 0;
     items := store; configuration := config; dataStoreFile := batch;
     sessionFile := session; now := clock; timers := []; requests := 0;
     trace := [] |}.

(** The calls the rest of the extension and the event loop can make, the
    two call sites of the private [isLoggedOn], and what happens around
    the modules: the user edits a setting, the batch file or the session
    file changes, time passes. *)
Inductive operation : Type :=
| OpServerIsAvailable
| OpSendOfflineData
| OpSendMusicData (trackData : jsval)
| OpGetAppJwt (serverIsOnline : bool)
| OpCreateAnonymousUser (serverIsOnline : bool)
| OpIsLoggedOnStored (serverIsOnline : bool)
| OpIsLoggedOnCached (serverIsOnline : bool)
| OpGetUserStatus
| OpGetUser (serverIsOnline : bool) (jwt : jsval)
| OpInitializePreferences
| OpUpdatePreferences
| OpRefetchUserStatusLazily (tryCountUntilFoundUser : Z)
| OpSendHeartbeat (reason : string)
| OpOnboardPlugin
| OpOnboardCreateAnonymousUser (serverIsOnline : bool)
| OpTimerFires
| OpConfigure (key : string) (value : jsval)
| OpBatchFile (content : option string)
| OpSessionFile (present : bool)
| OpElapse (ms : Z).

Section WithEnvironment.

Variable env : environment.

Definition perform (op : operation) (w : world) : world :=
  match op with
  | OpServerIsAvailable => snd (DataController.serverIsAvailable env w)
  | OpSendOfflineData => snd (DataController.sendOfflineData env w)
  | OpSendMusicData trackData => snd (DataController.sendMusicData env trackData w)
  | OpGetAppJwt b => snd (DataController.getAppJwt env b w)
  | OpCreateAnonymousUser b => snd (DataController.createAnonymousUser env b w)
  | OpIsLoggedOnStored b =>
      snd ((jwt ← getItem "jwt"; DataController.isLoggedOn env b jwt) w)
  | OpIsLoggedOnCached b =>
      snd ((cached ← gets cachedJwt; DataController.isLoggedOn env b cached) w)
  | OpGetUserStatus => snd (DataController.getUserStatus env w)
  | OpGetUser b jwt => snd (DataController.getUser env b jwt w)
  | OpInitializePreferences => snd (DataController.initializePreferences env w)
  | OpUpdatePreferences => snd (DataController.updatePreferences env w)
  | OpRefetchUserStatusLazily n => snd (DataController.refetchUserStatusLazily n w)
  | OpSendHeartbeat reason => snd (DataController.sendHeartbeat env reason w)
  | OpOnboardPlugin => snd (OnboardManager.onboardPlugin env w)
  | OpOnboardCreateAnonymousUser b => snd (OnboardManager.createAnonymousUser env b w)
  | OpTimerFires => default w (EventLoop.tick env w)
  | OpConfigure key value => snd (config_update key value w)
  | OpBatchFile content => with_dataStoreFile content w
  | OpSessionFile present =>
      {| loggedInCacheState := loggedInCacheState w;
         initializedPrefs := initializedPrefs w; cachedJwt := cachedJwt w;
         secondary_window_activate_counter := secondary_window_activate_counter w;
         retry_counter := retry_counter w; items := items w;
         configuration := configuration w; dataStoreFile := dataStoreFile w;
         sessionFile := present; now := now w; timers := timers w;
         requests := requests w; trace := trace w |}
  | OpElapse ms => with_now (now w + Z.max 0 ms) w
  end.

(** The states the two modules can be in after any sequence of
    sequential calls. *)
Inductive reachable : world -> Prop :=
| reachable_startup store config batch session clock :
    reachable (startup store config batch session clock)
| reachable_perform op w :
    reachable w -> reachable (perform op w).

(** The payload of [sendOfflineData] as the data model words it: the
    lines are read one by one, a line that is empty, does not parse, or
    parses to a falsy value is dropped, the others give their value. *)
Definition line_value (line : string) : option jsval :=
  if String.eqb line "" then None
  else
    match JSON_parse env line with
    | Some v => if truthy v then Some v else None
    | None => None
    end.

Definition batch_values (content : string) : list jsval :=
  omap line_value (DataController.split_lines content).

(** The lines of a batch file that parse as JSON. *)
Definition valid_lines (content : string) : list string :=
  List.filter (fun line => bool_decide (is_Some (JSON_parse env line)))
    (DataController.split_lines content).

End WithEnvironment.

(** Environments to run the code in. *)
Definition environment_with (net : nat -> request -> reply) : environment :=
  {| transport := net; window_focused := fun _ => true;
     JSON_parse := Json.parse;
     os_username := JStr "dev"; hostname := JStr "host";
     timezone := JStr "UTC"; PLUGIN_ID := JNum 2; os_name := JStr "linux";
     plugin_version := JStr "0.9.0"; session_ctime := JNum 0 |}.

(** No network: every request is rejected by the transport. *)
Definition offline : environment := environment_with (fun _ _ => Rejected).

Definition ok_response (data : jsval) : reply :=
  Resolved {| resp_ok := true; resp_deactivated := false; resp_data := data |}.

Definition not_ok_response : reply :=
  Resolved {| resp_ok := false; resp_deactivated := false; resp_data := JUndefined |}.

(** A server that answers every request and always grants the token
    ["T1"] (the data of every answer is [{jwt: "T1", state: "OK"}]). *)
Definition granting : environment :=
  environment_with (fun _ _ =>
    ok_response (JObj [("jwt", JStr "T1"); ("state", JStr "OK")])).

(** A server that is up and answers every request with a not-ok
    response, the liveness probe apart. *)
Definition refusing : environment :=
  environment_with (fun _ r =>
    match r with
    | Get api JNull => if String.eqb api "/ping" then ok_response JUndefined
                       else not_ok_response
    | _ => not_ok_response
    end).

(** What [getAppJwt] leaves alone: the token, and no onboarding request. *)
Definition apptoken_frame : relation world :=
  fun w w' => keeps_token w w' /\ quiet is_onboard_post w w'.

(** The state after a first, successful creation by DataController: the
    token ["T1"] is cached and stored. *)
Definition onboarded : world :=
  perform granting (OpCreateAnonymousUser true) (startup ∅ ∅ None false 0).

(** The state after a status check against a server that grants a token
    and reports the user as logged in. *)
Definition logged_in : world :=
  perform granting OpGetUserStatus (startup ∅ ∅ None false 0).

(** A world in which the token ["T0"] is stored and the preferences have
    been initialized. *)
Definition initialized : world :=
  with_initializedPrefs true (startup {["jwt" := JStr "T0"]} ∅ None true 0).

(** A server that reports the user as logged in and sends no token: the
    data of every answer is [{state: "OK"}]. *)
Definition state_ok_no_token : environment :=
  environment_with (fun _ _ => ok_response (JObj [("state", JStr "OK")])).

(** The request fails: its promise is rejected, or it resolves to a
    response classified as not ok. *)
Definition fails (r : reply) : Prop :=
  match r with
  | Resolved resp => isResponseOk resp = false
  | Rejected => True
  end.

(** The request is answered by a response classified as not ok. *)
Definition not_ok (r : reply) : Prop :=
  exists resp, r = Resolved resp /\ isResponseOk resp = false.

(** The answer of a reachability probe sent from [w]. *)
Definition probe (env : environment) (w : world) : bool :=
  match transport env (requests w) (Get "/ping" JNull) with
  | Resolved resp => isResponseOk resp
  | Rejected => false
  end.

(** The batch request [sendOfflineData] sends for a file content. *)
Definition batch_post (env : environment) (content : string) (w : world) : request :=
  Post "/data/batch" (JArr (batch_values env content)) (stored_jwt w).

(** The batch is accepted: the POST resolves to a response that is ok or
    reports a deactivated user, and the reachability probe sent after it
    succeeds. *)
Definition batch_accepted (env : environment) (content : string) (w : world) : bool :=
  match transport env (requests w) (batch_post env content w) with
  | Resolved resp =>
      (isResponseOk resp || isUserDeactivated resp)
      && probe env (sent (batch_post env content w) w)
  | Rejected => false
  end.

(** The characters a string literal cannot hold as they are. *)
Definition quote : string := String "034" EmptyString.
Definition newline : string := String "010" EmptyString.

(** The lines [{"a":1}] and [{"b":2}], and the batch file of the
    scenario: the first line, an empty line, the line [badjson], the
    second line. *)
Definition line_a : string := "{" +:+ quote +:+ "a" +:+ quote +:+ ":1}".
Definition line_b : string := "{" +:+ quote +:+ "b" +:+ quote +:+ ":2}".
Definition scenario_batch : string :=
  line_a +:+ newline +:+ newline +:+ "badjson" +:+ newline +:+ line_b.

(** A batch file whose first line is the JSON text [0]. *)
Definition zero_batch : string := "0" +:+ newline +:+ line_a.

(** The value of a setting in the editor configuration. *)
Definition config_value (w : world) (key : string) : jsval :=
  default JUndefined (configuration w !! key).

(** A remote preference is unset: [null] or [undefined]. *)
Definition is_unset (p : jsval) : bool :=
  match p with
  | JUndefined | JNull => true
  | _ => false
  end.

Definition any_unset (prefs : list (string * jsval)) : bool :=
  is_unset (assoc "showMusic" prefs) || is_unset (assoc "showGit" prefs)
  || is_unset (assoc "showRank" prefs).

(** The remote preferences with the three fields set to the current local
    configuration values. *)
Definition local_preferences (w : world) (prefs : list (string * jsval))
  : list (string * jsval) :=
  put_field "showRank" (config_value w "showWeeklyRanking")
    (put_field "showGit" (config_value w "showGitMetrics")
       (put_field "showMusic" (config_value w "showMusicMetrics") prefs)).

(** The PUT to /users/:id/preferences that pushes the local values. *)
Definition preferences_put (w : world) (id : jsval) (prefs : list (string * jsval))
  : request :=
  Put ("/users/" +:+ number_to_string (parseInt id) +:+ "/preferences")
    (JObj (local_preferences w prefs)) (stored_jwt w).

(** The three remote fields are set and equal the local configuration
    values. *)
Definition in_sync (w : world) (prefs : list (string * jsval)) : bool :=
  negb (any_unset prefs)
  && strict_eq (assoc "showMusic" prefs) (config_value w "showMusicMetrics")
  && strict_eq (assoc "showGit" prefs) (config_value w "showGitMetrics")
  && strict_eq (assoc "showRank" prefs) (config_value w "showWeeklyRanking").

(** The events of the two fetches of [initializePreferences]. *)
Definition profile_fetch (w : world) : list event :=
  [EHttp (Get "/ping" JNull); EHttp (Get "/users/me" (stored_jwt w))].

(** A server that answers every request with the profile of user 7, whose
    remote preferences are [prefs]: the data of every answer is
    [{data: {id: 7, preferences: prefs}}]. *)
Definition profile_server (prefs : list (string * jsval)) : environment :=
  environment_with (fun _ _ =>
    ok_response
      (JObj [("data", JObj [("id", JNum 7); ("preferences", JObj prefs)])])).

(** A world with a stored token and the three settings configured. *)
Definition configured : world :=
  startup {["jwt" := JStr "T0"]}
    (<["showMusicMetrics" := JBool false]>
       (<["showGitMetrics" := JBool true]>
          (<["showWeeklyRanking" := JBool true]> ∅)))
    None true 0.

(** The events of [updatePreferences] up to the fetch of the remote
    preferences of the user whose id is [id]. *)
Definition preferences_fetch (w : world) (id : jsval) : list event :=
  [EUpdateShowMusicMetrics (config_value w "showMusicMetrics");
   EHttp (Get "/ping" JNull); EHttp (Get "/users/me" (stored_jwt w));
   EHttp (Get ("/users/" +:+ to_string id) (stored_jwt w))].

(** The clock and the timer queue are left alone. *)
Definition keeps_clock : relation world :=
  fun w w' => keeps now w w' /\ keeps timers w w'.

(** What is kept of the log of a re-check chain that starts with the
    status check of [userStatusFetchHandler tries]: the check, then the
    arming of the next timer and its chain, as long as tries remain. *)
Fixpoint refetch_chain (tries : nat) : list event :=
  ECleanSessionInfo ::
  match tries with
  | O => []
  | S tries' =>
      ESetTimeout 10000 (CbUserStatusFetchHandler (Z.of_nat tries'))
      :: refetch_chain tries'
  end.

(** What the calls made by [onboardPlugin] leave alone: the clock, the
    timers and the retry counter; and they neither prompt nor arm a
    timer. *)
Definition onboard_frame : relation world :=
  fun w w' =>
    keeps now w w' /\ keeps timers w w' /\ keeps retry_counter w w'
    /\ quiet is_prompt w w' /\ quiet is_timeout w w'.

(** No session yet: the session file or the token is missing. *)
Definition no_session (w : world) : Prop :=
  sessionFile w = false \/ truthy (stored_jwt w) = false.

(** The window is focused, or a deferred activation already took place. *)
Definition activates (env : environment) (w : world) : Prop :=
  window_focused env (now w) = true \/ secondary_window_activate_counter w <> 0.

(** The two ways [onboardPlugin] arms a timer. *)
Definition onboard_timeout (e : event) : Prop :=
  e = ESetTimeout 5000 CbOnboardSecondaryWindow
  \/ e = ESetTimeout 600000 CbOnboardRetry.

(** The state of an onboarding flow that started in [w0]: the events
    added since hold at most one prompt and no arming of a timer but the
    two of [onboardPlugin]; at most one timer is pending, and it is one of
    these two; once the prompt was shown, the retry counter is positive or
    is about to be incremented by the pending retry. *)
Definition onboarding (w0 w : world) : Prop :=
  0 <= retry_counter w
  /\ exists d,
       trace w = trace w0 ++ d
       /\ (length (List.filter is_prompt d) <= 1)%nat
       /\ Forall onboard_timeout (List.filter is_timeout d)
       /\ (timers w = []
           \/ (exists due, timers w = [(due, CbOnboardSecondaryWindow)])
           \/ (exists due, timers w = [(due, CbOnboardRetry)]))
       /\ (List.filter is_prompt d <> [] ->
           1 <= retry_counter w \/ exists due, timers w = [(due, CbOnboardRetry)]).

(** The record [sendHeartbeat] posts from [w] for a trigger [reason]. *)
Definition heartbeat_body (env : environment) (w : world) (reason : string) : jsval :=
  JObj [("pluginId", PLUGIN_ID env); ("os", os_name env);
        ("start", JNum (now w / 1000)); ("version", plugin_version env);
        ("hostname", hostname env); ("session_ctime", session_ctime env);
        ("timezone", timezone env); ("trigger_annotation", JStr reason)].

(** Nothing changes but the log, and the log grows by requests only. *)
Definition is_local_event (e : event) : bool :=
  match e with
  | EHttp _ => false
  | _ => true
  end.

Definition only_requests : relation world :=
  fun w w' =>
    keeps loggedInCacheState w w' /\ keeps initializedPrefs w w'
    /\ keeps cachedJwt w w'
    /\ keeps secondary_window_activate_counter w w'
    /\ keeps retry_counter w w' /\ keeps items w w'
    /\ keeps configuration w w' /\ keeps dataStoreFile w w'
    /\ keeps sessionFile w w' /\ keeps now w w' /\ keeps timers w w'
    /\ quiet is_local_event w w'.

(** The world of a first run: nothing stored, nothing configured. *)
Definition first_run : world := startup ∅ ∅ None false 0.

(** A world whose cache holds the token ["T0"] while the store is
    empty. *)
Definition cache_only : world :=
  with_cachedJwt (JStr "T0") (startup ∅ ∅ None false 0).

(** The stored token is what it was, or it is (still, or newly) a
    token. *)
Definition token_kept : relation world :=
  fun w w' => stored_jwt w' = stored_jwt w \/ truthy (stored_jwt w') = true.

(** A sequence of operations, performed one after the other. *)
Definition perform_all (env : environment) (ops : list operation) (w : world) : world :=
  fold_left (fun w op => perform env op w) ops w.

(** The publication of an editor context flag. *)
Definition is_context_flag (e : event) : bool :=
  match e with
  | ESetContext _ _ => true
  | _ => false
  end.

(** The heartbeat request. *)
Definition is_heartbeat (e : event) : bool :=
  match e with
  | EHttp (Post api _ _) => String.eqb api "/data/heartbeat"
  | _ => false
  end.

(** The signals of a status check: the publication of the context flag
    and the heartbeat request. *)
Definition is_signal (e : event) : bool := is_context_flag e || is_heartbeat e.

(** The login state differs from the one the last status check
    recorded, and the server was reachable. *)
Definition state_changed (env : environment) (w : world) (loggedIn : bool) : bool :=
  probe env w && negb (Bool.eqb (loggedInCacheState w) loggedIn).

(** What the steps of [getUserStatus] before the publication leave
    alone. *)
Definition status_frame : relation world :=
  fun w w' =>
    keeps loggedInCacheState w w' /\ keeps timers w w' /\ keeps now w w'
    /\ quiet is_signal w w'.

(** The annotation of the heartbeat sent when the login state changes. *)
Definition state_change (loggedIn : bool) : string :=
  "STATE_CHANGE:LOGGED_IN:" +:+ to_string (JBool loggedIn).

(** Where a status check that started in [w] and found [loggedIn] ends,
    as far as its signals go. *)
Definition published (env : environment) (w : world) (loggedIn : bool) (w' : world)
  : Prop :=
  loggedInCacheState w' = loggedIn
  /\ (loggedIn = true -> probe env w = true /\ initializedPrefs w' = true)
  /\ (loggedIn = false -> items w' !! "name" = Some JNull)
  /\ timers w' =
       timers w ++
       (if state_changed env w loggedIn
        then [(now w + 1000, CbFetchDailyKpmSessionInfo)] else [])
  /\ exists d heartbeat,
       trace w' = trace w ++ d
       /\ List.filter is_signal d =
            ESetContext "codetime:loggedIn" loggedIn :: heartbeat
       /\ (heartbeat = []
           \/ state_changed env w loggedIn = true
              /\ heartbeat =
                   [EHttp (Post "/data/heartbeat"
                             (heartbeat_body env w (state_change loggedIn))
                             (stored_jwt w'))]).

(** The log only grows, and by at most one event of [watch]. *)
Definition at_most_once (watch : event -> bool) : relation world :=
  fun w w' =>
    exists d, trace w' = trace w ++ d /\ (length (List.filter watch d) <= 1)%nat.

(** The payload ([data.data]) of the answer the transport gives to the
    request [r] when it is the [n]-th one: [undefined] when the request
    fails or the answer holds no object. *)
Definition answer (env : environment) (n : nat) (r : request) : jsval :=
  match transport env n r with
  | Resolved resp =>
      if isResponseOk resp then
        match resp_data resp with
        | JObj data => assoc "data" data
        | _ => JUndefined
        end
      else JUndefined
  | Rejected => JUndefined
  end.

(** Values compared by value under [===]. *)
Definition is_primitive (v : jsval) : bool :=
  match v with
  | JArr _ | JObj _ => false
  | _ => true
  end.

(** Remote preferences with the three fields set. *)
Definition remote_preferences : list (string * jsval) :=
  [("showMusic", JBool true); ("showGit", JBool false); ("showRank", JBool true)].

(** The arming of a timer of [userStatusFetchHandler]. *)
Definition is_rearm (e : event) : bool :=
  match e with
  | ESetTimeout _ (CbUserStatusFetchHandler _) => true
  | _ => false
  end.

(** The start of a status check. *)
Definition is_check (e : event) : bool :=
  match e with
  | ECleanSessionInfo => true
  | _ => false
  end.

(** The status check made from [w] returns {loggedIn: false}. *)
Definition check_failed (env : environment) (w : world) : bool :=
  match fst (DataController.getUserStatus env w) with
  | Returned status => negb (DataController.loggedIn status)
  | Thrown _ => false
  end.

(** The arming of the five-second deferral of an unfocused window. *)
Definition is_deferral (e : event) : bool :=
  match e with
  | ESetTimeout _ CbOnboardSecondaryWindow => true
  | _ => false
  end.

(** A call of the success callback. *)
Definition is_success (e : event) : bool :=
  match e with
  | ESuccessFunction _ => true
  | _ => false
  end.

(** What the calls made by [onboardPlugin] leave alone: the clock and the
    timers; and they neither defer nor call the success callback. *)
Definition flow_frame : relation world :=
  fun w w' =>
    keeps now w w' /\ keeps timers w w'
    /\ quiet is_deferral w w' /\ quiet is_success w w'.

(** The state of an onboarding flow that started in [w0], as far as the
    deferral and the success callback go: at most one timer is pending;
    the deferral was armed at most once, and then the activation counter
    is positive or is about to be incremented by the pending deferral;
    the success callback was not called, or it was called once and no
    timer is pending. *)
Definition flow_state (w0 w : world) : Prop :=
  0 <= secondary_window_activate_counter w
  /\ exists d,
       trace w = trace w0 ++ d
       /\ (timers w = []
           \/ (exists due, timers w = [(due, CbOnboardSecondaryWindow)])
           \/ (exists due, timers w = [(due, CbOnboardRetry)]))
       /\ (length (List.filter is_deferral d) <= 1)%nat
       /\ (List.filter is_deferral d <> [] ->
           1 <= secondary_window_activate_counter w
           \/ exists due, timers w = [(due, CbOnboardSecondaryWindow)])
       /\ (List.filter is_success d = []
           \/ (timers w = [] /\ length (List.filter is_success d) = 1%nat)).

(** An environment whose window is never focused and whose server cannot
    be reached. *)
Definition unfocused : environment :=
  {| transport := fun _ _ => Rejected; window_focused := fun _ => false;
     JSON_parse := Json.parse;
     os_username := JStr "dev"; hostname := JStr "host";
     timezone := JStr "UTC"; PLUGIN_ID := JNum 2; os_name := JStr "linux";
     plugin_version := JStr "0.9.0"; session_ctime := JNum 0 |}.

(** The request for the login state. *)
Definition is_state_request (e : event) : bool :=
  match e with
  | EHttp (Get api _) => String.eqb api "/users/plugin/state"
  | _ => false
  end.

(** The tokens the server sends are primitives (strings, in practice):
    the jwt field of an answer is never an object or an array. *)
Definition primitive_tokens (env : environment) : Prop :=
  forall n r resp fields,
    transport env n r = Resolved resp -> resp_data resp = JObj fields ->
    is_primitive (assoc "jwt" fields) = true.

(** The token cache holds a primitive afterwards if it did before. *)
Definition primitive_cache_kept : relation world :=
  fun w w' =>
    is_primitive (cachedJwt w) = true -> is_primitive (cachedJwt w') = true.

(** The log only grows; if the success callback was called, a token is
    stored afterwards; and a stored token is not cleared. *)
Definition success_frame : relation world :=
  fun w w' =>
    token_kept w w'
    /\ exists d,
         trace w' = trace w ++ d
         /\ (List.filter is_success d <> [] -> truthy (stored_jwt w') = true).

(** A world whose batch file holds the line [{"a":1}]. *)
Definition one_batch : world := startup ∅ ∅ (Some line_a) false 0.

(** A server that answers every request ok and without a body. *)
Definition bodiless : environment :=
  environment_with (fun _ _ => ok_response JUndefined).

(** Whenever the probe succeeds, the creation of the anonymous user that
    [onboardPlugin] awaits next returns (with a token or without): no
    request of it is rejected and no ok answer lacks its body. *)
Definition creation_returns (env : environment) : Prop :=
  forall u,
    probe env u = true ->
    exists result,
      fst (OnboardManager.createAnonymousUser env true (sent (Get "/ping" JNull) u))
        = Returned result.

(** A server that answers the liveness probe and whose connection drops
    on every other request. *)
Definition flaky : environment :=
  environment_with (fun _ r =>
    match r with
    | Get api JNull => if String.eqb api "/ping" then ok_response JUndefined
                       else Rejected
    | _ => Rejected
    end).

(** The state of an onboarding flow that started in [w0] and in which no
    attempt threw: a deferral or a retry is pending, or the success
    callback was called, once, and nothing is pending. *)
Definition live (w0 w : world) : Prop :=
  exists d,
    trace w = trace w0 ++ d
    /\ ((timers w = [] /\ length (List.filter is_success d) = 1%nat)
        \/ ((exists due, timers w = [(due, CbOnboardSecondaryWindow)]
                         \/ timers w = [(due, CbOnboardRetry)])
            /\ List.filter is_success d = [])).

End Props.

Import Props.

(** * Proofs *)

(** ** Reasoning about computations *)

#[global] Instance keeps_refl {X} (field : world -> X) : Reflexive (keeps field).
Proof. intros w. reflexivity. Qed.

#[global] Instance keeps_trans {X} (field : world -> X) : Transitive (keeps field).
Proof. intros a b c H1 H2. unfold keeps in *. congruence. Qed.

#[global] Instance quiet_refl watch : Reflexive (quiet watch).
Proof. intros w. exists []. by rewrite app_nil_r. Qed.

#[global] Instance quiet_trans watch : Transitive (quiet watch).
Proof.
  intros a b c (d1 & E1 & F1) (d2 & E2 & F2). exists (d1 ++ d2). split.
  - by rewrite E2, E1, app_assoc.
  - by rewrite List.filter_app, F1, F2.
Qed.

Section Stable.

Context (R : relation world) `{!Reflexive R} `{!Transitive R}.

Lemma stable_ret {A} (a : A) : stable R (mret a).
Proof. intros w. reflexivity. Qed.

Lemma stable_throw {A} e : stable R (@throw A e).
Proof. intros w. reflexivity. Qed.

Lemma stable_gets {A} (f : world -> A) : stable R (gets f).
Proof. intros w. reflexivity. Qed.

Lemma stable_bind {A B} (m : M A) (f : A -> M B) :
  stable R m -> (forall a, stable R (f a)) -> stable R (m ≫= f).
Proof.
  intros Hm Hf w. specialize (Hm w). unfold mbind, M_bind.
  destruct (m w) as [[a|e] w1]; simpl in *; [|done].
  etrans; [exact Hm | apply Hf].
Qed.

Lemma stable_catch {A} (m : M A) (h : exn -> M A) :
  stable R m -> (forall e, stable R (h e)) -> stable R (catch m h).
Proof.
  intros Hm Hh w. specialize (Hm w). unfold catch.
  destruct (m w) as [[a|e] w1]; simpl in *; [done|].
  etrans; [exact Hm | apply Hh].
Qed.

Lemma stable_detach {A} (m : M A) : stable R m -> stable R (detach m).
Proof. intros Hm w. apply Hm. Qed.

Lemma stable_prop v k : stable R (prop v k).
Proof. intros w. destruct v; reflexivity. Qed.

Lemma stable_set_prop o k v : stable R (set_prop o k v).
Proof. intros w. destruct o; reflexivity. Qed.

Lemma stable_modify (f : world -> world) :
  (forall w, R w (f w)) -> stable R (modify f).
Proof. intros H w. apply H. Qed.

Lemma stable_send env r :
  (forall w, R w (with_requests (S (requests w))
                    (with_trace (trace w ++ [EHttp r]) w))) ->
  stable R (send env r).
Proof.
  intros H w. unfold send. destruct (transport env (requests w) r); apply H.
Qed.

End Stable.

Lemma stable_and (R1 R2 : relation world) {A} (m : M A) :
  stable R1 m -> stable R2 m -> stable (fun w w' => R1 w w' /\ R2 w w') m.
Proof. intros H1 H2 w. split; [apply H1 | apply H2]. Qed.

Ltac unfold_code :=
  unfold DataController.getUserStatus, DataController.userStatusFetchHandler,
    DataController.refetchUserStatusLazily, DataController.sendHeartbeat,
    DataController.updatePreferences, DataController.initializePreferences,
    DataController.sendPreferencesUpdate, DataController.getUser,
    DataController.isLoggedOn, DataController.createAnonymousUser,
    DataController.getAppJwt, DataController.sendMusicData,
    DataController.sendOfflineData, DataController.serverIsAvailable,
    OnboardManager.onboardPlugin, OnboardManager.prompt_and_retry,
    OnboardManager.createAnonymousUser, OnboardManager.showOfflinePrompt,
    OnboardManager.successFunction,
    softwareGet, softwarePost, softwarePut, getItem, setItem, jwtExists,
    softwareSessionFileExists, config_get, config_update, readDataStoreFile,
    deleteFile, nowInSecs, setTimeout, emit.

(** What is left at a primitive: the relation between a world and the
    same world with some fields set. *)
Ltac stable_prim :=
  first
    [ reflexivity
    | by (exists []; rewrite app_nil_r)
    | by (eexists [_])
    | by (unfold keeps, stored_jwt; simpl; rewrite lookup_insert_ne) ].

Ltac stable_step :=
  lazymatch goal with
  | |- stable _ (mbind _ _) => apply stable_bind; [tc_solve..| | intros ?]
  | |- stable _ (mret _) => apply stable_ret; tc_solve
  | |- stable _ (throw _) => apply stable_throw; tc_solve
  | |- stable _ (catch _ _) => apply stable_catch; [tc_solve..| | intros ?]
  | |- stable _ (detach _) => apply stable_detach
  | |- stable _ (gets _) => apply stable_gets; tc_solve
  | |- stable _ (prop _ _) => apply stable_prop; tc_solve
  | |- stable _ (set_prop _ _ _) => apply stable_set_prop; tc_solve
  | |- stable _ (modify _) => apply stable_modify; intros ?; stable_prim
  | |- stable _ (send _ _) => apply stable_send; intros ?; stable_prim
  | |- stable _ (if ?c then _ else _) => destruct c
  | |- stable _ (match ?x with _ => _ end) => destruct x
  end.

Ltac stable_auto := repeat (unfold_code; lazy zeta; stable_step).

(** ** Running a computation step by step *)

Lemma wp_pair {A} (m : M A) w (P : outcome A * world -> Prop) :
  wp m (fun o w' => P (o, w')) w -> P (m w).
Proof. unfold wp. by destruct (m w). Qed.

Lemma wp_ret {A} (a : A) Q w : Q (Returned a) w -> wp (mret a) Q w.
Proof. done. Qed.

Lemma wp_throw {A} e (Q : outcome A -> world -> Prop) w :
  Q (Thrown e) w -> wp (throw e) Q w.
Proof. done. Qed.

Lemma wp_gets {A} (f : world -> A) Q w : Q (Returned (f w)) w -> wp (gets f) Q w.
Proof. done. Qed.

Lemma wp_modify f Q w : Q (Returned tt) (f w) -> wp (modify f) Q w.
Proof. done. Qed.

Lemma wp_bind {A B} (m : M A) (f : A -> M B) Q w :
  wp m (fun o w' => match o with
                    | Returned a => wp (f a) Q w'
                    | Thrown e => Q (Thrown e) w'
                    end) w ->
  wp (m ≫= f) Q w.
Proof. unfold wp, mbind, M_bind. by destruct (m w) as [[a|e] w']. Qed.

Lemma wp_catch {A} (m : M A) (h : exn -> M A) Q w :
  wp m (fun o w' => match o with
                    | Returned a => Q (Returned a) w'
                    | Thrown e => wp (h e) Q w'
                    end) w ->
  wp (catch m h) Q w.
Proof. unfold wp, catch. by destruct (m w) as [[a|e] w']. Qed.

Lemma wp_detach {A} (m : M A) Q w :
  wp m (fun _ w' => Q (Returned tt) w') w -> wp (detach m) Q w.
Proof. done. Qed.

Lemma wp_send env r Q w :
  match transport env (requests w) r with
  | Resolved resp => Q (Returned resp) (sent r w)
  | Rejected => Q (Thrown TransportFailure) (sent r w)
  end ->
  wp (send env r) Q w.
Proof. unfold wp, send, sent. by destruct (transport env (requests w) r). Qed.

Lemma wp_prop v k Q w :
  match v with
  | JUndefined | JNull => Q (Thrown TypeError) w
  | JObj fields => Q (Returned (assoc k fields)) w
  | _ => Q (Returned JUndefined) w
  end ->
  wp (prop v k) Q w.
Proof. by destruct v. Qed.

Lemma wp_set_prop o k v Q w :
  match o with
  | JObj fields => Q (Returned (JObj (put_field k v fields))) w
  | JArr elems => Q (Returned (JArr elems)) w
  | _ => Q (Thrown TypeError) w
  end ->
  wp (set_prop o k v) Q w.
Proof. by destruct o. Qed.

(** A call whose effect is known only through a frame. *)
Lemma wp_stable (R : relation world) {A} (m : M A) Q w :
  stable R m -> (forall o w', R w w' -> Q o w') -> wp m Q w.
Proof. intros Hm HQ. apply HQ, Hm. Qed.

Lemma wp_mono {A} (m : M A) (Q Q' : outcome A -> world -> Prop) w :
  wp m Q w -> (forall o w', Q o w' -> Q' o w') -> wp m Q' w.
Proof. intros H HQ. apply HQ, H. Qed.

Ltac wp_prim :=
  lazymatch goal with
  | |- wp (mbind _ _) _ _ => apply wp_bind
  | |- wp (mret _) _ _ => apply wp_ret
  | |- wp (gets _) _ _ => apply wp_gets
  | |- wp (modify _) _ _ => apply wp_modify
  | |- wp (throw _) _ _ => apply wp_throw
  | |- wp (catch _ _) _ _ => apply wp_catch
  | |- wp (detach _) _ _ => apply wp_detach
  | |- wp (prop _ _) _ _ => apply wp_prop
  | |- wp (set_prop _ _ _) _ _ => apply wp_set_prop
  | |- wp (send _ _) _ _ => apply wp_send
  end.

Ltac unfold_prims :=
  unfold softwareGet, softwarePost, softwarePut, getItem, setItem, jwtExists,
    softwareSessionFileExists, config_get, config_update, readDataStoreFile,
    deleteFile, nowInSecs, setTimeout, emit, OnboardManager.showOfflinePrompt,
    OnboardManager.successFunction.

(** Run the straight-line part of a computation. *)
Ltac wp_go := repeat (unfold_prims; lazy zeta beta; wp_prim).
(** ** The token invariant *)

Lemma strict_eq_eq a b : strict_eq a b = true -> a = b.
Proof.
  destruct a, b; simpl; try discriminate; intros H; f_equal.
  - by apply Bool.eqb_prop.
  - by apply Z.eqb_eq.
  - by apply String.eqb_eq.
Qed.

Lemma persisted_frame w w' :
  keeps_token w w' -> persisted w -> persisted w'.
Proof. unfold keeps_token, keeps, persisted. intros [-> ->]. done. Qed.

#[global] Instance keeps_token_refl : Reflexive keeps_token.
Proof. by intros w. Qed.

#[global] Instance keeps_token_trans : Transitive keeps_token.
Proof. intros a b c [H1 H2] [H3 H4]. split; etrans; eauto. Qed.

(** A call that leaves the token alone keeps the invariant. *)
Lemma wp_keeps_token {A} (m : M A) (Q : outcome A -> world -> Prop) w :
  stable keeps_token m -> persisted w ->
  (forall o w', keeps_token w w' -> persisted w' -> Q o w') -> wp m Q w.
Proof.
  intros Hm Hw HQ. eapply wp_stable; [exact Hm|].
  intros o w' H. apply HQ; [done|]. by eapply persisted_frame.
Qed.

(** A call of which only a property of the final world is known. *)
Lemma wp_post {A} (m : M A) (P : world -> Prop) (Q : outcome A -> world -> Prop) w :
  P (snd (m w)) -> (forall o w', P w' -> Q o w') -> wp m Q w.
Proof. intros Hm HQ. apply HQ, Hm. Qed.

Section TokenFrames.

Variable env : environment.

Lemma serverIsAvailable_keeps_token :
  stable keeps_token (DataController.serverIsAvailable env).
Proof. apply stable_and; stable_auto. Qed.

Lemma sendOfflineData_keeps_token :
  stable keeps_token (DataController.sendOfflineData env).
Proof. apply stable_and; stable_auto. Qed.

Lemma sendMusicData_keeps_token trackData :
  stable keeps_token (DataController.sendMusicData env trackData).
Proof. apply stable_and; stable_auto. Qed.

Lemma getAppJwt_keeps_token b :
  stable keeps_token (DataController.getAppJwt env b).
Proof. apply stable_and; stable_auto. Qed.

Lemma getUser_keeps_token b jwt :
  stable keeps_token (DataController.getUser env b jwt).
Proof. apply stable_and; stable_auto. Qed.

Lemma initializePreferences_keeps_token :
  stable keeps_token (DataController.initializePreferences env).
Proof. apply stable_and; stable_auto. Qed.

Lemma updatePreferences_keeps_token :
  stable keeps_token (DataController.updatePreferences env).
Proof. apply stable_and; stable_auto. Qed.

Lemma sendHeartbeat_keeps_token reason :
  stable keeps_token (DataController.sendHeartbeat env reason).
Proof. apply stable_and; stable_auto. Qed.

Lemma refetchUserStatusLazily_keeps_token n :
  stable keeps_token (DataController.refetchUserStatusLazily n).
Proof. apply stable_and; stable_auto. Qed.

Lemma persisted_set_jwt v w :
  persisted (with_cachedJwt v (with_items (<["jwt" := v]> (items w)) w)).
Proof. intros _. unfold stored_jwt. simpl. by rewrite lookup_insert_eq. Qed.

Lemma createAnonymousUser_persisted b w :
  persisted w -> persisted (snd (DataController.createAnonymousUser env b w)).
Proof.
  intros Hw. pattern (DataController.createAnonymousUser env b w). apply wp_pair.
  unfold DataController.createAnonymousUser. apply wp_bind.
  apply wp_keeps_token; [apply getAppJwt_keeps_token | done |].
  intros [appJwt|e] w1 _ Hw1; [|done].
  destruct (truthy appJwt && b); [|done].
  wp_go. fold (stored_jwt w1).
  destruct (truthy (stored_jwt w1)) eqn:Hs, (truthy (cachedJwt w1)) eqn:Hc; simpl.
  - done.
  - done.
  - wp_go. intros _. unfold stored_jwt. simpl. by rewrite lookup_insert_eq.
  - wp_go. destruct (transport env _ _) as [resp|]; simpl.
    2:{ intros H. simpl in H. congruence. }
    destruct (isResponseOk resp && truthy (resp_data resp)).
    2:{ intros H. simpl in H. congruence. }
    wp_go. destruct (resp_data resp); simpl;
      try (intros H; simpl in H; congruence).
    destruct (truthy (assoc "jwt" fields)); wp_go.
    + apply (persisted_set_jwt _ (sent _ w1)).
    + intros H. simpl in H. congruence.
Qed.

Lemma persisted_set_name v w :
  persisted w -> persisted (with_items (<["name" := v]> (items w)) w).
Proof.
  unfold persisted, stored_jwt. simpl. by rewrite lookup_insert_ne.
Qed.

Lemma isLoggedOn_persisted b jwt w :
  persisted w -> jwt = stored_jwt w \/ jwt = cachedJwt w ->
  persisted (snd (DataController.isLoggedOn env b jwt w)).
Proof.
  intros Hw Hjwt. pattern (DataController.isLoggedOn env b jwt w). apply wp_pair.
  unfold DataController.isLoggedOn. destruct b; [|done].
  wp_go. destruct (transport env _ _) as [resp|]; [|done].
  destruct (isResponseOk resp && truthy (resp_data resp)); [|done].
  wp_go. destruct (resp_data resp) as [| | | | |elems|fields]; try done.
  destruct (strict_eq _ _); [|done].
  wp_go. set (p := assoc "jwt" fields).
  destruct (truthy p && strict_ne p jwt) eqn:Hp; wp_go.
  - intros _. unfold stored_jwt. simpl. by rewrite lookup_insert_eq.
  - intros Ht. simpl in Ht. rewrite Ht in Hp. simpl in Hp.
    apply negb_false_iff, strict_eq_eq in Hp.
    unfold stored_jwt. simpl. rewrite lookup_insert_ne by done.
    fold (stored_jwt w).
    destruct Hjwt as [->| ->]; [done|].
    rewrite Hp. apply Hw. by rewrite <- Hp.
Qed.

Lemma getUserStatus_persisted w :
  persisted w -> persisted (snd (DataController.getUserStatus env w)).
Proof.
  intros Hw. pattern (DataController.getUserStatus env w). apply wp_pair.
  unfold DataController.getUserStatus. wp_go.
  set (w0 := with_trace _ w). assert (Hw0 : persisted w0) by done.
  clearbody w0. clear Hw.
  apply wp_keeps_token; [apply serverIsAvailable_keeps_token | done |].
  intros [serverIsOnline|e] w1 _ Hw1; [|done].
  apply wp_bind.
  (* the check of the login state *)
  apply wp_mono with (Q := fun _ w' => persisted w').
  - destruct serverIsOnline; [|done].
    wp_go.
    apply wp_mono with (Q := fun _ w' => persisted w').
    { destruct (_ && _); [|done].
      by eapply wp_post; [by apply createAnonymousUser_persisted|]. }
    intros [[]|e] w2 Hw2; [|done].
    wp_go.
    eapply wp_post; [apply isLoggedOn_persisted; [done | by left]|].
    intros [resp|e] w3 Hw3; [|done].
    wp_go.
    destruct (_ && _); [|done].
    eapply wp_post; [apply isLoggedOn_persisted; [done | by right]|].
    by intros [resp'|e] w4 Hw4.
  - intros [loggedIn|e] w2 Hw2; [|done].
    wp_go.
    apply wp_mono with (Q := fun _ w' => persisted w').
    { destruct (_ && _); [|done]. wp_go.
      apply wp_keeps_token; [apply initializePreferences_keeps_token | done |].
      intros _ w3 _ Hw3. wp_go. done. }
    intros [[]|e] w3 Hw3; [|done].
    wp_go.
    apply wp_mono with (Q := fun _ w' => persisted w').
    { destruct (negb loggedIn); [|done]. wp_go. by apply persisted_set_name. }
    intros [[]|e] w4 Hw4; [|done].
    wp_go.
    apply wp_mono with (Q := fun _ w' => persisted w').
    { destruct (_ && _); [|done]. wp_go.
      apply wp_keeps_token; [apply sendHeartbeat_keeps_token | done |].
      intros _ w5 _ Hw5. wp_go. done. }
    intros [[]|e] w5 Hw5; [|done].
    wp_go. done.
Qed.

Lemma userStatusFetchHandler_persisted n w :
  persisted w -> persisted (snd (DataController.userStatusFetchHandler env n w)).
Proof.
  intros Hw. pattern (DataController.userStatusFetchHandler env n w).
  apply wp_pair. unfold DataController.userStatusFetchHandler. apply wp_bind.
  eapply wp_post; [by apply getUserStatus_persisted|].
  intros [userStatus|e] w1 Hw1; [|done].
  destruct (negb _); [|done]. destruct (0 <? n); [|done].
  unfold DataController.refetchUserStatusLazily. wp_go. done.
Qed.

Lemma onboard_createAnonymousUser_persisted b w :
  persisted w -> persisted (snd (OnboardManager.createAnonymousUser env b w)).
Proof.
  intros Hw. pattern (OnboardManager.createAnonymousUser env b w). apply wp_pair.
  unfold OnboardManager.createAnonymousUser. apply wp_bind.
  apply wp_keeps_token; [apply getAppJwt_keeps_token | done |].
  intros [appJwt|e] w1 _ Hw1; [|done].
  destruct (truthy appJwt && b); [|done].
  wp_go. fold (stored_jwt w1).
  destruct (truthy (stored_jwt w1)) eqn:Hs; simpl; [done|].
  assert (Hc : truthy (cachedJwt w1) = false).
  { destruct (truthy (cachedJwt w1)) eqn:Hc; [|done].
    rewrite <- (Hw1 Hc), Hs in Hc. done. }
  wp_go. destruct (transport env _ _) as [resp|]; simpl.
  2:{ intros H. simpl in H. congruence. }
  destruct (isResponseOk resp && truthy (resp_data resp)).
  2:{ intros H. simpl in H. congruence. }
  wp_go. destruct (resp_data resp); simpl;
    try (intros H; simpl in H; congruence).
  destruct (truthy (assoc "jwt" fields)); wp_go;
    intros H; simpl in H; congruence.
Qed.

Lemma onboardPlugin_persisted w :
  persisted w -> persisted (snd (OnboardManager.onboardPlugin env w)).
Proof.
  intros Hw. pattern (OnboardManager.onboardPlugin env w). apply wp_pair.
  unfold OnboardManager.onboardPlugin. wp_go.
  destruct (_ && _); [wp_go; done|].
  wp_go. apply wp_keeps_token; [apply serverIsAvailable_keeps_token | done |].
  intros [serverIsOnline|e] w1 _ Hw1; [|done].
  wp_go. destruct (_ || _); [|wp_go; done].
  unfold OnboardManager.prompt_and_retry.
  destruct (negb serverIsOnline).
  { wp_go. destruct (_ =? _); wp_go; done. }
  wp_go. eapply wp_post; [by apply onboard_createAnonymousUser_persisted|].
  intros [result|e] w2 Hw2; [|done].
  destruct (negb _); wp_go; [|done].
  destruct (_ =? _); wp_go; done.
Qed.

Lemma tick_persisted w w' :
  EventLoop.tick env w = Some w' -> persisted w -> persisted w'.
Proof.
  unfold EventLoop.tick. destruct (EventLoop.next_timer _) as [[[due cb] rest]|]; [|done].
  intros [= <-] Hw.
  set (w1 := with_now _ _). assert (Hw1 : persisted w1) by done. clearbody w1.
  destruct cb; simpl.
  - done.
  - by apply userStatusFetchHandler_persisted.
  - by apply onboardPlugin_persisted.
  - by apply onboardPlugin_persisted.
Qed.

Lemma perform_persisted op w : persisted w -> persisted (perform env op w).
Proof.
  intros Hw. destruct op; simpl.
  - eapply persisted_frame; [apply serverIsAvailable_keeps_token | done].
  - eapply persisted_frame; [apply sendOfflineData_keeps_token | done].
  - eapply persisted_frame; [apply sendMusicData_keeps_token | done].
  - eapply persisted_frame; [apply getAppJwt_keeps_token | done].
  - by apply createAnonymousUser_persisted.
  - apply isLoggedOn_persisted; [done | by left].
  - apply isLoggedOn_persisted; [done | by right].
  - by apply getUserStatus_persisted.
  - eapply persisted_frame; [apply getUser_keeps_token | done].
  - eapply persisted_frame; [apply initializePreferences_keeps_token | done].
  - eapply persisted_frame; [apply updatePreferences_keeps_token | done].
  - eapply persisted_frame; [apply refetchUserStatusLazily_keeps_token | done].
  - eapply persisted_frame; [apply sendHeartbeat_keeps_token | done].
  - by apply onboardPlugin_persisted.
  - by apply onboard_createAnonymousUser_persisted.
  - destruct (EventLoop.tick env w) as [w'|] eqn:E; [|done].
    by eapply tick_persisted.
  - done.
  - done.
  - done.
  - done.
Qed.

Lemma reachable_persisted w : reachable env w -> persisted w.
Proof.
  induction 1 as [store config batch session clock | op w _ IH].
  - intros H. discriminate H.
  - by apply perform_persisted.
Qed.

End TokenFrames.

(** ** Anonymous-user creation *)

Lemma quiet_emitted watch {A} (m : M A) w :
  quiet watch w (snd (m w)) -> List.filter watch (emitted m w) = [].
Proof.
  intros (d & E & F). unfold emitted. by rewrite E, drop_app_length.
Qed.

Lemma emitted_app {A} (m : M A) w d :
  trace (snd (m w)) = trace w ++ d -> emitted m w = d.
Proof. intros E. unfold emitted. by rewrite E, drop_app_length. Qed.

Lemma getAppJwt_apptoken_frame env b :
  stable apptoken_frame (DataController.getAppJwt env b).
Proof. apply stable_and; [apply getAppJwt_keeps_token | stable_auto]. Qed.

Lemma createAnonymousUser_guard env b w :
  truthy (stored_jwt w) = true ->
  quiet is_onboard_post w (snd (DataController.createAnonymousUser env b w)).
Proof.
  intros Hs. pattern (DataController.createAnonymousUser env b w). apply wp_pair.
  unfold DataController.createAnonymousUser. apply wp_bind.
  eapply wp_stable; [apply getAppJwt_apptoken_frame|].
  intros [appJwt|e] w1 [[_ H1] H2]; [|done].
  destruct (truthy appJwt && b); [|done].
  wp_go. fold (stored_jwt w1). rewrite H1, Hs. simpl. done.
Qed.

Lemma onboard_createAnonymousUser_guard env b w :
  truthy (stored_jwt w) = true ->
  quiet is_onboard_post w (snd (OnboardManager.createAnonymousUser env b w)).
Proof.
  intros Hs. pattern (OnboardManager.createAnonymousUser env b w). apply wp_pair.
  unfold OnboardManager.createAnonymousUser. apply wp_bind.
  eapply wp_stable; [apply getAppJwt_apptoken_frame|].
  intros [appJwt|e] w1 [[_ H1] H2]; [|done].
  destruct (truthy appJwt && b); [|done].
  wp_go. fold (stored_jwt w1). rewrite H1, Hs. simpl. done.
Qed.

Lemma token_present_stored w :
  persisted w -> token_present w -> truthy (stored_jwt w) = true.
Proof. intros Hw [Hc|Hs]; [|done]. by rewrite (Hw Hc). Qed.

(** C1. After any sequence of sequential calls, [createAnonymousUser],
    called while a token is present in the in-memory cache or in the local
    store, sends no POST to /data/onboard; this holds for the
    implementation of DataController and for that of OnboardManager. *)
Theorem createAnonymousUser_no_second_onboarding env w serverIsOnline :
  reachable env w -> token_present w ->
  List.filter is_onboard_post
    (emitted (DataController.createAnonymousUser env serverIsOnline) w) = []
  /\ List.filter is_onboard_post
       (emitted (OnboardManager.createAnonymousUser env serverIsOnline) w) = [].
Proof.
  intros Hr Hp. apply reachable_persisted in Hr.
  pose proof (token_present_stored w Hr Hp) as Hs. split.
  - by apply quiet_emitted, createAnonymousUser_guard.
  - by apply quiet_emitted, onboard_createAnonymousUser_guard.
Qed.

Lemma createAnonymousUser_no_second_onboarding_witness :
  List.filter is_onboard_post
    (emitted (DataController.createAnonymousUser granting true) onboarded) = []
  /\ List.filter is_onboard_post
       (emitted (OnboardManager.createAnonymousUser granting true) onboarded) = [].
Proof.
  apply (createAnonymousUser_no_second_onboarding granting onboarded true).
  - apply reachable_perform, reachable_startup.
  - left. vm_compute. reflexivity.
Defined.

(** The guard of OnboardManager does not read the in-memory cache: in a
    world (not a reachable one) whose cache holds a token that the store
    lacks, it sends the onboarding request, where that of DataController
    copies the cached token to the store. *)
Example onboard_guard_reads_store_only :
  List.filter is_onboard_post
    (emitted (OnboardManager.createAnonymousUser granting true)
       (with_cachedJwt (JStr "T0") (startup ∅ ∅ None false 0))) <> []
  /\ List.filter is_onboard_post
       (emitted (DataController.createAnonymousUser granting true)
          (with_cachedJwt (JStr "T0") (startup ∅ ∅ None false 0))) = []
  /\ stored_jwt
       (snd (DataController.createAnonymousUser granting true
               (with_cachedJwt (JStr "T0") (startup ∅ ∅ None false 0))))
     = JStr "T0".
Proof. vm_compute. repeat split; discriminate. Qed.



(** ** The login state *)

Lemma assoc_absent k fields :
  k ∉ fields.*1 -> assoc k fields = JUndefined.
Proof.
  induction fields as [|[k' v] fields IH]; [done|]. simpl. intros Hk.
  apply not_elem_of_cons in Hk as [Hne Hk].
  destruct (String.eqb k k') eqn:E; [by apply String.eqb_eq in E | auto].
Qed.

(** [isLoggedOn] on a response whose state is OK: the result, the cache,
    the store and the preferences flag. *)
Lemma isLoggedOn_ok env w jwt resp fields :
  transport env (requests w) (Get "/users/plugin/state" jwt) = Resolved resp ->
  isResponseOk resp = true ->
  resp_data resp = JObj fields ->
  assoc "state" fields = JStr "OK" ->
  let pluginJwt := assoc "jwt" fields in
  let named :=
    with_cachedJwt pluginJwt
      (with_items (<["name" := assoc "email" fields]> (items w))
         (sent (Get "/users/plugin/state" jwt) w)) in
  DataController.isLoggedOn env true jwt w =
    (Returned {| DataController.loggedOn := true;
                 DataController.state := JStr "OK" |},
     if truthy pluginJwt && strict_ne pluginJwt jwt
     then with_initializedPrefs false
            (with_items (<["jwt" := pluginJwt]> (items named)) named)
     else named).
Proof.
  intros Hreply Hok Hdata Hstate pluginJwt named.
  unfold DataController.isLoggedOn, softwareGet, send, setItem, modify.
  unfold mbind, M_bind. rewrite Hreply, Hok, Hdata. simpl. rewrite Hstate. simpl.
  fold pluginJwt. by destruct (truthy pluginJwt && strict_ne pluginJwt jwt).
Qed.

(** C3. When the response of the state request carries state OK,
    [isLoggedOn] returns {loggedOn: true, state: "OK"}; and if the response
    holds a non-empty jwt that differs from the jwt passed in, that jwt is
    written to the local store and the preferences-initialized flag is
    reset to false. *)
Theorem isLoggedOn_ok_persists_new_token env w jwt resp fields :
  transport env (requests w) (Get "/users/plugin/state" jwt) = Resolved resp ->
  isResponseOk resp = true ->
  resp_data resp = JObj fields ->
  assoc "state" fields = JStr "OK" ->
  fst (DataController.isLoggedOn env true jwt w) =
    Returned {| DataController.loggedOn := true;
                DataController.state := JStr "OK" |}
  /\ (truthy (assoc "jwt" fields) = true ->
      strict_ne (assoc "jwt" fields) jwt = true ->
      items (snd (DataController.isLoggedOn env true jwt w)) !! "jwt"
        = Some (assoc "jwt" fields)
      /\ initializedPrefs (snd (DataController.isLoggedOn env true jwt w)) = false).
Proof.
  intros Hreply Hok Hdata Hstate.
  rewrite (isLoggedOn_ok env w jwt resp fields Hreply Hok Hdata Hstate).
  split; [done|]. intros -> ->. simpl. by rewrite lookup_insert_eq.
Qed.

Lemma isLoggedOn_ok_persists_new_token_witness :
  fst (DataController.isLoggedOn granting true (JStr "T0") initialized) =
    Returned {| DataController.loggedOn := true;
                DataController.state := JStr "OK" |}
  /\ items (snd (DataController.isLoggedOn granting true (JStr "T0") initialized))
       !! "jwt" = Some (JStr "T1")
  /\ initializedPrefs
       (snd (DataController.isLoggedOn granting true (JStr "T0") initialized)) = false.
Proof.
  pose proof (isLoggedOn_ok_persists_new_token granting initialized (JStr "T0")
    {| resp_ok := true; resp_deactivated := false;
       resp_data := JObj [("jwt", JStr "T1"); ("state", JStr "OK")] |}
    [("jwt", JStr "T1"); ("state", JStr "OK")]
    eq_refl eq_refl eq_refl eq_refl) as [H1 H2].
  split; [exact H1|]. exact (H2 eq_refl eq_refl).
Defined.

(** C10. When the response of the state request carries state OK, the
    in-memory token cache is overwritten with the jwt field of the
    response whatever it is, [undefined] when the field is absent; the
    stored token and the preferences-initialized flag are left as they
    were unless the response jwt is non-empty and differs from the jwt
    passed in. *)
Theorem isLoggedOn_ok_overwrites_cache env w jwt resp fields :
  transport env (requests w) (Get "/users/plugin/state" jwt) = Resolved resp ->
  isResponseOk resp = true ->
  resp_data resp = JObj fields ->
  assoc "state" fields = JStr "OK" ->
  cachedJwt (snd (DataController.isLoggedOn env true jwt w)) = assoc "jwt" fields
  /\ ("jwt" ∉ fields.*1 ->
      cachedJwt (snd (DataController.isLoggedOn env true jwt w)) = JUndefined)
  /\ (truthy (assoc "jwt" fields) && strict_ne (assoc "jwt" fields) jwt = false ->
      items (snd (DataController.isLoggedOn env true jwt w)) !! "jwt"
        = items w !! "jwt"
      /\ initializedPrefs (snd (DataController.isLoggedOn env true jwt w))
         = initializedPrefs w).
Proof.
  intros Hreply Hok Hdata Hstate.
  rewrite (isLoggedOn_ok env w jwt resp fields Hreply Hok Hdata Hstate).
  destruct (truthy (assoc "jwt" fields) && strict_ne (assoc "jwt" fields) jwt);
    simpl; (split; [done|]); split.
  - intros Habs. by apply assoc_absent.
  - done.
  - intros Habs. by apply assoc_absent.
  - intros _. by rewrite lookup_insert_ne.
Qed.

Lemma isLoggedOn_ok_overwrites_cache_witness :
  cachedJwt (snd (DataController.isLoggedOn state_ok_no_token true (JStr "T0") initialized))
    = JUndefined
  /\ items (snd (DataController.isLoggedOn state_ok_no_token true (JStr "T0") initialized))
       !! "jwt" = items initialized !! "jwt"
  /\ initializedPrefs
       (snd (DataController.isLoggedOn state_ok_no_token true (JStr "T0") initialized))
     = true.
Proof.
  pose proof (isLoggedOn_ok_overwrites_cache state_ok_no_token initialized (JStr "T0")
    {| resp_ok := true; resp_deactivated := false;
       resp_data := JObj [("state", JStr "OK")] |}
    [("state", JStr "OK")]
    eq_refl eq_refl eq_refl eq_refl) as (_ & H2 & H3).
  split; [|exact (H3 eq_refl)].
  apply H2. vm_compute. intros H. inversion H as [|? ? ? H']. inversion H'.
Defined.

(** ** Failures of the transport *)

Lemma wp_eq {A} (m : M A) o w' (Q : outcome A -> world -> Prop) w :
  m w = (o, w') -> Q o w' -> wp m Q w.
Proof. unfold wp. by intros ->. Qed.

Lemma wp_any {A} (m : M A) (Q : outcome A -> world -> Prop) w :
  (forall o w', Q o w') -> wp m Q w.
Proof. intros H. apply H. Qed.

Section Failures.

Variable env : environment.

Lemma serverIsAvailable_run w :
  DataController.serverIsAvailable env w =
    (Returned (probe env w), sent (Get "/ping" JNull) w).
Proof.
  unfold DataController.serverIsAvailable, catch, softwareGet, send, probe, sent.
  unfold mbind, M_bind. by destruct (transport env (requests w) _).
Qed.

Lemma probe_fails w :
  fails (transport env (requests w) (Get "/ping" JNull)) -> probe env w = false.
Proof. unfold probe, fails. by destruct (transport env _ _). Qed.

Lemma getAppJwt_not_ok w :
  not_ok (transport env (requests w)
            (Get ("/data/apptoken?token=" +:+ decimal (now w / 1000)) JNull)) ->
  DataController.getAppJwt env true w =
    (Returned JNull,
     sent (Get ("/data/apptoken?token=" +:+ decimal (now w / 1000)) JNull) w).
Proof.
  intros (resp & Hr & Hok).
  unfold DataController.getAppJwt, nowInSecs, gets, softwareGet, send, sent.
  unfold mbind, M_bind. by rewrite Hr, Hok.
Qed.

Lemma getUser_not_ok jwt w :
  truthy jwt = true ->
  not_ok (transport env (requests w) (Get "/users/me" jwt)) ->
  DataController.getUser env true jwt w =
    (Returned JNull, sent (Get "/users/me" jwt) w).
Proof.
  intros Hj (resp & Hr & Hok).
  unfold DataController.getUser, softwareGet, send, sent.
  unfold mbind, M_bind. rewrite Hj. cbn. by rewrite Hr, Hok.
Qed.

Lemma isLoggedOn_not_ok jwt w :
  not_ok (transport env (requests w) (Get "/users/plugin/state" jwt)) ->
  DataController.isLoggedOn env true jwt w =
    (Returned {| DataController.loggedOn := false;
                 DataController.state := JStr "UNKNOWN" |},
     sent (Get "/users/plugin/state" jwt) w).
Proof.
  intros (resp & Hr & Hok).
  unfold DataController.isLoggedOn, softwareGet, send, sent.
  unfold mbind, M_bind. by rewrite Hr, Hok.
Qed.

Lemma createAnonymousUser_not_ok w :
  not_ok (transport env (requests w)
            (Get ("/data/apptoken?token=" +:+ decimal (now w / 1000)) JNull)) ->
  DataController.createAnonymousUser env true w =
    (Returned tt,
     sent (Get ("/data/apptoken?token=" +:+ decimal (now w / 1000)) JNull) w).
Proof.
  intros H. unfold DataController.createAnonymousUser. unfold mbind at 1, M_bind at 1.
  by rewrite getAppJwt_not_ok.
Qed.

Lemma probe_same_requests w w' :
  requests w' = requests w -> probe env w' = probe env w.
Proof. unfold probe. by intros ->. Qed.

(** The end of [getUserStatus] once the user is known not to be logged
    in. *)
Ltac status_not_logged_in :=
  wp_go; rewrite ?andb_false_r; cbn [negb andb]; wp_go;
  try lazymatch goal with
      | |- wp (if ?c then _ else _) _ _ =>
          destruct c; wp_go; [apply wp_any; intros; wp_go|]
      end;
  done.

Lemma getUserStatus_offline w :
  probe env w = false ->
  fst (DataController.getUserStatus env w) =
    Returned {| DataController.loggedIn := false |}.
Proof.
  intros Hp. pattern (DataController.getUserStatus env w). apply wp_pair.
  unfold DataController.getUserStatus. wp_go.
  eapply wp_eq; [apply serverIsAvailable_run|].
  rewrite (probe_same_requests w) by done. rewrite Hp.
  status_not_logged_in.
Qed.

Lemma sendMusicData_fails trackData w :
  fails (transport env (requests w) (Post "/data/music" trackData (stored_jwt w))) ->
  fst (DataController.sendMusicData env trackData w) =
    Returned DataController.status_fail.
Proof.
  intros H. unfold DataController.sendMusicData, getItem, gets, catch,
    softwarePost, send. unfold mbind, M_bind. cbn. fold (stored_jwt w).
  destruct (transport env _ _) as [resp|]; cbn in *; [|done]. by rewrite H.
Qed.

Lemma getUserStatus_refused w :
  (forall n r, r <> Get "/ping" JNull -> not_ok (transport env n r)) ->
  fst (DataController.getUserStatus env w) =
    Returned {| DataController.loggedIn := false |}.
Proof.
  intros H. destruct (probe env w) eqn:Hp; [|by apply getUserStatus_offline].
  pattern (DataController.getUserStatus env w). apply wp_pair.
  unfold DataController.getUserStatus. wp_go.
  eapply wp_eq; [apply serverIsAvailable_run|].
  rewrite (probe_same_requests w) by done. rewrite Hp.
  apply wp_bind. apply wp_bind. apply wp_gets. apply wp_bind.
  apply wp_mono with (Q := fun o _ => o = Returned tt).
  { destruct (_ && _); [|done].
    eapply wp_eq; [by apply createAnonymousUser_not_ok, H | done]. }
  intros o w1 ->. wp_go.
  eapply wp_eq; [by apply isLoggedOn_not_ok, H|].
  wp_go. cbn [DataController.loggedOn negb andb].
  apply wp_mono with
    (Q := fun o _ => exists st,
            o = Returned {| DataController.loggedOn := false;
                            DataController.state := st |}).
  { destruct (_ && _); [|by eexists].
    eapply wp_eq; [by apply isLoggedOn_not_ok, H | by eexists]. }
  intros o w2 [st ->]. wp_go. cbn [DataController.loggedOn].
  status_not_logged_in.
Qed.

End Failures.

(** C8, as the code has it.  A failed request gives the safe default:
    [serverIsAvailable] returns false and [sendMusicData] returns
    {status: "fail"} whether the request is answered not-ok or the
    transport throws; [getUserStatus] returns {loggedIn: false} when its
    reachability probe fails either way, and also when the server is up
    and every other request is answered not-ok; [getAppJwt] and [getUser]
    return null when their request is answered not-ok, and send nothing
    and return null when called with serverIsOnline false. *)
Theorem failed_requests_give_safe_defaults env w :
  (fails (transport env (requests w) (Get "/ping" JNull)) ->
     fst (DataController.serverIsAvailable env w) = Returned false
     /\ fst (DataController.getUserStatus env w) =
          Returned {| DataController.loggedIn := false |})
  /\ (forall trackData,
        fails (transport env (requests w)
                 (Post "/data/music" trackData (stored_jwt w))) ->
        fst (DataController.sendMusicData env trackData w) =
          Returned DataController.status_fail)
  /\ (not_ok (transport env (requests w)
                (Get ("/data/apptoken?token=" +:+ decimal (now w / 1000)) JNull)) ->
        fst (DataController.getAppJwt env true w) = Returned JNull)
  /\ DataController.getAppJwt env false w = (Returned JNull, w)
  /\ (forall jwt,
        not_ok (transport env (requests w) (Get "/users/me" jwt)) ->
        fst (DataController.getUser env true jwt w) = Returned JNull)
  /\ (forall jwt, DataController.getUser env false jwt w = (Returned JNull, w))
  /\ ((forall n r, r <> Get "/ping" JNull -> not_ok (transport env n r)) ->
        fst (DataController.getUserStatus env w) =
          Returned {| DataController.loggedIn := false |}).
Proof.
  split; [|split; [|split; [|split; [|split; [|split]]]]].
  - intros H. split.
    + by rewrite serverIsAvailable_run, probe_fails.
    + by apply getUserStatus_offline, probe_fails.
  - intros trackData. apply sendMusicData_fails.
  - intros H. by rewrite getAppJwt_not_ok.
  - reflexivity.
  - intros jwt H. destruct (truthy jwt) eqn:Hj.
    + by rewrite getUser_not_ok.
    + unfold DataController.getUser. by rewrite Hj.
  - intros jwt. unfold DataController.getUser. by rewrite andb_false_r.
  - apply getUserStatus_refused.
Qed.

Lemma failed_requests_give_safe_defaults_witness :
  fst (DataController.serverIsAvailable offline (startup ∅ ∅ None false 0))
    = Returned false
  /\ fst (DataController.sendMusicData offline JNull (startup ∅ ∅ None false 0))
       = Returned DataController.status_fail
  /\ fst (DataController.getAppJwt refusing true (startup ∅ ∅ None false 0))
       = Returned JNull
  /\ fst (DataController.getUser refusing true (JStr "T0") (startup ∅ ∅ None false 0))
       = Returned JNull
  /\ fst (DataController.getUserStatus refusing (startup ∅ ∅ None false 0))
       = Returned {| DataController.loggedIn := false |}.
Proof.
  pose proof (failed_requests_give_safe_defaults offline (startup ∅ ∅ None false 0))
    as (H1 & H2 & _).
  pose proof (failed_requests_give_safe_defaults refusing (startup ∅ ∅ None false 0))
    as (_ & _ & H3 & _ & H4 & _ & H5).
  split; [exact (proj1 (H1 I))|].
  split; [exact (H2 JNull I)|].
  split; [apply H3; eexists; split; reflexivity|].
  split; [apply H4; eexists; split; reflexivity|].
  apply H5. intros n r Hr. unfold refusing. simpl.
  destruct r as [api []| |]; try (eexists; split; reflexivity).
  destruct (String.eqb api "/ping") eqn:E; [|eexists; split; reflexivity].
  apply String.eqb_eq in E. by subst api.
Defined.

(** C8 as stated fails on a thrown transport failure: [getAppJwt] and
    [getUser] await the transport without a handler, and the rejection
    leaves them in place of the null they are said to return. *)
Lemma thrown_failure_passes_getAppJwt :
  fst (DataController.getAppJwt offline true (startup ∅ ∅ None false 0))
    = Thrown TransportFailure
  /\ fst (DataController.getUser offline true (JStr "T0") (startup ∅ ∅ None false 0))
       = Thrown TransportFailure.
Proof. split; reflexivity. Qed.

(** ** The offline batch *)

Section OfflineBatch.

Variable env : environment.

Lemma line_value_parse_item line :
  line_value env line =
    if truthy (DataController.parse_item env line)
    then Some (DataController.parse_item env line) else None.
Proof.
  unfold DataController.parse_item, line_value. simpl.
  destruct (String.eqb line ""); simpl; [done|].
  destruct (JSON_parse env line) as [v|]; simpl; [|done].
  by destruct (truthy v) eqn:Hv; simpl; rewrite ?Hv.
Qed.

Lemma payloads_batch_values content :
  DataController.payloads env content = batch_values env content.
Proof.
  unfold DataController.payloads, batch_values.
  induction (DataController.split_lines content) as [|line lines IH]; [done|].
  cbn [List.map List.filter omap list_omap]. rewrite line_value_parse_item.
  destruct (truthy (DataController.parse_item env line)); by rewrite IH.
Qed.

Lemma batch_values_length content :
  JSON_parse env "" = None ->
  (forall line v, line ∈ DataController.split_lines content ->
                  JSON_parse env line = Some v -> truthy v = true) ->
  length (batch_values env content) = length (valid_lines env content).
Proof.
  intros Hempty. unfold batch_values, valid_lines.
  induction (DataController.split_lines content) as [|line lines IH]; [done|].
  intros Hobj. cbn [List.filter omap list_omap]. unfold line_value at 1.
  destruct (String.eqb line "") eqn:E.
  - apply String.eqb_eq in E. subst line. rewrite Hempty. simpl.
    apply IH. intros l v Hl. apply Hobj. by right.
  - destruct (JSON_parse env line) as [v|] eqn:Hp; simpl.
    + rewrite (Hobj line v) by (done || by left). simpl. f_equal.
      apply IH. intros l v' Hl. apply Hobj. by right.
    + apply IH. intros l v' Hl. apply Hobj. by right.
Qed.

Lemma sendOfflineData_run w content :
  dataStoreFile w = Some content -> content <> "" ->
  DataController.sendOfflineData env w =
    (Returned tt,
     let w1 := sent (batch_post env content w) w in
     match transport env (requests w) (batch_post env content w) with
     | Resolved resp =>
         if isResponseOk resp || isUserDeactivated resp then
           if probe env w1 then
             with_trace (trace w1 ++ [EHttp (Get "/ping" JNull); EDeleteFile])
               (with_dataStoreFile None (sent (Get "/ping" JNull) w1))
           else sent (Get "/ping" JNull) w1
         else w1
     | Rejected => w1
     end).
Proof.
  intros Hfile Hne.
  assert (Ht : truthy (JStr content) = true).
  { simpl. apply negb_true_iff. by apply String.eqb_neq. }
  unfold DataController.sendOfflineData, catch, readDataStoreFile, gets.
  unfold mbind at 1, M_bind at 1. rewrite Hfile, Ht.
  unfold getItem, gets, detach, softwarePost, send. unfold mbind at 1, M_bind at 1.
  rewrite payloads_batch_values. fold (stored_jwt w).
  fold (batch_post env content w). unfold mbind at 1, M_bind at 1.
  fold (sent (batch_post env content w) w).
  destruct (transport env (requests w) (batch_post env content w)) as [resp|];
    [|done].
  destruct (isResponseOk resp || isUserDeactivated resp); [|done].
  unfold mbind, M_bind. rewrite serverIsAvailable_run.
  destruct (probe env _); [|done].
  unfold deleteFile, emit, modify, mbind, M_bind. cbn -[sent batch_post].
  f_equal. unfold with_trace, with_dataStoreFile, sent, with_requests. cbn.
  by rewrite <- app_assoc.
Qed.

End OfflineBatch.

(** C2, as the code has it.  For a batch file that is not empty,
    [sendOfflineData] POSTs to /data/batch the values of the lines that
    are not empty and parse as JSON to a truthy value, in the order of the
    file; when every line that parses gives a truthy value (every JSON
    object is one) these are exactly as many objects as the file has lines
    that parse.  A probe follows only a POST answered ok or
    user-deactivated, and the file is deleted exactly when that POST is so
    answered and the probe that follows it succeeds.  For the file made of
    the line [{"a":1}], an empty line, [badjson] and [{"b":2}] the payload
    is [[{"a":1},{"b":2}]]. *)
Theorem sendOfflineData_posts_parsed_lines env w content :
  dataStoreFile w = Some content -> content <> "" ->
  emitted (DataController.sendOfflineData env) w =
    EHttp (batch_post env content w) ::
    match transport env (requests w) (batch_post env content w) with
    | Resolved resp =>
        if isResponseOk resp || isUserDeactivated resp then
          EHttp (Get "/ping" JNull) ::
          (if probe env (sent (batch_post env content w) w)
           then [EDeleteFile] else [])
        else []
    | Rejected => []
    end
  /\ dataStoreFile (snd (DataController.sendOfflineData env w)) =
       (if batch_accepted env content w then None else Some content)
  /\ (JSON_parse env "" = None ->
      (forall line v, line ∈ DataController.split_lines content ->
                      JSON_parse env line = Some v -> truthy v = true) ->
      length (batch_values env content) = length (valid_lines env content))
  /\ (content = scenario_batch ->
      JSON_parse env line_a = Some (JObj [("a", JNum 1)]) ->
      JSON_parse env "badjson" = None ->
      JSON_parse env line_b = Some (JObj [("b", JNum 2)]) ->
      batch_values env content = [JObj [("a", JNum 1)]; JObj [("b", JNum 2)]]).
Proof.
  intros Hfile Hne. split; [|split; [|split]].
  - apply emitted_app. rewrite (sendOfflineData_run env w content Hfile Hne).
    cbn [snd]. destruct (transport env _ _) as [resp|]; [|done].
    destruct (isResponseOk resp || isUserDeactivated resp); [|done].
    destruct (probe env _); cbn; by rewrite <- ?app_assoc.
  - rewrite (sendOfflineData_run env w content Hfile Hne). cbn [snd].
    unfold batch_accepted. destruct (transport env _ _) as [resp|]; [|done].
    destruct (isResponseOk resp || isUserDeactivated resp); [|done].
    by destruct (probe env _).
  - apply batch_values_length.
  - intros -> Ha Hbad Hb. unfold batch_values.
    replace (DataController.split_lines scenario_batch)
      with [line_a; ""; "badjson"; line_b] by (vm_compute; reflexivity).
    cbn [omap list_omap]. unfold line_value. rewrite Ha, Hbad, Hb.
    reflexivity.
Qed.

Lemma sendOfflineData_posts_parsed_lines_witness :
  emitted (DataController.sendOfflineData granting)
    (startup ∅ ∅ (Some scenario_batch) false 0) =
    [EHttp (Post "/data/batch"
              (JArr [JObj [("a", JNum 1)]; JObj [("b", JNum 2)]]) JNull);
     EHttp (Get "/ping" JNull); EDeleteFile]
  /\ dataStoreFile
       (snd (DataController.sendOfflineData granting
               (startup ∅ ∅ (Some scenario_batch) false 0))) = None.
Proof.
  assert (Hne : scenario_batch <> "") by discriminate.
  pose proof (sendOfflineData_posts_parsed_lines granting
    (startup ∅ ∅ (Some scenario_batch) false 0) scenario_batch eq_refl Hne)
    as (H1 & H2 & _ & H4).
  split; [|exact H2]. rewrite H1. unfold batch_post.
  rewrite (H4 eq_refl eq_refl eq_refl eq_refl). reflexivity.
Defined.

(** C2 as stated fails where a line is valid JSON and not an object: the
    batch made of the lines [0] and [{"a":1}] has two lines that parse and
    none that does not, and the payload holds one object.  It also fails
    on an empty batch file, for which nothing is sent. *)
Lemma sendOfflineData_drops_falsy_json :
  valid_lines granting zero_batch = ["0"; line_a]
  /\ emitted (DataController.sendOfflineData granting)
       (startup ∅ ∅ (Some zero_batch) false 0) =
       [EHttp (Post "/data/batch" (JArr [JObj [("a", JNum 1)]]) JNull);
        EHttp (Get "/ping" JNull); EDeleteFile]
  /\ emitted (DataController.sendOfflineData granting)
       (startup ∅ ∅ (Some "") false 0) = [].
Proof. repeat split; vm_compute; reflexivity. Qed.

(** ** Preferences *)

Lemma assoc_put_field_eq k v fields : assoc k (put_field k v fields) = v.
Proof.
  induction fields as [|[k' v'] fields IH]; simpl.
  - by rewrite String.eqb_refl.
  - destruct (String.eqb k k') eqn:E; simpl; rewrite ?String.eqb_refl, ?E; done.
Qed.

Lemma assoc_put_field_ne k k' v fields :
  k <> k' -> assoc k (put_field k' v fields) = assoc k fields.
Proof.
  intros Hne. induction fields as [|[k0 v0] fields IH]; simpl.
  - by apply String.eqb_neq in Hne as ->.
  - destruct (String.eqb k' k0) eqn:E; simpl.
    + apply String.eqb_eq in E. subst k0.
      by apply String.eqb_neq in Hne as ->.
    + by rewrite IH.
Qed.

Lemma local_preferences_fields w prefs :
  assoc "showMusic" (local_preferences w prefs) = config_value w "showMusicMetrics"
  /\ assoc "showGit" (local_preferences w prefs) = config_value w "showGitMetrics"
  /\ assoc "showRank" (local_preferences w prefs) = config_value w "showWeeklyRanking".
Proof.
  unfold local_preferences. repeat split.
  - rewrite !assoc_put_field_ne by done. apply assoc_put_field_eq.
  - rewrite assoc_put_field_ne by done. apply assoc_put_field_eq.
  - by rewrite assoc_put_field_eq.
Qed.

Lemma set_or_null_unset p :
  strict_eq (DataController.set_or_null p) JNull = is_unset p.
Proof. by destruct p. Qed.

Lemma set_or_null_set p : is_unset p = false -> DataController.set_or_null p = p.
Proof. by destruct p. Qed.

(** Read the fields of a world given by updates of another one. *)
Ltac world_simpl :=
  cbn [loggedInCacheState initializedPrefs cachedJwt
       secondary_window_activate_counter retry_counter items configuration
       dataStoreFile sessionFile now timers requests trace
       with_loggedInCacheState with_initializedPrefs with_cachedJwt
       with_secondary_window_activate_counter with_retry_counter with_items
       with_configuration with_dataStoreFile with_now with_timers
       with_requests with_trace sent].

Section Preferences.

Variable env : environment.

(** [sendPreferencesUpdate] on an object: the notifier, then the PUT. *)
Lemma wp_sendPreferencesUpdate id prefs (Q : outcome unit -> world -> Prop) w :
  (forall o,
     let w1 := with_trace
                 (trace w ++ [EUpdateShowMusicMetrics (config_value w "showMusicMetrics")])
                 w in
     Q o (sent (preferences_put w id prefs) w1)) ->
  wp (DataController.sendPreferencesUpdate env (parseInt id) (JObj prefs)) Q w.
Proof.
  intros HQ. unfold DataController.sendPreferencesUpdate. wp_go.
  destruct (transport env _ _); wp_go; apply HQ.
Qed.

Lemma wp_serverIsAvailable (Q : outcome bool -> world -> Prop) w :
  Q (Returned (probe env w)) (sent (Get "/ping" JNull) w) ->
  wp (DataController.serverIsAvailable env) Q w.
Proof. intros HQ. eapply wp_eq; [apply serverIsAvailable_run | done]. Qed.

(** [getUser] on an ok response that carries a user. *)
Lemma getUser_ok jwt w resp data user :
  truthy jwt = true ->
  transport env (requests w) (Get "/users/me" jwt) = Resolved resp ->
  isResponseOk resp = true ->
  resp_data resp = JObj data ->
  assoc "data" data = JObj user ->
  DataController.getUser env true jwt w =
    (Returned (JObj user), sent (Get "/users/me" jwt) w).
Proof.
  intros Hj Hr Hok Hd Hu.
  unfold DataController.getUser, softwareGet, send, sent.
  unfold mbind, M_bind. rewrite Hj. cbn. rewrite Hr, Hok, Hd. cbn. by rewrite Hu.
Qed.

Lemma initializePreferences_run w resp data user prefs :
  truthy (stored_jwt w) = true ->
  probe env w = true ->
  transport env (S (requests w)) (Get "/users/me" (stored_jwt w)) = Resolved resp ->
  isResponseOk resp = true ->
  resp_data resp = JObj data ->
  assoc "data" data = JObj user ->
  assoc "preferences" user = JObj prefs ->
  let fetched := sent (Get "/users/me" (stored_jwt w)) (sent (Get "/ping" JNull) w) in
  snd (DataController.initializePreferences env w) =
    if any_unset prefs then
      sent (preferences_put w (assoc "id" user) prefs)
        (with_trace
           (trace fetched ++
            [EUpdateShowMusicMetrics (config_value w "showMusicMetrics")])
           fetched)
    else
      with_configuration
        (<["showWeeklyRanking" := assoc "showRank" prefs]>
           (<["showGitMetrics" := assoc "showGit" prefs]>
              (<["showMusicMetrics" := assoc "showMusic" prefs]> (configuration w))))
        (with_trace
           (trace fetched ++ [EUpdateShowMusicMetrics (assoc "showMusic" prefs)])
           fetched).
Proof.
  intros Hj Hp Hr Hok Hd Hu Hprefs fetched.
  pattern (DataController.initializePreferences env w). apply wp_pair.
  unfold DataController.initializePreferences. wp_go.
  apply wp_serverIsAvailable. fold (stored_jwt w). rewrite Hj, Hp. cbn [andb].
  apply wp_bind. eapply wp_eq; [by eapply getUser_ok|].
  cbn [truthy]. wp_go. rewrite Hprefs. cbn [truthy]. wp_go.
  rewrite !set_or_null_unset. fold (any_unset prefs).
  destruct (any_unset prefs) eqn:Hany.
  - apply wp_sendPreferencesUpdate. intros o. cbn. done.
  - unfold any_unset in Hany. apply orb_false_iff in Hany as [Hany H3].
    apply orb_false_iff in Hany as [H1 H2].
    unfold strict_ne. rewrite !set_or_null_unset, H1, H2, H3. cbn [negb].
    rewrite !set_or_null_set by done.
    wp_go. cbn. done.
Qed.

Lemma keeps_configuration_updatePreferences :
  stable (keeps configuration) (DataController.updatePreferences env).
Proof. stable_auto. Qed.

Lemma updatePreferences_run w resp data user resp' data' user' prefs :
  truthy (stored_jwt w) = true ->
  probe env w = true ->
  transport env (S (requests w)) (Get "/users/me" (stored_jwt w)) = Resolved resp ->
  isResponseOk resp = true ->
  resp_data resp = JObj data ->
  assoc "data" data = JObj user ->
  transport env (S (S (requests w)))
    (Get ("/users/" +:+ to_string (assoc "id" user)) (stored_jwt w)) = Resolved resp' ->
  isResponseOk resp' = true ->
  resp_data resp' = JObj data' ->
  assoc "data" data' = JObj user' ->
  assoc "preferences" user' = JObj prefs ->
  let notified :=
    with_trace
      (trace w ++ [EUpdateShowMusicMetrics (config_value w "showMusicMetrics")]) w in
  let fetched :=
    sent (Get ("/users/" +:+ to_string (assoc "id" user)) (stored_jwt w))
      (sent (Get "/users/me" (stored_jwt w)) (sent (Get "/ping" JNull) notified)) in
  snd (DataController.updatePreferences env w) =
    if in_sync w prefs then fetched
    else
      sent (preferences_put w (assoc "id" user) prefs)
        (with_trace
           (trace fetched ++
            [EUpdateShowMusicMetrics (config_value w "showMusicMetrics")])
           fetched).
Proof.
  intros Hj Hp Hr Hok Hd Hu Hr' Hok' Hd' Hu' Hprefs notified fetched.
  pattern (DataController.updatePreferences env w). apply wp_pair.
  unfold DataController.updatePreferences. wp_go.
  apply wp_serverIsAvailable. world_simpl. fold (stored_jwt w).
  rewrite (probe_same_requests env w) by done. rewrite Hj, Hp. cbn [andb].
  apply wp_bind. eapply wp_eq; [by eapply getUser_ok|].
  cbn [truthy negb]. wp_go. world_simpl.
  rewrite Hr', Hok', Hd'. cbn [truthy]. wp_go. rewrite Hu'. cbn [truthy]. wp_go.
  rewrite Hprefs. cbn [truthy]. wp_go.
  rewrite !set_or_null_unset. fold (config_value w "showMusicMetrics").
  fold (config_value w "showGitMetrics"). fold (config_value w "showWeeklyRanking").
  match goal with |- wp (if ?c then _ else _) _ _ =>
    assert (Hc : c = negb (in_sync w prefs)) end.
  { unfold in_sync, any_unset, strict_ne.
    destruct (is_unset (assoc "showMusic" prefs)) eqn:H1; [done|].
    destruct (is_unset (assoc "showGit" prefs)) eqn:H2; [done|].
    destruct (is_unset (assoc "showRank" prefs)) eqn:H3; [done|].
    rewrite !set_or_null_set by done. cbn [orb negb andb].
    by destruct (strict_eq _ _), (strict_eq _ _), (strict_eq _ _). }
  rewrite Hc. destruct (in_sync w prefs); cbn [negb].
  - wp_go. done.
  - apply wp_sendPreferencesUpdate. intros o. cbn. done.
Qed.

End Preferences.

(** C4. When [initializePreferences] fetches a user with preferences: if
    one of showMusic, showGit, showRank is unset in the remote
    preferences, the fetch is followed by the PUT to
    /users/:id/preferences (only the notification of the music-visibility
    module, a local call, comes in between), the PUT carries the three
    current local configuration values, and the local configuration is
    not changed; if the three are set, there is no PUT and the three local
    configuration values are overwritten with the remote ones. *)
Theorem initializePreferences_pushes_or_pulls env w resp data user prefs :
  truthy (stored_jwt w) = true ->
  probe env w = true ->
  transport env (S (requests w)) (Get "/users/me" (stored_jwt w)) = Resolved resp ->
  isResponseOk resp = true ->
  resp_data resp = JObj data ->
  assoc "data" data = JObj user ->
  assoc "preferences" user = JObj prefs ->
  if any_unset prefs then
    emitted (DataController.initializePreferences env) w =
      profile_fetch w ++
      [EUpdateShowMusicMetrics (config_value w "showMusicMetrics");
       EHttp (preferences_put w (assoc "id" user) prefs)]
    /\ assoc "showMusic" (local_preferences w prefs) = config_value w "showMusicMetrics"
    /\ assoc "showGit" (local_preferences w prefs) = config_value w "showGitMetrics"
    /\ assoc "showRank" (local_preferences w prefs) = config_value w "showWeeklyRanking"
    /\ configuration (snd (DataController.initializePreferences env w))
       = configuration w
  else
    List.filter is_put (emitted (DataController.initializePreferences env) w) = []
    /\ configuration (snd (DataController.initializePreferences env w)) =
         <["showWeeklyRanking" := assoc "showRank" prefs]>
           (<["showGitMetrics" := assoc "showGit" prefs]>
              (<["showMusicMetrics" := assoc "showMusic" prefs]> (configuration w))).
Proof.
  intros Hj Hp Hr Hok Hd Hu Hprefs.
  pose proof (initializePreferences_run env w resp data user prefs
                Hj Hp Hr Hok Hd Hu Hprefs) as Hrun. cbv zeta in Hrun.
  destruct (any_unset prefs).
  - split; [|split; [|split; [|split]]]; try apply local_preferences_fields.
    + apply emitted_app. rewrite Hrun. cbn. by rewrite <- !app_assoc.
    + by rewrite Hrun.
  - split; [|by rewrite Hrun].
    erewrite emitted_app; [|rewrite Hrun; cbn; by rewrite <- !app_assoc]. done.
Qed.

Lemma initializePreferences_pushes_or_pulls_witness :
  emitted (DataController.initializePreferences
             (profile_server [("showMusic", JBool true); ("showGit", JNull)]))
    configured =
    [EHttp (Get "/ping" JNull); EHttp (Get "/users/me" (JStr "T0"));
     EUpdateShowMusicMetrics (JBool false);
     EHttp (Put "/users/7/preferences"
              (JObj [("showMusic", JBool false); ("showGit", JBool true);
                     ("showRank", JBool true)])
              (JStr "T0"))].
Proof.
  pose proof (initializePreferences_pushes_or_pulls
    (profile_server [("showMusic", JBool true); ("showGit", JNull)]) configured
    _ _ _ [("showMusic", JBool true); ("showGit", JNull)]
    eq_refl eq_refl eq_refl eq_refl eq_refl eq_refl eq_refl) as H.
  exact (proj1 H).
Defined.

(** C5. [updatePreferences] never changes the local configuration.  When
    it fetches the user and the remote preferences: if the three remote
    fields are set and equal the current local configuration values there
    is no PUT; if a field is unset or differs from the local value, the
    fetch is followed by the PUT to /users/:id/preferences that carries
    the three current local values. *)
Theorem updatePreferences_pushes_only env :
  (forall w,
     configuration (snd (DataController.updatePreferences env w)) = configuration w)
  /\ (forall w resp data user resp' data' user' prefs,
        truthy (stored_jwt w) = true ->
        probe env w = true ->
        transport env (S (requests w)) (Get "/users/me" (stored_jwt w))
          = Resolved resp ->
        isResponseOk resp = true ->
        resp_data resp = JObj data ->
        assoc "data" data = JObj user ->
        transport env (S (S (requests w)))
          (Get ("/users/" +:+ to_string (assoc "id" user)) (stored_jwt w))
          = Resolved resp' ->
        isResponseOk resp' = true ->
        resp_data resp' = JObj data' ->
        assoc "data" data' = JObj user' ->
        assoc "preferences" user' = JObj prefs ->
        emitted (DataController.updatePreferences env) w =
          preferences_fetch w (assoc "id" user) ++
          (if in_sync w prefs then []
           else [EUpdateShowMusicMetrics (config_value w "showMusicMetrics");
                 EHttp (preferences_put w (assoc "id" user) prefs)])
        /\ assoc "showMusic" (local_preferences w prefs)
           = config_value w "showMusicMetrics"
        /\ assoc "showGit" (local_preferences w prefs)
           = config_value w "showGitMetrics"
        /\ assoc "showRank" (local_preferences w prefs)
           = config_value w "showWeeklyRanking").
Proof.
  split; [intros w; apply keeps_configuration_updatePreferences|].
  intros w resp data user resp' data' user' prefs
    Hj Hp Hr Hok Hd Hu Hr' Hok' Hd' Hu' Hprefs.
  split; [|apply local_preferences_fields].
  pose proof (updatePreferences_run env w resp data user resp' data' user' prefs
                Hj Hp Hr Hok Hd Hu Hr' Hok' Hd' Hu' Hprefs) as Hrun.
  cbv zeta in Hrun. apply emitted_app. rewrite Hrun.
  destruct (in_sync w prefs); cbn; by rewrite <- !app_assoc.
Qed.

Lemma updatePreferences_pushes_only_witness :
  emitted (DataController.updatePreferences
             (profile_server [("showMusic", JBool false); ("showGit", JBool true);
                              ("showRank", JBool true)]))
    configured =
    [EUpdateShowMusicMetrics (JBool false);
     EHttp (Get "/ping" JNull); EHttp (Get "/users/me" (JStr "T0"));
     EHttp (Get "/users/7" (JStr "T0"))]
  /\ emitted (DataController.updatePreferences
                (profile_server [("showMusic", JBool true); ("showGit", JBool true);
                                 ("showRank", JBool true)]))
       configured =
       [EUpdateShowMusicMetrics (JBool false);
        EHttp (Get "/ping" JNull); EHttp (Get "/users/me" (JStr "T0"));
        EHttp (Get "/users/7" (JStr "T0"));
        EUpdateShowMusicMetrics (JBool false);
        EHttp (Put "/users/7/preferences"
                 (JObj [("showMusic", JBool false); ("showGit", JBool true);
                        ("showRank", JBool true)])
                 (JStr "T0"))].
Proof.
  split.
  - exact (proj1 (proj2 (updatePreferences_pushes_only
      (profile_server [("showMusic", JBool false); ("showGit", JBool true);
                       ("showRank", JBool true)]))
      configured _ _ _ _ _ _
      [("showMusic", JBool false); ("showGit", JBool true); ("showRank", JBool true)]
      eq_refl eq_refl eq_refl eq_refl eq_refl eq_refl eq_refl eq_refl eq_refl
      eq_refl eq_refl)).
  - exact (proj1 (proj2 (updatePreferences_pushes_only
      (profile_server [("showMusic", JBool true); ("showGit", JBool true);
                       ("showRank", JBool true)]))
      configured _ _ _ _ _ _
      [("showMusic", JBool true); ("showGit", JBool true); ("showRank", JBool true)]
      eq_refl eq_refl eq_refl eq_refl eq_refl eq_refl eq_refl eq_refl eq_refl
      eq_refl eq_refl)).
Defined.

(** ** The event loop and the lazy re-check of the login state *)

#[global] Instance keeps_clock_refl : Reflexive keeps_clock.
Proof. by intros w. Qed.

#[global] Instance keeps_clock_trans : Transitive keeps_clock.
Proof. intros a b c [H1 H2] [H3 H4]. split; etrans; eauto. Qed.

(** Frame a call: run it knowing only that it is stable for [R]. *)
Ltac wp_frame R :=
  eapply (wp_stable R); [try apply stable_and; stable_auto |].

Lemma run_idle env turns w : timers w = [] -> EventLoop.run env turns w = w.
Proof.
  intros H. destruct turns; [done|]. simpl. unfold EventLoop.tick. by rewrite H.
Qed.

Section Refetch.

Variable env : environment.

Lemma getUserStatus_keeps_now :
  stable (keeps now) (DataController.getUserStatus env).
Proof. stable_auto. Qed.

Lemma getUserStatus_timers w :
  timers (snd (DataController.getUserStatus env w)) = timers w
  \/ timers (snd (DataController.getUserStatus env w)) =
       timers w ++ [(now w + 1000, CbFetchDailyKpmSessionInfo)].
Proof.
  pattern (DataController.getUserStatus env w). apply wp_pair.
  unfold DataController.getUserStatus. wp_go.
  (* the probe *)
  wp_frame keeps_clock. intros o w1 H1.
  destruct o as [serverIsOnline|e]; [|left; apply H1].
  (* the check of the login state *)
  apply wp_bind. wp_frame keeps_clock. intros o w2 H2.
  assert (K2 : keeps_clock w w2) by (etrans; [apply H1 | apply H2]).
  destruct o as [loggedIn|e]; [|left; apply K2].
  (* the preferences *)
  wp_go. wp_frame keeps_clock. intros o w3 H3.
  assert (K3 : keeps_clock w w3) by (etrans; [apply K2 | apply H3]).
  destruct o as [[]|e]; [|left; apply K3].
  (* the display name *)
  apply wp_bind. wp_frame keeps_clock. intros o w4 H4.
  assert (K4 : keeps_clock w w4) by (etrans; [apply K3 | apply H4]).
  clear H1 H2 H3 H4 K2 K3. destruct K4 as [Hnow Htimers]. unfold keeps in *.
  destruct o as [[]|e]; [|by left].
  (* the heartbeat and the refresh of the session info *)
  wp_go. destruct (_ && _); wp_go.
  - wp_frame keeps_clock. intros o w5 [Hnow5 Htimers5]. wp_go. right.
    world_simpl. unfold keeps in *. simpl in *. congruence.
  - by left.
Qed.

Lemma getUserStatus_checks_once w :
  exists d,
    trace (snd (DataController.getUserStatus env w)) =
      trace w ++ ECleanSessionInfo :: d
    /\ List.filter is_refetch_event d = [].
Proof.
  unfold DataController.getUserStatus.
  match goal with
  | |- context [mbind ?f (emit ECleanSessionInfo)] =>
      assert (Hrest : stable (quiet is_refetch_event) (f tt)) by stable_auto;
      destruct (Hrest (with_trace (trace w ++ [ECleanSessionInfo]) w))
        as (d & Hd & Hf)
  end.
  exists d. split; [|done]. cbn in Hd. by rewrite <- app_assoc in Hd.
Qed.

Hypothesis never_logged_in :
  forall w, fst (DataController.getUserStatus env w) =
              Returned {| DataController.loggedIn := false |}.

(** One run of the handler: one status check, and one more timer when
    tries remain. *)
Lemma userStatusFetchHandler_step n w :
  timers w = [] ->
  exists q d,
    (q = [] \/ q = [(now w + 1000, CbFetchDailyKpmSessionInfo)])
    /\ timers (snd (DataController.userStatusFetchHandler env n w)) =
         q ++ (if 0 <? n then [(now w + 10000, CbUserStatusFetchHandler (n - 1))]
               else [])
    /\ trace (snd (DataController.userStatusFetchHandler env n w)) = trace w ++ d
    /\ List.filter is_refetch_event d =
         ECleanSessionInfo ::
         (if 0 <? n then [ESetTimeout 10000 (CbUserStatusFetchHandler (n - 1))]
          else []).
Proof.
  intros Hq.
  assert (Hw : snd (DataController.userStatusFetchHandler env n w) =
               if 0 <? n
               then snd (DataController.refetchUserStatusLazily (n - 1)
                           (snd (DataController.getUserStatus env w)))
               else snd (DataController.getUserStatus env w)).
  { unfold DataController.userStatusFetchHandler. unfold mbind, M_bind.
    pose proof (never_logged_in w) as Hres.
    destruct (DataController.getUserStatus env w) as [o w1].
    cbn [fst snd] in *. subst o. cbn [DataController.loggedIn negb].
    by destruct (0 <? n). }
  rewrite Hw. clear Hw.
  pose proof (getUserStatus_keeps_now w) as Hnow.
  pose proof (getUserStatus_timers w) as Htimers.
  destruct (getUserStatus_checks_once w) as (d & Hd & Hf).
  set (w1 := snd (DataController.getUserStatus env w)) in *. clearbody w1.
  unfold keeps in Hnow. rewrite Hq in Htimers. cbn [app] in Htimers.
  exists (timers w1).
  destruct (0 <? n).
  - exists (ECleanSessionInfo :: d ++ [ESetTimeout 10000 (CbUserStatusFetchHandler (n - 1))]).
    split; [done|].
    unfold DataController.refetchUserStatusLazily, setTimeout, emit, modify.
    unfold mbind, M_bind. cbn. rewrite Hnow, Hd. split; [done|].
    split; [by rewrite <- app_assoc|].
    by rewrite List.filter_app, Hf.
  - exists (ECleanSessionInfo :: d). split; [done|]. cbn.
    rewrite app_nil_r, Hd, Hf. done.
Qed.

Lemma next_timer_None q : EventLoop.next_timer q = None -> q = [].
Proof.
  destruct q as [|t q]; [done|]. cbn [EventLoop.next_timer].
  destruct (EventLoop.next_timer q) as [[t' rest']|]; [|done].
  by destruct (fst t <=? fst t').
Qed.

Lemma tick_first due cb rest w :
  timers w = (due, cb) :: rest ->
  Forall (fun t => due <= fst t) rest ->
  EventLoop.tick env w =
    Some (snd (EventLoop.run_callback env cb
                 (with_now (Z.max (now w) due) (with_timers rest w)))).
Proof.
  intros Hq Hrest. unfold EventLoop.tick. rewrite Hq.
  assert (Hnext : EventLoop.next_timer ((due, cb) :: rest) = Some ((due, cb), rest)).
  { cbn [EventLoop.next_timer].
    destruct (EventLoop.next_timer rest) as [[t' rest']|] eqn:E;
      [|by rewrite (next_timer_None rest E)].
    assert (Ht' : t' ∈ rest).
    { clear -E. revert t' rest' E.
      induction rest as [|t rest IH]; intros t' rest' E; [done|].
      cbn [EventLoop.next_timer] in E.
      destruct (EventLoop.next_timer rest) as [[t0 rest0]|] eqn:E0.
      - destruct (fst t <=? fst t0); injection E as <- <-.
        + by left.
        + right. by eapply IH.
      - injection E as <- <-. by left. }
    rewrite Forall_forall in Hrest. specialize (Hrest t' Ht'). cbn [fst].
    by apply Z.leb_le in Hrest as ->. }
  by rewrite Hnext.
Qed.

(** From a queue that holds the timer of the handler, alone or after a
    session-info refresh due before it, the loop runs the chain of
    re-checks to its end. *)
Lemma refetch_chain_runs (tries : nat) :
  forall turns w due,
    (2 * tries + 2 <= turns)%nat ->
    timers w = [(due, CbUserStatusFetchHandler (Z.of_nat tries))] ->
    timers (EventLoop.run env turns w) = []
    /\ exists d, trace (EventLoop.run env turns w) = trace w ++ d
                 /\ List.filter is_refetch_event d = refetch_chain tries.
Proof.
  induction tries as [|tries IH]; intros turns w due Hturns Hq.
  - destruct turns as [|[|turns]]; [lia..|]. change (Z.of_nat 0) with 0 in *.
    cbn [EventLoop.run]. rewrite (tick_first due _ [] w Hq) by done.
    set (w1 := with_now _ _). cbn [EventLoop.run_callback detach snd].
    destruct (userStatusFetchHandler_step 0 w1 eq_refl) as (q & d & Hq1 & Ht & Hd & Hf).
    cbn [Z.ltb Z.compare] in Ht, Hf. rewrite app_nil_r in Ht.
    set (w2 := snd (DataController.userStatusFetchHandler env 0 w1)) in *.
    destruct Hq1 as [-> | ->].
    + unfold EventLoop.tick. rewrite Ht. cbn [EventLoop.next_timer].
      split; [done|]. exists d. by rewrite Hd.
    + rewrite (tick_first _ _ [] w2 Ht) by done.
      cbn [EventLoop.run_callback]. rewrite run_idle by done.
      split; [done|]. exists (d ++ [EFetchDailyKpmSessionInfo]). cbn.
      rewrite Hd. split; [by rewrite <- app_assoc|].
      by rewrite List.filter_app, Hf.
  - destruct turns as [|turns]; [lia|].
    cbn [EventLoop.run]. rewrite (tick_first due _ [] w Hq) by done.
    set (w1 := with_now _ _). cbn [EventLoop.run_callback detach snd].
    destruct (userStatusFetchHandler_step (Z.of_nat (S tries)) w1 eq_refl)
      as (q & d & Hq1 & Ht & Hd & Hf).
    replace (0 <? Z.of_nat (S tries)) with true in Ht, Hf by (symmetry; apply Z.ltb_lt; lia).
    replace (Z.of_nat (S tries) - 1) with (Z.of_nat tries) in Ht, Hf by lia.
    set (w2 := snd (DataController.userStatusFetchHandler env (Z.of_nat (S tries)) w1)) in *.
    destruct Hq1 as [-> | ->].
    + destruct (IH turns w2 _ ltac:(lia) Ht) as (Hend & d' & Hd' & Hf').
      split; [done|]. exists (d ++ d'). rewrite Hd', Hd.
      split; [by rewrite <- app_assoc|].
      by rewrite List.filter_app, Hf, Hf'.
    + destruct turns as [|turns]; [lia|].
      cbn [EventLoop.run].
      rewrite (tick_first _ _ _ w2 Ht)
        by (repeat constructor; cbn [fst]; lia).
      cbn [EventLoop.run_callback].
      set (w3 := snd (emit EFetchDailyKpmSessionInfo _)).
      destruct (IH turns w3 (now w1 + 10000) ltac:(lia) eq_refl)
        as (Hend & d' & Hd' & Hf').
      split; [done|]. exists (d ++ EFetchDailyKpmSessionInfo :: d').
      rewrite Hd'. subst w3. cbn. rewrite Hd.
      split; [by rewrite <- !app_assoc|].
      rewrite List.filter_app, Hf. cbn. by rewrite Hf'.
Qed.

End Refetch.

(** C6. When [getUserStatus] always returns {loggedIn: false} and no
    timer is pending, [refetchUserStatusLazily(3)] arms the handler with a
    delay of ten seconds, and the event loop then runs exactly four status
    checks: each check but the last is followed by the arming of the next
    one, again with a delay of ten seconds and with one try less; after
    the fourth check nothing more is armed, and no timer is left pending
    (eight turns of the loop, or any larger number, reach that state). *)
Theorem refetchUserStatusLazily_four_checks env w turns :
  (forall w0, fst (DataController.getUserStatus env w0) =
                Returned {| DataController.loggedIn := false |}) ->
  timers w = [] ->
  (8 <= turns)%nat ->
  List.filter is_refetch_event
    (drop (length (trace w))
       (trace (EventLoop.run env turns
                 (snd (DataController.refetchUserStatusLazily 3 w))))) =
    [ESetTimeout 10000 (CbUserStatusFetchHandler 3); ECleanSessionInfo;
     ESetTimeout 10000 (CbUserStatusFetchHandler 2); ECleanSessionInfo;
     ESetTimeout 10000 (CbUserStatusFetchHandler 1); ECleanSessionInfo;
     ESetTimeout 10000 (CbUserStatusFetchHandler 0); ECleanSessionInfo]
  /\ timers (EventLoop.run env turns
               (snd (DataController.refetchUserStatusLazily 3 w))) = [].
Proof.
  intros Hnever Hq Hturns.
  set (w1 := snd (DataController.refetchUserStatusLazily 3 w)).
  assert (Hq1 : timers w1 = [(now w + 10000, CbUserStatusFetchHandler (Z.of_nat 3))]).
  { subst w1.
    unfold DataController.refetchUserStatusLazily, setTimeout, emit, modify.
    unfold mbind, M_bind. cbn. by rewrite Hq. }
  destruct (refetch_chain_runs env Hnever 3 turns w1 _ ltac:(lia) Hq1)
    as (Hend & d & Hd & Hf).
  split; [|done]. rewrite Hd. subst w1.
  unfold DataController.refetchUserStatusLazily, setTimeout, emit, modify.
  unfold mbind, M_bind. cbn. rewrite <- app_assoc, drop_app_length. cbn.
  by rewrite Hf.
Qed.

Lemma refetchUserStatusLazily_four_checks_witness :
  List.filter is_refetch_event
    (drop (length (trace (startup ∅ ∅ None false 0)))
       (trace (EventLoop.run offline 8
                 (snd (DataController.refetchUserStatusLazily 3
                         (startup ∅ ∅ None false 0)))))) =
    [ESetTimeout 10000 (CbUserStatusFetchHandler 3); ECleanSessionInfo;
     ESetTimeout 10000 (CbUserStatusFetchHandler 2); ECleanSessionInfo;
     ESetTimeout 10000 (CbUserStatusFetchHandler 1); ECleanSessionInfo;
     ESetTimeout 10000 (CbUserStatusFetchHandler 0); ECleanSessionInfo]
  /\ timers (EventLoop.run offline 8
               (snd (DataController.refetchUserStatusLazily 3
                       (startup ∅ ∅ None false 0)))) = [].
Proof.
  apply (refetchUserStatusLazily_four_checks offline (startup ∅ ∅ None false 0) 8).
  - intros w0. by apply getUserStatus_offline.
  - reflexivity.
  - lia.
Defined.

(** ** Onboarding *)

(** A frame made of several relations: each one apart. *)
Ltac stable_each :=
  let w := fresh "w" in
  intros w; repeat split;
  lazymatch goal with
  | |- ?R w (snd (?m w)) => revert w; change (stable R m); stable_auto
  end.

Section Onboarding.

Variable env : environment.

Lemma serverIsAvailable_onboard_frame :
  stable onboard_frame (DataController.serverIsAvailable env).
Proof. stable_each. Qed.

Lemma createAnonymousUser_onboard_frame b :
  stable onboard_frame (OnboardManager.createAnonymousUser env b).
Proof. stable_each. Qed.

(** One invocation of [onboardPlugin] with no timer pending: it ends with
    no timer (the success callback was called, or a failure escaped), or
    with the five-second deferral, or with the ten-minute retry, which is
    the only case with a prompt, shown when the retry counter is zero. *)
Lemma onboardPlugin_step w :
  timers w = [] ->
  retry_counter (snd (OnboardManager.onboardPlugin env w)) = retry_counter w
  /\ exists d,
       trace (snd (OnboardManager.onboardPlugin env w)) = trace w ++ d
       /\ ((timers (snd (OnboardManager.onboardPlugin env w)) = []
            /\ List.filter is_prompt d = [] /\ List.filter is_timeout d = [])
           \/ (timers (snd (OnboardManager.onboardPlugin env w)) =
                 [(now w + 5000, CbOnboardSecondaryWindow)]
               /\ List.filter is_prompt d = []
               /\ List.filter is_timeout d =
                    [ESetTimeout 5000 CbOnboardSecondaryWindow])
           \/ (timers (snd (OnboardManager.onboardPlugin env w)) =
                 [(now w + 600000, CbOnboardRetry)]
               /\ List.filter is_prompt d =
                    (if retry_counter w =? 0 then [EShowOfflinePrompt true] else [])
               /\ List.filter is_timeout d = [ESetTimeout 600000 CbOnboardRetry])).
Proof.
  intros Hq. pattern (OnboardManager.onboardPlugin env w). apply wp_pair.
  unfold OnboardManager.onboardPlugin. wp_go.
  destruct (_ && _).
  { wp_go. world_simpl. rewrite Hq. split; [done|].
    exists [ESetTimeout (1000 * 5) CbOnboardSecondaryWindow].
    split; [done|]. right. left. done. }
  wp_go. eapply wp_stable; [apply serverIsAvailable_onboard_frame|].
  intros o w1 H.
  destruct H as (Hnow & Htimers & Hretry & (d1 & Hd1 & Hp1) & (d1' & Hd1' & Ht1)).
  assert (d1' = d1) by (rewrite Hd1 in Hd1'; by apply app_inv_head in Hd1').
  subst d1'. unfold keeps in *. rewrite Hq in Htimers.
  assert (Hretry_path : forall u d,
    now u = now w -> timers u = [] -> retry_counter u = retry_counter w ->
    trace u = trace w ++ d -> List.filter is_prompt d = [] ->
    List.filter is_timeout d = [] ->
    wp (OnboardManager.prompt_and_retry)
      (fun o u' =>
         retry_counter u' = retry_counter w
         /\ exists d0, trace u' = trace w ++ d0
            /\ ((timers u' = [] /\ List.filter is_prompt d0 = []
                 /\ List.filter is_timeout d0 = [])
                \/ (timers u' = [(now w + 5000, CbOnboardSecondaryWindow)]
                    /\ List.filter is_prompt d0 = []
                    /\ List.filter is_timeout d0 =
                         [ESetTimeout 5000 CbOnboardSecondaryWindow])
                \/ (timers u' = [(now w + 600000, CbOnboardRetry)]
                    /\ List.filter is_prompt d0 =
                         (if retry_counter w =? 0 then [EShowOfflinePrompt true]
                          else [])
                    /\ List.filter is_timeout d0 =
                         [ESetTimeout 600000 CbOnboardRetry]))) u).
  { intros u d Hn Ht Hr Hd Hp Hto. unfold OnboardManager.prompt_and_retry.
    wp_go. rewrite Hr. destruct (retry_counter w =? 0); wp_go; world_simpl;
      rewrite Hn, Ht, Hr, Hd; (split; [done|]).
    - exists (d ++ [EShowOfflinePrompt true;
                    ESetTimeout OnboardManager.check_online_interval_ms CbOnboardRetry]).
      split; [by rewrite <- !app_assoc|]. right. right.
      rewrite !List.filter_app, Hp, Hto. done.
    - exists (d ++ [ESetTimeout OnboardManager.check_online_interval_ms CbOnboardRetry]).
      split; [by rewrite <- !app_assoc|]. right. right.
      rewrite !List.filter_app, Hp, Hto. done. }
  destruct o as [serverIsOnline|e].
  2:{ split; [done|]. exists d1. split; [done|]. left. done. }
  wp_go. destruct (_ || _).
  - destruct (negb serverIsOnline).
    + by apply (Hretry_path w1 d1).
    + apply wp_bind.
      eapply wp_stable; [apply createAnonymousUser_onboard_frame|].
      intros o w2 H.
      destruct H as (Hnow2 & Htimers2 & Hretry2 & (d2 & Hd2 & Hp2) & (d2' & Hd2' & Ht2)).
      assert (d2' = d2) by (rewrite Hd2 in Hd2'; by apply app_inv_head in Hd2').
      subst d2'. unfold keeps in *.
      assert (Hd12 : trace w2 = trace w ++ (d1 ++ d2))
        by (by rewrite Hd2, Hd1, app_assoc).
      assert (Hp12 : List.filter is_prompt (d1 ++ d2) = [])
        by (by rewrite List.filter_app, Hp1, Hp2).
      assert (Ht12 : List.filter is_timeout (d1 ++ d2) = [])
        by (by rewrite List.filter_app, Ht1, Ht2).
      destruct o as [result|e].
      2:{ cbn [snd]. split; [congruence|]. exists (d1 ++ d2).
          split; [done|]. left. split; [congruence|done]. }
      destruct (negb (truthy result)).
      * apply (Hretry_path w2 (d1 ++ d2)); first [congruence | done].
      * wp_go. cbn [snd]. world_simpl. split; [congruence|].
        exists ((d1 ++ d2) ++ [ESuccessFunction true]). rewrite Hd12.
        split; [by rewrite <- !app_assoc|]. left.
        rewrite !List.filter_app, Hp1, Hp2, Ht1, Ht2. split; [congruence|done].
  - wp_go. cbn [snd]. world_simpl. split; [done|].
    exists (d1 ++ [ESuccessFunction false]). rewrite Hd1.
    split; [by rewrite <- !app_assoc|]. left.
    rewrite !List.filter_app, Hp1, Ht1. done.
Qed.

Lemma onboardPlugin_onboarding w0 u d :
  trace u = trace w0 ++ d -> timers u = [] -> 0 <= retry_counter u ->
  (length (List.filter is_prompt d) <= 1)%nat ->
  Forall onboard_timeout (List.filter is_timeout d) ->
  (List.filter is_prompt d <> [] -> 1 <= retry_counter u) ->
  onboarding w0 (snd (OnboardManager.onboardPlugin env u)).
Proof.
  intros Hd Hq Hr Hp Ht Hshown.
  destruct (onboardPlugin_step u Hq) as (Hr' & d' & Hd' & Hcases).
  split; [by rewrite Hr'|]. exists (d ++ d'). rewrite Hr'.
  split; [by rewrite Hd', Hd, app_assoc|]. rewrite !List.filter_app.
  destruct Hcases as [(Hq' & Hp' & Ht') | [(Hq' & Hp' & Ht') | (Hq' & Hp' & Ht')]];
    rewrite Hq', Hp', Ht', ?app_nil_r.
  - split; [done|]. split; [done|]. split; [by left|]. intros H. left. auto.
  - split; [done|]. split.
    { apply Forall_app. split; [done|]. constructor; [by left | constructor]. }
    split; [right; left; by eexists|]. intros H. left. auto.
  - split.
    { destruct (retry_counter u =? 0) eqn:E; [|by rewrite app_nil_r].
      apply Z.eqb_eq in E.
      destruct (List.filter is_prompt d) as [|p ps]; [done|].
      assert (1 <= retry_counter u) by (by apply Hshown). lia. }
    split.
    { apply Forall_app. split; [done|]. constructor; [by right | constructor]. }
    split; [right; right; by eexists|]. intros _. right. by eexists.
Qed.

Lemma tick_onboarding w0 w w' :
  EventLoop.tick env w = Some w' -> onboarding w0 w -> onboarding w0 w'.
Proof.
  intros Htick (Hr & d & Hd & Hp & Ht & Hq & Hshown).
  destruct Hq as [Hq | [[due Hq] | [due Hq]]].
  - unfold EventLoop.tick in Htick. by rewrite Hq in Htick.
  - rewrite (tick_first env due _ [] w Hq) in Htick by done.
    injection Htick as <-. cbn [EventLoop.run_callback].
    unfold mbind, M_bind, modify, detach. cbn [snd].
    apply (onboardPlugin_onboarding w0 _ d); try done.
    intros H. destruct (Hshown H) as [?|[due' Hq']]; [done|].
    rewrite Hq in Hq'. discriminate Hq'.
  - rewrite (tick_first env due _ [] w Hq) in Htick by done.
    injection Htick as <-. cbn [EventLoop.run_callback].
    unfold mbind, M_bind, modify, detach. cbn [snd].
    apply (onboardPlugin_onboarding w0 _ d); try done.
    + world_simpl. lia.
    + world_simpl. lia.
Qed.

Lemma run_onboarding w0 turns w :
  onboarding w0 w -> onboarding w0 (EventLoop.run env turns w).
Proof.
  revert w. induction turns as [|turns IH]; intros w Hw; [done|].
  cbn [EventLoop.run]. destruct (EventLoop.tick env w) as [w'|] eqn:E; [|done].
  apply IH. by eapply tick_onboarding.
Qed.

(** The branch of [onboardPlugin] taken when the server is not
    reachable and no session exists. *)
Lemma onboardPlugin_offline w :
  activates env w -> no_session w -> probe env w = false ->
  snd (OnboardManager.onboardPlugin env w) =
    let w1 := sent (Get "/ping" JNull) w in
    with_trace
      (trace w1 ++
       (if retry_counter w =? 0 then [EShowOfflinePrompt true] else []) ++
       [ESetTimeout 600000 CbOnboardRetry])
      (with_timers (timers w ++ [(now w + 600000, CbOnboardRetry)]) w1).
Proof.
  intros Hact Hns Hp. pattern (OnboardManager.onboardPlugin env w). apply wp_pair.
  unfold OnboardManager.onboardPlugin. wp_go.
  replace (negb (window_focused env (now w))
           && (secondary_window_activate_counter w =? 0)) with false.
  2:{ destruct Hact as [-> | Hne]; [done|].
      apply Z.eqb_neq in Hne as ->. by rewrite andb_false_r. }
  wp_go. apply wp_serverIsAvailable. rewrite Hp. wp_go. world_simpl.
  fold (stored_jwt w).
  replace (negb (sessionFile w) || negb (truthy (stored_jwt w))) with true.
  2:{ destruct Hns as [-> | ->]; [done|]. by rewrite orb_true_r. }
  cbn [negb]. unfold OnboardManager.prompt_and_retry. wp_go. world_simpl.
  destruct (retry_counter w =? 0); wp_go; cbn [snd]; world_simpl.
  - unfold with_trace, with_timers. cbn. by rewrite <- !app_assoc.
  - unfold with_trace, with_timers. cbn. by rewrite <- !app_assoc.
Qed.

Lemma activates_branch w :
  activates env w ->
  negb (window_focused env (now w))
  && (secondary_window_activate_counter w =? 0) = false.
Proof.
  intros [-> | Hne]; [done|]. apply Z.eqb_neq in Hne as ->. apply andb_false_r.
Qed.

(** The branch taken when a session exists. *)
Lemma onboardPlugin_session_exists w :
  activates env w -> sessionFile w = true -> truthy (stored_jwt w) = true ->
  OnboardManager.onboardPlugin env w =
    (Returned tt,
     with_trace (trace w ++ [EHttp (Get "/ping" JNull); ESuccessFunction false])
       (sent (Get "/ping" JNull) w)).
Proof.
  intros Hact Hs Hj. unfold OnboardManager.onboardPlugin.
  unfold mbind, M_bind, gets. rewrite (activates_branch w Hact).
  rewrite serverIsAvailable_run. unfold softwareSessionFileExists, jwtExists, gets.
  world_simpl. fold (stored_jwt w). rewrite Hs, Hj. cbn.
  unfold OnboardManager.successFunction, emit, modify, with_trace. cbn.
  by rewrite <- app_assoc.
Qed.

(** The branch taken when the anonymous user is created. *)
Lemma onboardPlugin_created w result w' :
  activates env w -> no_session w -> probe env w = true ->
  OnboardManager.createAnonymousUser env true (sent (Get "/ping" JNull) w)
    = (Returned result, w') ->
  truthy result = true ->
  OnboardManager.onboardPlugin env w =
    (Returned tt, with_trace (trace w' ++ [ESuccessFunction true]) w').
Proof.
  intros Hact Hns Hp Hcreate Hres. unfold OnboardManager.onboardPlugin.
  unfold mbind, M_bind, gets. rewrite (activates_branch w Hact).
  rewrite serverIsAvailable_run. unfold softwareSessionFileExists, jwtExists, gets.
  world_simpl. fold (stored_jwt w).
  replace (negb (sessionFile w) || negb (truthy (stored_jwt w))) with true.
  2:{ destruct Hns as [-> | ->]; [done|]. by rewrite orb_true_r. }
  rewrite Hp. cbn [negb]. rewrite Hcreate, Hres. done.
Qed.

(** The branch taken when the creation of the anonymous user fails. *)
Lemma onboardPlugin_creation_failed w result w' :
  activates env w -> no_session w -> probe env w = true ->
  OnboardManager.createAnonymousUser env true (sent (Get "/ping" JNull) w)
    = (Returned result, w') ->
  truthy result = false ->
  snd (OnboardManager.onboardPlugin env w) =
    with_trace
      (trace w' ++
       (if retry_counter w' =? 0 then [EShowOfflinePrompt true] else []) ++
       [ESetTimeout 600000 CbOnboardRetry])
      (with_timers (timers w' ++ [(now w' + 600000, CbOnboardRetry)]) w').
Proof.
  intros Hact Hns Hp Hcreate Hres. unfold OnboardManager.onboardPlugin.
  unfold mbind, M_bind, gets. rewrite (activates_branch w Hact).
  rewrite serverIsAvailable_run. unfold softwareSessionFileExists, jwtExists, gets.
  world_simpl. fold (stored_jwt w).
  replace (negb (sessionFile w) || negb (truthy (stored_jwt w))) with true.
  2:{ destruct Hns as [-> | ->]; [done|]. by rewrite orb_true_r. }
  rewrite Hp. cbn [negb]. rewrite Hcreate, Hres. cbn [negb].
  unfold OnboardManager.prompt_and_retry, OnboardManager.showOfflinePrompt,
    setTimeout, emit, modify, gets. unfold mbind, M_bind.
  destruct (retry_counter w' =? 0); cbn;
    unfold with_trace, with_timers; cbn; by rewrite <- ?app_assoc.
Qed.

(** The branch taken by an unfocused window that has not deferred yet. *)
Lemma onboardPlugin_deferred w :
  ~ activates env w ->
  OnboardManager.onboardPlugin env w =
    (Returned tt,
     with_trace (trace w ++ [ESetTimeout 5000 CbOnboardSecondaryWindow])
       (with_timers (timers w ++ [(now w + 5000, CbOnboardSecondaryWindow)]) w)).
Proof.
  intros Hact. unfold OnboardManager.onboardPlugin.
  unfold mbind, M_bind, gets.
  replace (negb (window_focused env (now w))
           && (secondary_window_activate_counter w =? 0)) with true; [done|].
  unfold activates in Hact.
  destruct (window_focused env (now w)); [exfalso; auto|].
  destruct (secondary_window_activate_counter w =? 0) eqn:E; [done|].
  apply Z.eqb_neq in E. exfalso. auto.
Qed.

Hypothesis never_reachable : forall w, probe env w = false.
Hypothesis always_focused : forall t, window_focused env t = true.

(** While the server cannot be reached the retry is armed again and
    again, ten minutes after the previous one. *)
Lemma retry_runs_forever turns :
  forall w due,
    timers w = [(due, CbOnboardRetry)] -> now w <= due -> no_session w ->
    timers (EventLoop.run env turns w) =
      [(due + Z.of_nat turns * 600000, CbOnboardRetry)]
    /\ retry_counter (EventLoop.run env turns w) =
         retry_counter w + Z.of_nat turns.
Proof.
  induction turns as [|turns IH]; intros w due Hq Hnow Hns.
  - cbn [EventLoop.run]. rewrite Hq. split; [f_equal; f_equal; lia | lia].
  - cbn [EventLoop.run]. rewrite (tick_first env due _ [] w Hq) by done.
    cbn [EventLoop.run_callback]. unfold mbind, M_bind, modify, detach. cbn [snd].
    set (u := with_retry_counter _ _).
    assert (Hu : activates env u) by (left; apply always_focused).
    assert (Hnsu : no_session u) by done.
    rewrite (onboardPlugin_offline u Hu Hnsu (never_reachable u)).
    cbv zeta.
    set (u' := with_trace _ _).
    destruct (IH u' (due + 600000)) as [H1 H2].
    + subst u' u. world_simpl. cbn. f_equal. f_equal. lia.
    + subst u' u. world_simpl. lia.
    + done.
    + rewrite H1, H2. subst u' u. world_simpl.
      split; [f_equal; f_equal; lia | lia].
Qed.

Lemma onboarding_never_gives_up turns w :
  timers w = [] -> no_session w ->
  timers (EventLoop.run env turns (snd (OnboardManager.onboardPlugin env w))) =
    [(now w + (Z.of_nat turns + 1) * 600000, CbOnboardRetry)]
  /\ retry_counter
       (EventLoop.run env turns (snd (OnboardManager.onboardPlugin env w))) =
       retry_counter w + Z.of_nat turns.
Proof.
  intros Hq Hns.
  assert (Hw : activates env w) by (left; apply always_focused).
  rewrite (onboardPlugin_offline w Hw Hns (never_reachable w)). cbv zeta.
  set (w1 := with_trace _ _).
  destruct (retry_runs_forever turns w1 (now w + 600000)) as [H1 H2].
  - subst w1. world_simpl. by rewrite Hq.
  - subst w1. world_simpl. lia.
  - done.
  - rewrite H1, H2. subst w1. world_simpl. split; [f_equal; f_equal; lia | lia].
Qed.

End Onboarding.

(** * Further properties of the code *)

(** ** The telemetry senders *)

Lemma snd_send env r w : snd (send env r w) = sent r w.
Proof. unfold send, sent. by destruct (transport env (requests w) r). Qed.

(** What [sendHeartbeat] does, in one equation. *)
Lemma sendHeartbeat_run env reason w :
  DataController.sendHeartbeat env reason w =
    (Returned tt,
     if probe env w && truthy (stored_jwt w)
     then sent (Post "/data/heartbeat" (heartbeat_body env w reason) (stored_jwt w))
            (sent (Get "/ping" JNull) w)
     else sent (Get "/ping" JNull) w).
Proof.
  unfold DataController.sendHeartbeat. unfold mbind at 1, M_bind at 1.
  rewrite serverIsAvailable_run.
  unfold getItem, nowInSecs, gets, detach, softwarePost. unfold mbind, M_bind.
  world_simpl. fold (stored_jwt w).
  destruct (probe env w && truthy (stored_jwt w)); [|done].
  by rewrite snd_send.
Qed.

(** X1. [sendHeartbeat] returns normally whatever the transport does.  It
    sends the reachability probe; when the probe succeeds and a token is
    stored it then sends one POST to /data/heartbeat, authorized by the
    stored token, whose trigger_annotation is the reason given; otherwise
    it sends nothing more.  Nothing else in the world changes. *)
Theorem sendHeartbeat_posts_when_online_with_token env reason w :
  fst (DataController.sendHeartbeat env reason w) = Returned tt
  /\ emitted (DataController.sendHeartbeat env reason) w =
       EHttp (Get "/ping" JNull) ::
       (if probe env w && truthy (stored_jwt w)
        then [EHttp (Post "/data/heartbeat" (heartbeat_body env w reason)
                       (stored_jwt w))]
        else [])
  /\ only_requests w (snd (DataController.sendHeartbeat env reason w)).
Proof.
  split; [by rewrite sendHeartbeat_run|]. split.
  - apply emitted_app. rewrite sendHeartbeat_run. cbn [snd].
    destruct (probe env w && truthy (stored_jwt w)); cbn; by rewrite <- ?app_assoc.
  - revert w. change (stable only_requests (DataController.sendHeartbeat env reason)).
    stable_each.
Qed.

(** X2. [sendMusicData] returns normally whatever the transport does: it
    sends one POST to /data/music with the track data and the stored
    token, and returns {status: "ok"} exactly when that request is
    answered by a response classified as ok, {status: "fail"} when the
    response is not ok or the transport throws.  Nothing else in the world
    changes. *)
Theorem sendMusicData_reports_the_response env trackData w :
  DataController.sendMusicData env trackData w =
    (Returned
       match transport env (requests w)
               (Post "/data/music" trackData (stored_jwt w)) with
       | Resolved resp =>
           if isResponseOk resp then DataController.status_ok
           else DataController.status_fail
       | Rejected => DataController.status_fail
       end,
     sent (Post "/data/music" trackData (stored_jwt w)) w).
Proof.
  unfold DataController.sendMusicData, getItem, gets, catch, softwarePost, send, sent.
  unfold mbind, M_bind. fold (stored_jwt w).
  destruct (transport env (requests w) _) as [resp|]; [|done].
  by destruct (isResponseOk resp).
Qed.

(** The batch file is left as it is or deleted, and the rest of the local
    state is left alone. *)
Lemma sendOfflineData_frame env :
  stable (fun w w' =>
            keeps items w w' /\ keeps cachedJwt w w' /\ keeps configuration w w'
            /\ keeps timers w w') (DataController.sendOfflineData env).
Proof. stable_each. Qed.

(** X3. [sendOfflineData] returns normally whatever the transport does,
    also when the batch request or the probe is rejected.  When the batch
    file is missing or empty it sends nothing and changes nothing.  In
    every case the batch file afterwards is either what it was or deleted,
    and the store, the token cache, the configuration and the timers are
    untouched. *)
Theorem sendOfflineData_is_guarded env w :
  fst (DataController.sendOfflineData env w) = Returned tt
  /\ (dataStoreFile w = None \/ dataStoreFile w = Some "" ->
      DataController.sendOfflineData env w = (Returned tt, w))
  /\ (dataStoreFile (snd (DataController.sendOfflineData env w)) = dataStoreFile w
      \/ dataStoreFile (snd (DataController.sendOfflineData env w)) = None)
  /\ items (snd (DataController.sendOfflineData env w)) = items w
  /\ cachedJwt (snd (DataController.sendOfflineData env w)) = cachedJwt w
  /\ configuration (snd (DataController.sendOfflineData env w)) = configuration w
  /\ timers (snd (DataController.sendOfflineData env w)) = timers w.
Proof.
  assert (Hempty : dataStoreFile w = None \/ dataStoreFile w = Some "" ->
                   DataController.sendOfflineData env w = (Returned tt, w)).
  { unfold DataController.sendOfflineData, catch, readDataStoreFile, gets.
    unfold mbind, M_bind. by intros [-> | ->]. }
  destruct (sendOfflineData_frame env w) as (Hi & Hc & Hcfg & Ht).
  destruct (dataStoreFile w) as [content|] eqn:Hfile.
  2:{ rewrite Hempty by (by left). repeat split; by left. }
  destruct (String.eqb content "") eqn:E.
  { apply String.eqb_eq in E. subst content. rewrite Hempty by (by right).
    repeat split; by left. }
  apply String.eqb_neq in E.
  rewrite (sendOfflineData_run env w content Hfile E) in *. cbn [fst snd] in *.
  split; [done|]. split; [done|]. split; [|done].
  destruct (transport env _ _) as [resp|]; [|by left].
  destruct (isResponseOk resp || isUserDeactivated resp); [|by left].
  destruct (probe env _); [by right | by left].
Qed.

(** X4. The functions that only query the server change nothing but the
    log of requests: [serverIsAvailable], [getAppJwt] and [getUser] leave
    the module-level variables, the store, the configuration, the files,
    the clock and the timers as they are, whether they return or throw,
    and add no event but requests. *)
Theorem query_functions_only_send_requests env :
  stable only_requests (DataController.serverIsAvailable env)
  /\ (forall serverIsOnline,
        stable only_requests (DataController.getAppJwt env serverIsOnline))
  /\ (forall serverIsOnline jwt,
        stable only_requests (DataController.getUser env serverIsOnline jwt)).
Proof. split; [|split]; intros; stable_each. Qed.

(** ** The login state and the token *)

(** X5. [isLoggedOn] reports the user as logged on exactly when the state
    it returns is "OK", and the state it returns is never empty (a missing
    state reads "UNKNOWN").  Unless it reports the user as logged on, the
    store, the token cache and the preferences flag are left as they are,
    also when the transport throws; and called with serverIsOnline false
    it sends nothing and answers not logged on, state "UNKNOWN". *)
Theorem isLoggedOn_changes_state_only_on_ok env serverIsOnline jwt w :
  (forall r, fst (DataController.isLoggedOn env serverIsOnline jwt w) = Returned r ->
     (DataController.loggedOn r = true <-> DataController.state r = JStr "OK")
     /\ truthy (DataController.state r) = true)
  /\ (fst (DataController.isLoggedOn env serverIsOnline jwt w) <>
        Returned {| DataController.loggedOn := true;
                    DataController.state := JStr "OK" |} ->
      items (snd (DataController.isLoggedOn env serverIsOnline jwt w)) = items w
      /\ cachedJwt (snd (DataController.isLoggedOn env serverIsOnline jwt w))
         = cachedJwt w
      /\ initializedPrefs (snd (DataController.isLoggedOn env serverIsOnline jwt w))
         = initializedPrefs w)
  /\ DataController.isLoggedOn env false jwt w =
       (Returned {| DataController.loggedOn := false;
                    DataController.state := JStr "UNKNOWN" |}, w).
Proof.
  split; [|split; [|done]].
  - pattern (DataController.isLoggedOn env serverIsOnline jwt w). apply wp_pair.
    unfold DataController.isLoggedOn. destruct serverIsOnline.
    2:{ wp_go. cbn [fst]. intros r [= <-]. done. }
    wp_go. destruct (transport env _ _) as [resp|]; [|done].
    destruct (isResponseOk resp && truthy (resp_data resp)).
    2:{ wp_go. cbn [fst]. intros r [= <-]. done. }
    wp_go. destruct (resp_data resp) as [| | | | |elems|fields];
      try done; try (wp_go; cbn [fst]; intros r [= <-]; done).
    destruct (truthy (assoc "state" fields)) eqn:Hst.
    + destruct (strict_eq (assoc "state" fields) (JStr "OK")) eqn:Hok.
      * wp_go. apply strict_eq_eq in Hok. rewrite Hok.
        destruct (_ && _); wp_go; cbn [fst]; intros r [= <-]; done.
      * wp_go. cbn [fst]. intros r [= <-]. cbn. split; [|done]. split; [done|].
        intros Heq. rewrite Heq in Hok. done.
    + wp_go. cbn [fst]. intros r [= <-]. done.
  - pattern (DataController.isLoggedOn env serverIsOnline jwt w). apply wp_pair.
    unfold DataController.isLoggedOn. destruct serverIsOnline; [|by wp_go].
    wp_go. destruct (transport env _ _) as [resp|]; [|done].
    destruct (isResponseOk resp && truthy (resp_data resp)); [|by wp_go].
    wp_go. destruct (resp_data resp) as [| | | | |elems|fields];
      try done; try (by wp_go).
    destruct (truthy (assoc "state" fields)) eqn:Hst; [|by wp_go].
    destruct (strict_eq (assoc "state" fields) (JStr "OK")) eqn:Hok; [|by wp_go].
    wp_go. apply strict_eq_eq in Hok. rewrite Hok.
    destruct (_ && _); wp_go; cbn [fst]; intros H; by destruct H.
Qed.

Lemma getAppJwt_only_requests env b :
  stable only_requests (DataController.getAppJwt env b).
Proof. stable_each. Qed.

Lemma only_requests_stored_jwt w w' :
  only_requests w w' -> stored_jwt w' = stored_jwt w.
Proof.
  intros (_ & _ & _ & _ & _ & Hitems & _). unfold keeps in Hitems.
  unfold stored_jwt. by rewrite Hitems.
Qed.

(** X6. Neither [createAnonymousUser] replaces a token that is already
    in the local store: called while the store holds a token, each leaves
    the store and the token cache as they are, whatever the server
    answers, and the one of OnboardManager does not return a token. *)
Theorem createAnonymousUser_keeps_a_stored_token env serverIsOnline w :
  truthy (stored_jwt w) = true ->
  (items (snd (DataController.createAnonymousUser env serverIsOnline w)) = items w
   /\ cachedJwt (snd (DataController.createAnonymousUser env serverIsOnline w))
      = cachedJwt w)
  /\ (items (snd (OnboardManager.createAnonymousUser env serverIsOnline w)) = items w
      /\ cachedJwt (snd (OnboardManager.createAnonymousUser env serverIsOnline w))
         = cachedJwt w
      /\ forall token,
           fst (OnboardManager.createAnonymousUser env serverIsOnline w)
             = Returned token -> token = JNull).
Proof.
  intros Hs. split.
  - pattern (DataController.createAnonymousUser env serverIsOnline w).
    apply wp_pair. unfold DataController.createAnonymousUser. apply wp_bind.
    eapply wp_stable; [apply getAppJwt_only_requests|].
    intros o w1 H. pose proof (only_requests_stored_jwt w w1 H) as Hs1.
    destruct H as (_ & _ & Hc & _ & _ & Hi & _). unfold keeps in *.
    destruct o as [appJwt|e]; [|done].
    destruct (truthy appJwt && serverIsOnline); [|by wp_go].
    wp_go. fold (stored_jwt w1). rewrite Hs1, Hs. cbn [negb andb]. by wp_go.
  - pattern (OnboardManager.createAnonymousUser env serverIsOnline w).
    apply wp_pair. unfold OnboardManager.createAnonymousUser. apply wp_bind.
    eapply wp_stable; [apply getAppJwt_only_requests|].
    intros o w1 H. pose proof (only_requests_stored_jwt w w1 H) as Hs1.
    destruct H as (_ & _ & Hc & _ & _ & Hi & _). unfold keeps in *.
    destruct o as [appJwt|e]; [|done].
    destruct (truthy appJwt && serverIsOnline).
    2:{ wp_go. cbn [fst snd]. repeat split; try done. by intros token [= <-]. }
    wp_go. fold (stored_jwt w1). rewrite Hs1, Hs. cbn [negb]. wp_go.
    cbn [fst snd]. repeat split; try done. by intros token [= <-].
Qed.

Lemma createAnonymousUser_keeps_a_stored_token_witness :
  items (snd (DataController.createAnonymousUser granting true initialized))
    = items initialized
  /\ items (snd (OnboardManager.createAnonymousUser granting true initialized))
     = items initialized.
Proof.
  pose proof (createAnonymousUser_keeps_a_stored_token granting true initialized
                eq_refl) as [[H1 _] [H2 _]].
  split; [exact H1 | exact H2].
Defined.

(** X7. [createAnonymousUser] of DataController repairs a store that lost
    its token: called with the server online while the store is empty and
    the cache holds a token, once the app token is granted it writes the
    cached token to the store instead of onboarding a new user, and sends
    nothing after the app token request. *)
Theorem createAnonymousUser_restores_the_cached_token env w appJwt w1 :
  truthy (stored_jwt w) = false ->
  truthy (cachedJwt w) = true ->
  DataController.getAppJwt env true w = (Returned appJwt, w1) ->
  truthy appJwt = true ->
  DataController.createAnonymousUser env true w =
    (Returned tt, with_items (<["jwt" := cachedJwt w]> (items w1)) w1).
Proof.
  intros Hs Hc Happ Ht.
  pose proof (getAppJwt_only_requests env true w) as H. rewrite Happ in H.
  cbn [snd] in H. pose proof (only_requests_stored_jwt w w1 H) as Hs1.
  destruct H as (_ & _ & Hc1 & _). unfold keeps in Hc1.
  unfold DataController.createAnonymousUser. unfold mbind at 1, M_bind at 1.
  rewrite Happ, Ht. unfold getItem, setItem, gets, modify. unfold mbind, M_bind.
  cbn [andb]. fold (stored_jwt w1). rewrite Hs1, Hs, Hc1, Hc. done.
Qed.

Lemma createAnonymousUser_restores_the_cached_token_witness :
  stored_jwt (snd (DataController.createAnonymousUser granting true cache_only))
    = JStr "T0".
Proof.
  rewrite (createAnonymousUser_restores_the_cached_token granting cache_only
             (JStr "T1")
             (snd (DataController.getAppJwt granting true cache_only))
             eq_refl eq_refl eq_refl eq_refl).
  reflexivity.
Defined.

(** X8. A successful onboarding by DataController: with the server
    online, no token in the store nor in the cache, and the app token
    granted, when the POST to /data/onboard (annotated NO_JWT and
    authorized by the app token) is answered ok with a non-empty jwt, that
    jwt is written to the store and to the cache. *)
Theorem createAnonymousUser_stores_and_caches_the_new_token
    env w appJwt w1 resp fields :
  truthy (stored_jwt w) = false ->
  truthy (cachedJwt w) = false ->
  DataController.getAppJwt env true w = (Returned appJwt, w1) ->
  truthy appJwt = true ->
  transport env (requests w1)
    (Post "/data/onboard" (DataController.onboard_body env "NO_JWT") appJwt)
    = Resolved resp ->
  isResponseOk resp = true ->
  resp_data resp = JObj fields ->
  truthy (assoc "jwt" fields) = true ->
  DataController.createAnonymousUser env true w =
    (Returned tt,
     let posted :=
       sent (Post "/data/onboard" (DataController.onboard_body env "NO_JWT") appJwt)
         w1 in
     with_cachedJwt (assoc "jwt" fields)
       (with_items (<["jwt" := assoc "jwt" fields]> (items w1)) posted)).
Proof.
  intros Hs Hc Happ Ht Hreply Hok Hdata Hjwt.
  pose proof (getAppJwt_only_requests env true w) as H. rewrite Happ in H.
  cbn [snd] in H. pose proof (only_requests_stored_jwt w w1 H) as Hs1.
  destruct H as (_ & _ & Hc1 & _). unfold keeps in Hc1.
  unfold DataController.createAnonymousUser. unfold mbind at 1, M_bind at 1.
  rewrite Happ, Ht. unfold getItem, setItem, gets, modify, softwarePost, send.
  unfold mbind, M_bind. cbn [andb]. fold (stored_jwt w1).
  rewrite Hs1, Hs, Hc1, Hc. cbn [negb andb]. rewrite Hreply, Hok, Hdata.
  cbn. rewrite Hjwt. done.
Qed.

Lemma createAnonymousUser_stores_and_caches_the_new_token_witness :
  stored_jwt
    (snd (DataController.createAnonymousUser granting true
            first_run)) = JStr "T1"
  /\ cachedJwt
       (snd (DataController.createAnonymousUser granting true
               first_run)) = JStr "T1".
Proof.
  rewrite (createAnonymousUser_stores_and_caches_the_new_token granting
             first_run (JStr "T1")
             (snd (DataController.getAppJwt granting true first_run))
             {| resp_ok := true; resp_deactivated := false;
                resp_data := JObj [("jwt", JStr "T1"); ("state", JStr "OK")] |}
             [("jwt", JStr "T1"); ("state", JStr "OK")]
             eq_refl eq_refl eq_refl eq_refl eq_refl eq_refl eq_refl eq_refl).
  split; reflexivity.
Defined.

(** X9. A successful onboarding by OnboardManager: with the server
    online, no token in the store, and the app token granted, when the
    POST to /data/onboard (annotated NO_SESSION_FILE and authorized by the
    app token) is answered ok with a non-empty jwt, that jwt is written to
    the store and returned; the in-memory token cache of DataController
    is not written. *)
Theorem onboard_createAnonymousUser_stores_and_returns_the_new_token
    env w appJwt w1 resp fields :
  truthy (stored_jwt w) = false ->
  DataController.getAppJwt env true w = (Returned appJwt, w1) ->
  truthy appJwt = true ->
  transport env (requests w1)
    (Post "/data/onboard" (DataController.onboard_body env "NO_SESSION_FILE") appJwt)
    = Resolved resp ->
  isResponseOk resp = true ->
  resp_data resp = JObj fields ->
  truthy (assoc "jwt" fields) = true ->
  OnboardManager.createAnonymousUser env true w =
    (Returned (assoc "jwt" fields),
     with_items (<["jwt" := assoc "jwt" fields]> (items w1))
       (sent (Post "/data/onboard"
                (DataController.onboard_body env "NO_SESSION_FILE") appJwt) w1))
  /\ cachedJwt (snd (OnboardManager.createAnonymousUser env true w)) = cachedJwt w.
Proof.
  intros Hs Happ Ht Hreply Hok Hdata Hjwt.
  pose proof (getAppJwt_only_requests env true w) as H. rewrite Happ in H.
  cbn [snd] in H. pose proof (only_requests_stored_jwt w w1 H) as Hs1.
  destruct H as (_ & _ & Hc1 & _). unfold keeps in Hc1.
  assert (Hrun : OnboardManager.createAnonymousUser env true w =
    (Returned (assoc "jwt" fields),
     with_items (<["jwt" := assoc "jwt" fields]> (items w1))
       (sent (Post "/data/onboard"
                (DataController.onboard_body env "NO_SESSION_FILE") appJwt) w1))).
  { unfold OnboardManager.createAnonymousUser. unfold mbind at 1, M_bind at 1.
    rewrite Happ, Ht. unfold getItem, setItem, gets, modify, softwarePost, send.
    unfold mbind, M_bind. cbn [andb]. fold (stored_jwt w1).
    rewrite Hs1, Hs. cbn [negb andb]. rewrite Hreply, Hok, Hdata.
    cbn. rewrite Hjwt. done. }
  split; [exact Hrun|]. by rewrite Hrun.
Qed.

Lemma onboard_createAnonymousUser_stores_and_returns_the_new_token_witness :
  fst (OnboardManager.createAnonymousUser granting true first_run)
    = Returned (JStr "T1")
  /\ cachedJwt
       (snd (OnboardManager.createAnonymousUser granting true
               first_run)) = JNull.
Proof.
  pose proof (onboard_createAnonymousUser_stores_and_returns_the_new_token granting
             first_run (JStr "T1")
             (snd (DataController.getAppJwt granting true first_run))
             {| resp_ok := true; resp_deactivated := false;
                resp_data := JObj [("jwt", JStr "T1"); ("state", JStr "OK")] |}
             [("jwt", JStr "T1"); ("state", JStr "OK")]
             eq_refl eq_refl eq_refl eq_refl eq_refl eq_refl eq_refl) as [H1 H2].
  split; [by rewrite H1 | exact H2].
Defined.

(** ** The stored token is never cleared *)

#[global] Instance token_kept_refl : Reflexive token_kept.
Proof. intros w. by left. Qed.

#[global] Instance token_kept_trans : Transitive token_kept.
Proof.
  intros a b c [H1|H1] [H2|H2]; unfold token_kept.
  - left. congruence.
  - by right.
  - right. congruence.
  - by right.
Qed.

(** Every write of the jwt item is under a test that the value written
    is truthy. *)
Ltac token_write :=
  first
    [ by left
    | by (left; unfold stored_jwt; simpl; rewrite lookup_insert_ne)
    | right; unfold stored_jwt; simpl; rewrite lookup_insert_eq; simpl;
      repeat match goal with
             | H : _ && _ = true |- _ => apply andb_prop in H; destruct H
             end;
      assumption ].

Ltac token_step :=
  lazymatch goal with
  | |- stable _ (mbind _ _) => apply stable_bind; [tc_solve..| | intros ?]
  | |- stable _ (mret _) => apply stable_ret; tc_solve
  | |- stable _ (throw _) => apply stable_throw; tc_solve
  | |- stable _ (catch _ _) => apply stable_catch; [tc_solve..| | intros ?]
  | |- stable _ (detach _) => apply stable_detach
  | |- stable _ (gets _) => apply stable_gets; tc_solve
  | |- stable _ (prop _ _) => apply stable_prop; tc_solve
  | |- stable _ (set_prop _ _ _) => apply stable_set_prop; tc_solve
  | |- stable _ (modify _) => apply stable_modify; intros ?; token_write
  | |- stable _ (send _ _) => apply stable_send; intros ?; token_write
  | |- stable _ (if ?c then _ else _) => destruct c eqn:?
  | |- stable _ (match ?x with _ => _ end) => destruct x eqn:?
  end.

Ltac token_auto := repeat (unfold_code; lazy zeta; token_step).

Section TokenKept.

Variable env : environment.

Lemma getUserStatus_token_kept :
  stable token_kept (DataController.getUserStatus env).
Proof. token_auto. Qed.

Lemma onboardPlugin_token_kept :
  stable token_kept (OnboardManager.onboardPlugin env).
Proof. token_auto. Qed.

Lemma run_callback_token_kept cb :
  stable token_kept (EventLoop.run_callback env cb).
Proof. destruct cb; unfold EventLoop.run_callback; token_auto. Qed.

Lemma perform_token_kept op w : token_kept w (perform env op w).
Proof.
  destruct op; simpl;
    try (by left);
    try (match goal with
         | |- token_kept w (snd (?m w)) =>
             revert w; change (stable token_kept m); token_auto
         end).
  unfold EventLoop.tick.
  destruct (EventLoop.next_timer _) as [[[due cb] rest]|]; [|by left].
  simpl. set (w1 := with_now _ _).
  assert (H1 : token_kept w w1) by (by left).
  etrans; [exact H1|]. apply run_callback_token_kept.
Qed.

End TokenKept.

(** X10. The two modules never clear the stored token: once the local
    store holds a token, it still holds one (the same or a newer one)
    after any sequence of calls of their functions, of timer callbacks and
    of changes of the configuration, the files and the clock, whatever the
    server answers. *)
Theorem stored_token_is_never_cleared env ops w :
  truthy (stored_jwt w) = true ->
  truthy (stored_jwt (perform_all env ops w)) = true.
Proof.
  unfold perform_all. revert w.
  induction ops as [|op ops IH]; intros w Hw; [done|].
  cbn [fold_left]. apply IH.
  destruct (perform_token_kept env op w) as [H|H]; [by rewrite H | done].
Qed.

Lemma stored_token_is_never_cleared_witness :
  truthy (stored_jwt
            (perform_all refusing
               [OpGetUserStatus; OpOnboardPlugin; OpCreateAnonymousUser true;
                OpUpdatePreferences]
               initialized)) = true.
Proof.
  apply (stored_token_is_never_cleared refusing
           [OpGetUserStatus; OpOnboardPlugin; OpCreateAnonymousUser true;
            OpUpdatePreferences]
           initialized).
  reflexivity.
Defined.

(** ** What a status check publishes *)

#[global] Instance status_frame_refl : Reflexive status_frame.
Proof. intros w. repeat split. reflexivity. Qed.

#[global] Instance status_frame_trans : Transitive status_frame.
Proof.
  intros a b c (H1 & H2 & H3 & H4) (H1' & H2' & H3' & H4').
  repeat split; etrans; eauto.
Qed.

Section Published.

Variable env : environment.

Lemma serverIsAvailable_status_frame :
  stable status_frame (DataController.serverIsAvailable env).
Proof. stable_each. Qed.

Lemma initializePreferences_status_frame :
  stable status_frame (DataController.initializePreferences env).
Proof. stable_each. Qed.

Lemma createAnonymousUser_status_frame b :
  stable status_frame (DataController.createAnonymousUser env b).
Proof. stable_each. Qed.

Lemma isLoggedOn_status_frame b jwt :
  stable status_frame (DataController.isLoggedOn env b jwt).
Proof. stable_each. Qed.

Lemma getUserStatus_published w :
  forall loggedIn,
    fst (DataController.getUserStatus env w)
      = Returned {| DataController.loggedIn := loggedIn |} ->
    published env w loggedIn (snd (DataController.getUserStatus env w)).
Proof.
  pattern (DataController.getUserStatus env w). apply wp_pair.
  unfold DataController.getUserStatus. wp_go.
  set (w0 := with_trace (trace w ++ [ECleanSessionInfo]) w).
  apply wp_serverIsAvailable.
  rewrite (probe_same_requests env w w0) by done.
  set (online := probe env w). set (w1 := sent (Get "/ping" JNull) w0).
  assert (F1 : status_frame w w1).
  { split; [done|]. split; [done|]. split; [done|].
    exists [ECleanSessionInfo; EHttp (Get "/ping" JNull)].
    split; [|done]. subst w1 w0. cbn. by rewrite <- app_assoc. }
  clearbody w1.
  (* the check of the login state *)
  apply wp_bind.
  apply wp_mono with
    (Q := fun o w2 => status_frame w1 w2
                      /\ forall l, o = Returned l -> l = true -> online = true).
  { destruct online.
    - eapply (wp_stable status_frame).
      + stable_each.
      + intros o w2 H. split; [exact H | done].
    - wp_go. split; [reflexivity|]. intros l [= <-]. done. }
  intros o w2 [F2 Honline]. destruct o as [loggedIn|e]; [|done].
  specialize (Honline loggedIn eq_refl).
  assert (F12 : status_frame w w2) by (etrans; eauto). clear F1 F2 w1.
  (* the preferences *)
  wp_go.
  apply wp_mono with
    (Q := fun o w3 => status_frame w2 w3
                      /\ keeps items w2 w3
                      /\ (loggedIn = true -> initializedPrefs w3 = true)).
  { destruct (online && loggedIn && negb (initializedPrefs w2)) eqn:Hc.
    - wp_go. eapply wp_stable.
      + apply (stable_and status_frame (keeps items));
          [apply initializePreferences_status_frame | stable_auto].
      + intros _ w3 [F3 I3]. wp_go. split; [|split; [unfold keeps in *; world_simpl; exact I3 | done]].
        etrans; [exact F3|].
        split; [done|]. split; [done|]. split; [done|].
        exists []. by rewrite app_nil_r.
    - wp_go. split; [reflexivity|]. split; [reflexivity|]. intros ->.
      rewrite (Honline eq_refl) in Hc. cbn in Hc.
      by apply negb_false_iff in Hc. }
  intros o w3 (F3 & I3 & Hprefs). destruct o as [[]|e]; [|done].
  assert (F13 : status_frame w w3) by (etrans; eauto). clear F12 F3 I3.
  destruct F13 as (Hlcs & Htimers & Hnow & d & Hd & Hsig). unfold keeps in *.
  (* the display name, the context flag, the heartbeat *)
  apply wp_bind.
  apply wp_mono with
    (Q := fun o w4 =>
            o = Returned tt
            /\ (loggedIn = false -> items w4 !! "name" = Some JNull)
            /\ initializedPrefs w4 = initializedPrefs w3
            /\ loggedInCacheState w4 = loggedInCacheState w3
            /\ timers w4 = timers w3 /\ now w4 = now w3 /\ trace w4 = trace w3).
  { destruct loggedIn; wp_go; repeat split; try done.
    intros _. cbn. by rewrite lookup_insert_eq. }
  intros o w4 (-> & Hname & Hip4 & Hlcs4 & Htimers4 & Hnow4 & Htrace4).
  wp_go. world_simpl. rewrite Hlcs4, Hlcs.
  change (online && negb (Bool.eqb (loggedInCacheState w) loggedIn))
    with (state_changed env w loggedIn).
  destruct (state_changed env w loggedIn) eqn:Hchanged; wp_go.
  - eapply wp_eq; [apply sendHeartbeat_run|]. wp_go.
    set (u := with_trace (trace w4 ++ _) w4).
    cbn [fst snd]. intros b [= <-]. unfold published. rewrite Hchanged.
    destruct (probe env u && truthy (stored_jwt u)) eqn:Hhb; world_simpl;
      change (initializedPrefs u) with (initializedPrefs w4);
      change (timers u) with (timers w4); change (now u) with (now w4);
      change (trace u) with (trace w4 ++ [ESetContext "codetime:loggedIn" loggedIn]).
    + split; [done|]. split; [intros Hb; split; [by apply Honline | ]|].
      { rewrite Hip4. by apply Hprefs. }
      split; [exact Hname|]. split; [by rewrite Htimers4, Htimers, Hnow4, Hnow|].
      eexists _, _. split.
      { rewrite Htrace4, Hd, <- !app_assoc. reflexivity. }
      rewrite !List.filter_app, Hsig. cbn. split; [reflexivity|].
      right. split; [done|]. unfold heartbeat_body.
      change (now u) with (now w4). by rewrite Hnow4, Hnow.
    + split; [done|]. split; [intros Hb; split; [by apply Honline | ]|].
      { rewrite Hip4. by apply Hprefs. }
      split; [exact Hname|]. split; [by rewrite Htimers4, Htimers, Hnow4, Hnow|].
      eexists _, _. split.
      { rewrite Htrace4, Hd, <- !app_assoc. reflexivity. }
      rewrite !List.filter_app, Hsig. cbn. split; [reflexivity|]. by left.
  - cbn [fst snd]. intros b [= <-]. unfold published. rewrite Hchanged. world_simpl.
    split; [done|]. split; [intros Hb; split; [by apply Honline | ]|].
    { rewrite Hip4. by apply Hprefs. }
    split; [exact Hname|]. split; [by rewrite app_nil_r, Htimers4, Htimers|].
    eexists _, _. split.
    { rewrite Htrace4, Hd, <- !app_assoc. reflexivity. }
    rewrite !List.filter_app, Hsig. cbn. split; [reflexivity|]. by left.
Qed.

End Published.

Lemma filter_within {A} (f g : A -> bool) (l : list A) :
  (forall a, f a = true -> g a = true) ->
  List.filter f (List.filter g l) = List.filter f l.
Proof.
  intros Hfg. induction l as [|a l IH]; [done|]. cbn.
  destruct (g a) eqn:Hg; cbn.
  - by rewrite IH.
  - destruct (f a) eqn:Hf; [|done]. apply Hfg in Hf. congruence.
Qed.

(** X11. A status check that returns {loggedIn: b} has recorded b as the
    last known login state and has published b, once, as the editor
    context flag "codetime:loggedIn".  It reports a logged-in user only
    when the server was reachable, and the preferences then count as
    initialized; when it reports that the user is not logged in, the
    stored display name has been reset to null. *)
Theorem getUserStatus_records_what_it_reports env w loggedIn :
  fst (DataController.getUserStatus env w)
    = Returned {| DataController.loggedIn := loggedIn |} ->
  loggedInCacheState (snd (DataController.getUserStatus env w)) = loggedIn
  /\ List.filter is_context_flag (emitted (DataController.getUserStatus env) w)
       = [ESetContext "codetime:loggedIn" loggedIn]
  /\ (loggedIn = true ->
        probe env w = true
        /\ initializedPrefs (snd (DataController.getUserStatus env w)) = true)
  /\ (loggedIn = false ->
        items (snd (DataController.getUserStatus env w)) !! "name" = Some JNull).
Proof.
  intros H. destruct (getUserStatus_published env w loggedIn H)
    as (Hstate & Hin & Hout & _ & d & hb & Hd & Hsig & Hhb).
  split; [exact Hstate|]. split; [|by split].
  rewrite (emitted_app _ _ _ Hd).
  rewrite <- (filter_within is_context_flag is_signal), Hsig.
  - destruct Hhb as [-> | [_ ->]]; done.
  - intros e He. unfold is_signal. by rewrite He.
Qed.

Lemma getUserStatus_records_what_it_reports_witness :
  loggedInCacheState (snd (DataController.getUserStatus granting first_run)) = true
  /\ List.filter is_context_flag (emitted (DataController.getUserStatus granting) first_run)
       = [ESetContext "codetime:loggedIn" true]
  /\ (true = true ->
        probe granting first_run = true
        /\ initializedPrefs (snd (DataController.getUserStatus granting first_run)) = true)
  /\ (true = false ->
        items (snd (DataController.getUserStatus granting first_run)) !! "name"
          = Some JNull).
Proof.
  apply (getUserStatus_records_what_it_reports granting first_run true).
  vm_compute. reflexivity.
Defined.

(** X12. A status check that returns {loggedIn: b} schedules the refresh
    of the session summary, one second ahead, exactly when the server
    was reachable and b differs from the login state recorded before;
    otherwise it arms no timer.  It sends at most one heartbeat, only in
    that case, annotated STATE_CHANGE:LOGGED_IN:b and authorized by the
    token stored at the end. *)
Theorem getUserStatus_announces_a_state_change env w loggedIn :
  fst (DataController.getUserStatus env w)
    = Returned {| DataController.loggedIn := loggedIn |} ->
  timers (snd (DataController.getUserStatus env w)) =
    timers w ++
    (if state_changed env w loggedIn
     then [(now w + 1000, CbFetchDailyKpmSessionInfo)] else [])
  /\ (List.filter is_heartbeat (emitted (DataController.getUserStatus env) w) = []
      \/ state_changed env w loggedIn = true
         /\ List.filter is_heartbeat (emitted (DataController.getUserStatus env) w) =
              [EHttp (Post "/data/heartbeat"
                        (heartbeat_body env w (state_change loggedIn))
                        (stored_jwt (snd (DataController.getUserStatus env w))))]).
Proof.
  intros H. destruct (getUserStatus_published env w loggedIn H)
    as (_ & _ & _ & Htimers & d & hb & Hd & Hsig & Hhb).
  split; [exact Htimers|].
  rewrite (emitted_app _ _ _ Hd).
  rewrite <- (filter_within is_heartbeat is_signal), Hsig.
  - destruct Hhb as [-> | [Hc ->]]; [by left|]. right. by split.
  - intros e He. unfold is_signal. rewrite He. apply orb_true_r.
Qed.

Lemma getUserStatus_announces_a_state_change_witness :
  timers (snd (DataController.getUserStatus granting first_run)) =
    timers first_run ++
    (if state_changed granting first_run true
     then [(now first_run + 1000, CbFetchDailyKpmSessionInfo)] else [])
  /\ (List.filter is_heartbeat (emitted (DataController.getUserStatus granting) first_run) = []
      \/ state_changed granting first_run true = true
         /\ List.filter is_heartbeat (emitted (DataController.getUserStatus granting) first_run) =
              [EHttp (Post "/data/heartbeat"
                        (heartbeat_body granting first_run (state_change true))
                        (stored_jwt (snd (DataController.getUserStatus granting first_run))))]).
Proof.
  apply (getUserStatus_announces_a_state_change granting first_run true).
  vm_compute. reflexivity.
Defined.

(** ** The requests of a status check *)

Lemma quiet_at_most_once watch w w' : quiet watch w w' -> at_most_once watch w w'.
Proof. intros (d & Hd & Hf). exists d. rewrite Hf. split; [done | cbn; lia]. Qed.

Lemma at_most_once_quiet watch a b c :
  at_most_once watch a b -> quiet watch b c -> at_most_once watch a c.
Proof.
  intros (d & Hd & Hn) (d' & Hd' & Hf). exists (d ++ d').
  split; [by rewrite Hd', Hd, app_assoc|].
  by rewrite List.filter_app, Hf, app_nil_r.
Qed.

Section StatusRequests.

Variable env : environment.

(** [createAnonymousUser] sends the onboarding request at most once. *)
Lemma createAnonymousUser_onboards_once b w :
  at_most_once is_onboard_post w (snd (DataController.createAnonymousUser env b w)).
Proof.
  pattern (DataController.createAnonymousUser env b w). apply wp_pair.
  unfold DataController.createAnonymousUser. apply wp_bind.
  eapply wp_stable; [apply getAppJwt_apptoken_frame|].
  intros [appJwt|e] w1 [_ H1]; cbn [snd]; [|by apply quiet_at_most_once].
  destruct (truthy appJwt && b); [|by apply quiet_at_most_once].
  wp_go. destruct (_ && _).
  - wp_go.
    assert (Hsent : at_most_once is_onboard_post w
                      (sent (Post "/data/onboard"
                               (DataController.onboard_body env "NO_JWT") appJwt) w1)).
    { destruct H1 as (d & Hd & Hf). eexists (d ++ [_]). cbn.
      split; [by rewrite Hd, <- app_assoc|].
      rewrite List.filter_app, Hf. cbn. lia. }
    destruct (transport env _ _) as [resp|]; [|done].
    eapply (wp_stable (quiet is_onboard_post)); [stable_auto|].
    intros o w2 H2. cbn [snd]. by eapply at_most_once_quiet.
  - eapply (wp_stable (quiet is_onboard_post)); [stable_auto|].
    intros o w2 H2. cbn [snd]. apply quiet_at_most_once. by etrans.
Qed.

Lemma getUserStatus_onboarding w :
  exists d,
    trace (snd (DataController.getUserStatus env w)) = trace w ++ d
    /\ (length (List.filter is_onboard_post d) <= 1)%nat
    /\ (truthy (stored_jwt w) || truthy (cachedJwt w) || negb (probe env w) = true ->
        List.filter is_onboard_post d = []).
Proof.
  assert (Hstart : forall u,
            quiet is_onboard_post w u ->
            exists d, trace u = trace w ++ d
                      /\ (length (List.filter is_onboard_post d) <= 1)%nat
                      /\ (truthy (stored_jwt w) || truthy (cachedJwt w)
                          || negb (probe env w) = true ->
                          List.filter is_onboard_post d = [])).
  { intros u (d & Hd & Hf). exists d. rewrite Hf. split; [done|]. split; [cbn; lia | done]. }
  pattern (DataController.getUserStatus env w). apply wp_pair.
  unfold DataController.getUserStatus. wp_go.
  set (w0 := with_trace (trace w ++ [ECleanSessionInfo]) w).
  apply wp_serverIsAvailable.
  rewrite (probe_same_requests env w w0) by done.
  set (w1 := sent (Get "/ping" JNull) w0).
  assert (Q1 : quiet is_onboard_post w w1).
  { exists [ECleanSessionInfo; EHttp (Get "/ping" JNull)].
    split; [|done]. subst w1 w0. cbn. by rewrite <- app_assoc. }
  change (items w0 !! "jwt") with (items w !! "jwt"). fold (stored_jwt w).
  (* the check of the login state *)
  apply wp_bind. destruct (probe env w) eqn:Hp.
  2:{ apply wp_ret.
      eapply (wp_stable (quiet is_onboard_post)); [stable_auto|].
      intros o w2 H2. cbn [snd]. apply Hstart. by etrans. }
  wp_go. change (cachedJwt w1) with (cachedJwt w).
  destruct (negb (truthy (stored_jwt w)) && negb (truthy (cachedJwt w))) eqn:Hc.
  - eapply (wp_post _ (at_most_once is_onboard_post w1)).
    { apply createAnonymousUser_onboards_once. }
    intros o w2 H2. destruct o as [[]|e].
    + eapply (wp_stable (quiet is_onboard_post)); [stable_auto|].
      intros o w3 H3.
      assert (H : at_most_once is_onboard_post w w3).
      { eapply at_most_once_quiet; [|exact H3].
        destruct Q1 as (d1 & Hd1 & Hf1). destruct H2 as (d2 & Hd2 & Hn2).
        exists (d1 ++ d2). split; [by rewrite Hd2, Hd1, app_assoc|].
        by rewrite List.filter_app, Hf1. }
      assert (Hend : forall u, quiet is_onboard_post w3 u ->
                exists d, trace u = trace w ++ d
                          /\ (length (List.filter is_onboard_post d) <= 1)%nat
                          /\ (truthy (stored_jwt w) || truthy (cachedJwt w)
                              || negb true = true ->
                              List.filter is_onboard_post d = [])).
      { intros u Hu. destruct (at_most_once_quiet _ _ _ _ H Hu) as (d & Hd & Hn).
        exists d. split; [done|]. split; [done|]. intros Hcond. exfalso.
        rewrite ?Hp in Hcond. apply andb_true_iff in Hc as [Hc1 Hc2].
        apply negb_true_iff in Hc1, Hc2. by rewrite Hc1, Hc2 in Hcond. }
      destruct o as [loggedInResp|e]; cbn [snd].
      * eapply (wp_stable (quiet is_onboard_post)); [stable_auto|].
        intros o w4 H4. cbn [snd]. by apply Hend.
      * apply Hend. reflexivity.
    + cbn [snd].
      destruct Q1 as (d1 & Hd1 & Hf1). destruct H2 as (d2 & Hd2 & Hn2).
      exists (d1 ++ d2). split; [by rewrite Hd2, Hd1, app_assoc|].
      rewrite List.filter_app, Hf1. split; [done|]. intros Hcond. exfalso.
      rewrite ?Hp in Hcond. apply andb_true_iff in Hc as [Hc1 Hc2].
      apply negb_true_iff in Hc1, Hc2. by rewrite Hc1, Hc2 in Hcond.
  - apply wp_ret. lazy beta iota.
    eapply (wp_stable (quiet is_onboard_post)); [stable_auto|].
    intros o w3 H3. destruct o as [loggedInResp|e]; cbn [snd].
    + eapply (wp_stable (quiet is_onboard_post)); [stable_auto|].
      intros o w4 H4. cbn [snd]. apply Hstart.
      etrans; [|exact H4]. by etrans.
    + apply Hstart. by etrans.
Qed.

End StatusRequests.

(** X13. A status check sends the onboarding request (the POST to
    /data/onboard) at most once, and not at all when a token is stored,
    when a token is cached in memory, or when the server cannot be
    reached. *)
Theorem getUserStatus_onboards_at_most_once env w :
  (length (List.filter is_onboard_post
             (emitted (DataController.getUserStatus env) w)) <= 1)%nat
  /\ (truthy (stored_jwt w) || truthy (cachedJwt w) || negb (probe env w) = true ->
      List.filter is_onboard_post
        (emitted (DataController.getUserStatus env) w) = []).
Proof.
  destruct (getUserStatus_onboarding env w) as (d & Hd & Hn & Hnone).
  by rewrite (emitted_app _ _ _ Hd).
Qed.

Lemma getUserStatus_onboards_at_most_once_witness :
  List.filter is_onboard_post
    (emitted (DataController.getUserStatus granting) initialized) = [].
Proof.
  apply (getUserStatus_onboards_at_most_once granting initialized).
  vm_compute. reflexivity.
Defined.

(** X14. A status check made while the server cannot be reached reports
    {loggedIn: false} after the probe alone: it sends no other request,
    publishes the context flag false, resets the stored display name to
    null and records false as the login state.  The stored token, the
    token cache, the preferences flag, the configuration and the timers
    are left as they were. *)
Theorem getUserStatus_offline_keeps_the_session env w :
  probe env w = false ->
  fst (DataController.getUserStatus env w)
    = Returned {| DataController.loggedIn := false |}
  /\ emitted (DataController.getUserStatus env) w =
       [ECleanSessionInfo; EHttp (Get "/ping" JNull);
        ESetContext "codetime:loggedIn" false]
  /\ items (snd (DataController.getUserStatus env w)) = <["name" := JNull]> (items w)
  /\ loggedInCacheState (snd (DataController.getUserStatus env w)) = false
  /\ cachedJwt (snd (DataController.getUserStatus env w)) = cachedJwt w
  /\ initializedPrefs (snd (DataController.getUserStatus env w)) = initializedPrefs w
  /\ configuration (snd (DataController.getUserStatus env w)) = configuration w
  /\ timers (snd (DataController.getUserStatus env w)) = timers w.
Proof.
  intros Hp. unfold emitted.
  pattern (DataController.getUserStatus env w). apply wp_pair.
  unfold DataController.getUserStatus. wp_go.
  apply wp_serverIsAvailable.
  rewrite (probe_same_requests env w) by done. rewrite Hp.
  wp_go. cbn [andb negb]. wp_go. cbn [andb negb]. wp_go.
  cbn [fst snd]. world_simpl.
  split; [done|]. split; [|done].
  by rewrite <- !app_assoc, drop_app_length.
Qed.

Lemma getUserStatus_offline_keeps_the_session_witness :
  probe offline initialized = false
  /\ emitted (DataController.getUserStatus offline) initialized =
       [ECleanSessionInfo; EHttp (Get "/ping" JNull);
        ESetContext "codetime:loggedIn" false]
  /\ items (snd (DataController.getUserStatus offline initialized))
     = <["name" := JNull]> (items initialized).
Proof.
  split; [reflexivity|].
  pose proof (getUserStatus_offline_keeps_the_session offline initialized eq_refl)
    as (_ & H1 & H2 & _).
  split; [exact H1 | exact H2].
Defined.

(** ** Preferences: the guard, and a pull followed by a push *)

Lemma strict_eq_refl v : is_primitive v = true -> strict_eq v v = true.
Proof.
  destruct v; cbn; try done; intros _.
  - by destruct b.
  - apply Z.eqb_refl.
  - apply String.eqb_refl.
Qed.

Lemma answer_object env n r user :
  answer env n r = JObj user ->
  exists resp data,
    transport env n r = Resolved resp /\ isResponseOk resp = true
    /\ resp_data resp = JObj data /\ assoc "data" data = JObj user.
Proof.
  unfold answer. destruct (transport env n r) as [resp|]; [|done].
  destruct (isResponseOk resp) eqn:Hok; [|done].
  destruct (resp_data resp) as [| | | | | |data] eqn:Hdata; try done.
  intros H. by exists resp, data.
Qed.

(** X15. Without a stored token, or when the server cannot be reached,
    the two preference functions stop after the reachability probe:
    [initializePreferences] sends the probe and changes nothing else;
    [updatePreferences] notifies the music-visibility module of the local
    setting, sends the probe, and returns.  Neither fetches the user,
    sends a PUT or touches the configuration. *)
Theorem preferences_need_a_token_and_a_server env w :
  truthy (stored_jwt w) && probe env w = false ->
  DataController.initializePreferences env w
    = (Returned tt, sent (Get "/ping" JNull) w)
  /\ fst (DataController.updatePreferences env w) = Returned tt
  /\ emitted (DataController.updatePreferences env) w =
       [EUpdateShowMusicMetrics (config_value w "showMusicMetrics");
        EHttp (Get "/ping" JNull)]
  /\ configuration (snd (DataController.updatePreferences env w)) = configuration w.
Proof.
  intros Hguard. split.
  - pattern (DataController.initializePreferences env w). apply wp_pair.
    unfold DataController.initializePreferences. wp_go.
    apply wp_serverIsAvailable. fold (stored_jwt w). rewrite Hguard. by wp_go.
  - unfold emitted.
    pattern (DataController.updatePreferences env w). apply wp_pair.
    unfold DataController.updatePreferences. wp_go.
    apply wp_serverIsAvailable.
    rewrite (probe_same_requests env w) by done. world_simpl.
    fold (stored_jwt w). rewrite Hguard. wp_go. cbn [fst snd]. world_simpl.
    split; [done|]. split; [|done].
    by rewrite <- !app_assoc, drop_app_length.
Qed.

Lemma preferences_need_a_token_and_a_server_witness :
  DataController.initializePreferences offline configured
    = (Returned tt, sent (Get "/ping" JNull) configured)
  /\ fst (DataController.updatePreferences offline configured) = Returned tt
  /\ emitted (DataController.updatePreferences offline) configured =
       [EUpdateShowMusicMetrics (config_value configured "showMusicMetrics");
        EHttp (Get "/ping" JNull)]
  /\ configuration (snd (DataController.updatePreferences offline configured))
     = configuration configured.
Proof.
  apply (preferences_need_a_token_and_a_server offline configured). reflexivity.
Defined.

(** X16. After [initializePreferences] has pulled the three remote
    preferences into the local configuration, the local values and the
    remote ones agree; an [updatePreferences] that follows and is served
    the same remote preferences therefore fetches them and sends no PUT.
    (The three values are primitives: booleans, numbers or strings.) *)
Theorem pulled_preferences_are_not_pushed_back env w user prefs user2 user3 :
  truthy (stored_jwt w) = true ->
  probe env w = true ->
  answer env (S (requests w)) (Get "/users/me" (stored_jwt w)) = JObj user ->
  assoc "preferences" user = JObj prefs ->
  any_unset prefs = false ->
  is_primitive (assoc "showMusic" prefs) && is_primitive (assoc "showGit" prefs)
  && is_primitive (assoc "showRank" prefs) = true ->
  let w' := snd (DataController.initializePreferences env w) in
  probe env w' = true ->
  answer env (S (requests w')) (Get "/users/me" (stored_jwt w)) = JObj user2 ->
  answer env (S (S (requests w')))
    (Get ("/users/" +:+ to_string (assoc "id" user2)) (stored_jwt w)) = JObj user3 ->
  assoc "preferences" user3 = JObj prefs ->
  in_sync w' prefs = true
  /\ emitted (DataController.updatePreferences env) w' =
       preferences_fetch w' (assoc "id" user2)
  /\ List.filter is_put (emitted (DataController.updatePreferences env) w') = []
  /\ configuration (snd (DataController.updatePreferences env w')) = configuration w'.
Proof.
  intros Hj Hp Huser Hprefs Hset Hprim w' Hp' Huser2 Huser3 Hprefs3.
  destruct (answer_object _ _ _ _ Huser) as (resp & data & Hr & Hok & Hd & Hu).
  pose proof (initializePreferences_run env w resp data user prefs
                Hj Hp Hr Hok Hd Hu Hprefs) as Hrun.
  cbv zeta in Hrun. rewrite Hset in Hrun. fold w' in Hrun.
  assert (Hjwt : stored_jwt w' = stored_jwt w) by (by rewrite Hrun).
  apply andb_true_iff in Hprim as [Hprim Hrank].
  apply andb_true_iff in Hprim as [Hmusic Hgit].
  assert (Hsync : in_sync w' prefs = true).
  { unfold in_sync, config_value. rewrite Hset, Hrun. world_simpl.
    rewrite lookup_insert_ne by done. rewrite lookup_insert_ne by done.
    rewrite lookup_insert_eq. rewrite lookup_insert_ne by done.
    rewrite lookup_insert_eq. rewrite lookup_insert_eq. cbn [default negb andb].
    by rewrite !strict_eq_refl. }
  rewrite <- Hjwt in Huser2, Huser3.
  destruct (answer_object _ _ _ _ Huser2) as (resp2 & data2 & Hr2 & Hok2 & Hd2 & Hu2).
  destruct (answer_object _ _ _ _ Huser3) as (resp3 & data3 & Hr3 & Hok3 & Hd3 & Hu3).
  assert (Hj' : truthy (stored_jwt w') = true) by (by rewrite Hjwt).
  pose proof (updatePreferences_run env w' resp2 data2 user2 resp3 data3 user3 prefs
                Hj' Hp' Hr2 Hok2 Hd2 Hu2 Hr3 Hok3 Hd3 Hu3 Hprefs3) as Hrun'.
  cbv zeta in Hrun'. rewrite Hsync in Hrun'.
  assert (Hemitted : emitted (DataController.updatePreferences env) w' =
                     preferences_fetch w' (assoc "id" user2)).
  { apply emitted_app. rewrite Hrun'. cbn. by rewrite <- !app_assoc. }
  split; [done|]. split; [done|]. split; [by rewrite Hemitted|].
  apply keeps_configuration_updatePreferences.
Qed.

Lemma pulled_preferences_are_not_pushed_back_witness :
  in_sync (snd (DataController.initializePreferences
                  (profile_server remote_preferences) configured))
    remote_preferences = true
  /\ List.filter is_put
       (emitted (DataController.updatePreferences (profile_server remote_preferences))
          (snd (DataController.initializePreferences
                  (profile_server remote_preferences) configured))) = [].
Proof.
  pose proof (pulled_preferences_are_not_pushed_back
                (profile_server remote_preferences) configured
                [("id", JNum 7); ("preferences", JObj remote_preferences)]
                remote_preferences
                [("id", JNum 7); ("preferences", JObj remote_preferences)]
                [("id", JNum 7); ("preferences", JObj remote_preferences)]) as H.
  cbv zeta in H.
  destruct H as (H1 & _ & H2 & _); try (vm_compute; reflexivity).
  split; [exact H1 | exact H2].
Defined.

(** ** The lazy re-check of the login state *)

Lemma getUserStatus_no_rearm env :
  stable (quiet is_rearm) (DataController.getUserStatus env).
Proof. stable_auto. Qed.

(** X17. [userStatusFetchHandler n] makes one status check.  It arms the
    next run, ten seconds ahead and with one try less, exactly when that
    check returned {loggedIn: false} and n is positive; a check that
    finds the user logged in, or a try count of zero or less, ends the
    chain: no timer of the handler is armed. *)
Theorem userStatusFetchHandler_rearms_after_a_failed_check env n w :
  List.filter is_rearm (emitted (DataController.userStatusFetchHandler env n) w) =
    (if check_failed env w && (0 <? n)
     then [ESetTimeout 10000 (CbUserStatusFetchHandler (n - 1))] else [])
  /\ List.filter is_check (emitted (DataController.userStatusFetchHandler env n) w)
     = [ECleanSessionInfo]
  /\ timers (snd (DataController.userStatusFetchHandler env n w)) =
       timers (snd (DataController.getUserStatus env w)) ++
       (if check_failed env w && (0 <? n)
        then [(now w + 10000, CbUserStatusFetchHandler (n - 1))] else []).
Proof.
  destruct (getUserStatus_no_rearm env w) as (d & Hd & Hf).
  destruct (getUserStatus_checks_once env w) as (d' & Hd' & Hf').
  assert (d = ECleanSessionInfo :: d') as Hdd.
  { rewrite Hd in Hd'. by apply app_inv_head in Hd'. }
  assert (Hc : List.filter is_check d = [ECleanSessionInfo]).
  { rewrite Hdd. cbn. f_equal.
    rewrite <- (filter_within is_check is_refetch_event), Hf'; [done|].
    by intros []. }
  pose proof (getUserStatus_keeps_now env w) as Hnow. unfold keeps in Hnow.
  unfold emitted, check_failed, DataController.userStatusFetchHandler.
  unfold mbind, M_bind, mret, M_ret.
  destruct (DataController.getUserStatus env w) as [[status|e] w1];
    cbn [fst snd] in *.
  2:{ rewrite Hd, drop_app_length, app_nil_r. done. }
  destruct (negb (DataController.loggedIn status)); cbn [andb].
  2:{ cbn [snd]. rewrite Hd, drop_app_length, app_nil_r. done. }
  destruct (0 <? n).
  - unfold DataController.refetchUserStatusLazily, setTimeout, emit, modify.
    unfold mbind, M_bind, mret, M_ret. cbn [snd]. world_simpl.
    rewrite Hd, <- app_assoc, drop_app_length, !List.filter_app, Hf, Hc, Hnow.
    done.
  - cbn [snd]. rewrite Hd, drop_app_length, app_nil_r. done.
Qed.

Lemma refetch_chain_checks tries :
  length (List.filter is_check (refetch_chain tries)) = S tries.
Proof. induction tries as [|tries IH]; [done|]. cbn. cbn in IH. by rewrite IH. Qed.

(** X18. For every try count n, when each status check returns
    {loggedIn: false}: [refetchUserStatusLazily n] arms the handler, and
    the event loop then makes n + 1 status checks, each but the last
    followed by the arming of the next run with one try less; after
    2n + 2 turns of the loop (or more) no timer is pending. *)
Theorem refetch_makes_one_check_more_than_tries env (tries : nat) w turns :
  (forall w0, fst (DataController.getUserStatus env w0) =
                Returned {| DataController.loggedIn := false |}) ->
  timers w = [] ->
  (2 * tries + 2 <= turns)%nat ->
  List.filter is_refetch_event
    (drop (length (trace w))
       (trace (EventLoop.run env turns
                 (snd (DataController.refetchUserStatusLazily (Z.of_nat tries) w))))) =
    ESetTimeout 10000 (CbUserStatusFetchHandler (Z.of_nat tries))
    :: refetch_chain tries
  /\ length
       (List.filter is_check
          (drop (length (trace w))
             (trace (EventLoop.run env turns
                       (snd (DataController.refetchUserStatusLazily
                               (Z.of_nat tries) w))))))
     = S tries
  /\ timers (EventLoop.run env turns
               (snd (DataController.refetchUserStatusLazily (Z.of_nat tries) w))) = [].
Proof.
  intros Hnever Hq Hturns.
  set (w1 := snd (DataController.refetchUserStatusLazily (Z.of_nat tries) w)).
  assert (Hq1 : timers w1 = [(now w + 10000, CbUserStatusFetchHandler (Z.of_nat tries))]).
  { subst w1.
    unfold DataController.refetchUserStatusLazily, setTimeout, emit, modify.
    unfold mbind, M_bind. cbn. by rewrite Hq. }
  destruct (refetch_chain_runs env Hnever tries turns w1 _ Hturns Hq1)
    as (Hend & d & Hd & Hf).
  assert (Hall : List.filter is_refetch_event
                   (drop (length (trace w)) (trace (EventLoop.run env turns w1))) =
                 ESetTimeout 10000 (CbUserStatusFetchHandler (Z.of_nat tries))
                 :: refetch_chain tries).
  { rewrite Hd. subst w1.
    unfold DataController.refetchUserStatusLazily, setTimeout, emit, modify.
    unfold mbind, M_bind. cbn. rewrite <- app_assoc, drop_app_length. cbn.
    by rewrite Hf. }
  split; [exact Hall|]. split; [|exact Hend].
  rewrite <- (filter_within is_check is_refetch_event), Hall by (by intros []).
  cbn [List.filter is_check]. apply refetch_chain_checks.
Qed.

Lemma refetch_makes_one_check_more_than_tries_witness :
  length
    (List.filter is_check
       (drop (length (trace first_run))
          (trace (EventLoop.run offline 4
                    (snd (DataController.refetchUserStatusLazily
                            (Z.of_nat 1) first_run))))))
  = 2%nat.
Proof.
  refine (proj1 (proj2 (refetch_makes_one_check_more_than_tries
                          offline 1 first_run 4 _ _ _))).
  - intros w0. by apply getUserStatus_offline.
  - reflexivity.
  - cbn. lia.
Defined.

(** ** An onboarding flow defers once and succeeds once *)

#[global] Instance flow_frame_refl : Reflexive flow_frame.
Proof.
  intros w. split; [done|]. split; [done|]. split; reflexivity.
Qed.

#[global] Instance flow_frame_trans : Transitive flow_frame.
Proof.
  intros a b c (H1 & H2 & H3 & H4) (H1' & H2' & H3' & H4').
  split; [etrans; eauto|]. split; [etrans; eauto|]. split; etrans; eauto.
Qed.

Section Flow.

Variable env : environment.

Lemma onboardPlugin_keeps_activations :
  stable (keeps secondary_window_activate_counter) (OnboardManager.onboardPlugin env).
Proof. stable_auto. Qed.

Lemma serverIsAvailable_flow_frame :
  stable flow_frame (DataController.serverIsAvailable env).
Proof. stable_each. Qed.

Lemma onboard_createAnonymousUser_flow_frame b :
  stable flow_frame (OnboardManager.createAnonymousUser env b).
Proof. stable_each. Qed.

(** One invocation of [onboardPlugin] with no timer pending. *)
Lemma onboardPlugin_flow_step u :
  timers u = [] ->
  exists d,
    trace (snd (OnboardManager.onboardPlugin env u)) = trace u ++ d
    /\ ((~ activates env u
         /\ d = [ESetTimeout 5000 CbOnboardSecondaryWindow]
         /\ timers (snd (OnboardManager.onboardPlugin env u)) =
              [(now u + 5000, CbOnboardSecondaryWindow)])
        \/ (activates env u
            /\ List.filter is_deferral d = []
            /\ ((timers (snd (OnboardManager.onboardPlugin env u)) = []
                 /\ (length (List.filter is_success d) <= 1)%nat)
                \/ (timers (snd (OnboardManager.onboardPlugin env u)) =
                      [(now u + 600000, CbOnboardRetry)]
                    /\ List.filter is_success d = [])))).
Proof.
  intros Hq.
  destruct (negb (window_focused env (now u))
            && (secondary_window_activate_counter u =? 0)) eqn:E.
  { assert (Hact : ~ activates env u).
    { apply andb_true_iff in E as [E1 E2]. apply negb_true_iff in E1.
      apply Z.eqb_eq in E2. intros [H|H]; congruence. }
    rewrite (onboardPlugin_deferred env u Hact). cbn [snd]. world_simpl.
    exists [ESetTimeout 5000 CbOnboardSecondaryWindow].
    split; [done|]. left. by rewrite Hq. }
  assert (Hact : activates env u).
  { apply andb_false_iff in E as [E|E].
    - left. by apply negb_false_iff in E.
    - right. by apply Z.eqb_neq in E. }
  pattern (OnboardManager.onboardPlugin env u). apply wp_pair.
  unfold OnboardManager.onboardPlugin. wp_go. rewrite E.
  wp_go. eapply wp_stable; [apply serverIsAvailable_flow_frame|].
  intros o u1 F1.
  assert (Hretry : forall v,
    flow_frame u v ->
    wp (OnboardManager.prompt_and_retry)
      (fun o v' =>
         exists d,
           trace v' = trace u ++ d
           /\ ((~ activates env u
                /\ d = [ESetTimeout 5000 CbOnboardSecondaryWindow]
                /\ timers v' = [(now u + 5000, CbOnboardSecondaryWindow)])
               \/ (activates env u
                   /\ List.filter is_deferral d = []
                   /\ ((timers v' = [] /\ (length (List.filter is_success d) <= 1)%nat)
                       \/ (timers v' = [(now u + 600000, CbOnboardRetry)]
                           /\ List.filter is_success d = []))))) v).
  { intros v (Hnow & Htimers & (d & Hd & Hdef) & (d' & Hd' & Hsuc)).
    assert (d' = d) by (rewrite Hd in Hd'; by apply app_inv_head in Hd').
    subst d'. unfold keeps in *.
    unfold OnboardManager.prompt_and_retry. wp_go.
    destruct (retry_counter v =? 0); wp_go; world_simpl;
      rewrite Hnow, Htimers, Hq, Hd.
    - exists (d ++ [EShowOfflinePrompt true;
                    ESetTimeout OnboardManager.check_online_interval_ms CbOnboardRetry]).
      split; [by rewrite <- !app_assoc|]. right. split; [done|].
      rewrite !List.filter_app, Hdef, Hsuc. split; [done|]. right. done.
    - exists (d ++ [ESetTimeout OnboardManager.check_online_interval_ms CbOnboardRetry]).
      split; [by rewrite <- !app_assoc|]. right. split; [done|].
      rewrite !List.filter_app, Hdef, Hsuc. split; [done|]. right. done. }
  assert (Hsuccess : forall v created,
    flow_frame u v ->
    exists d,
      trace (with_trace (trace v ++ [ESuccessFunction created]) v) = trace u ++ d
      /\ ((~ activates env u
           /\ d = [ESetTimeout 5000 CbOnboardSecondaryWindow]
           /\ timers (with_trace (trace v ++ [ESuccessFunction created]) v) =
                [(now u + 5000, CbOnboardSecondaryWindow)])
          \/ (activates env u
              /\ List.filter is_deferral d = []
              /\ ((timers (with_trace (trace v ++ [ESuccessFunction created]) v) = []
                   /\ (length (List.filter is_success d) <= 1)%nat)
                  \/ (timers (with_trace (trace v ++ [ESuccessFunction created]) v) =
                        [(now u + 600000, CbOnboardRetry)]
                      /\ List.filter is_success d = []))))).
  { intros v created (Hnow & Htimers & (d & Hd & Hdef) & (d' & Hd' & Hsuc)).
    assert (d' = d) by (rewrite Hd in Hd'; by apply app_inv_head in Hd').
    subst d'. unfold keeps in *. world_simpl.
    exists (d ++ [ESuccessFunction created]). rewrite Hd, Htimers, Hq.
    split; [by rewrite <- app_assoc|]. right. split; [done|].
    rewrite !List.filter_app, Hdef, Hsuc. split; [done|]. left.
    split; [done | cbn; lia]. }
  assert (Hstop : forall v,
    flow_frame u v ->
    exists d,
      trace v = trace u ++ d
      /\ ((~ activates env u
           /\ d = [ESetTimeout 5000 CbOnboardSecondaryWindow]
           /\ timers v = [(now u + 5000, CbOnboardSecondaryWindow)])
          \/ (activates env u
              /\ List.filter is_deferral d = []
              /\ ((timers v = [] /\ (length (List.filter is_success d) <= 1)%nat)
                  \/ (timers v = [(now u + 600000, CbOnboardRetry)]
                      /\ List.filter is_success d = []))))).
  { intros v (Hnow & Htimers & (d & Hd & Hdef) & (d' & Hd' & Hsuc)).
    assert (d' = d) by (rewrite Hd in Hd'; by apply app_inv_head in Hd').
    subst d'. unfold keeps in *. exists d. split; [done|]. right.
    split; [done|]. split; [done|]. left. rewrite Htimers, Hq, Hsuc. split; [done | cbn; lia]. }
  destruct o as [serverIsOnline|e]; [|by apply Hstop].
  wp_go. destruct (_ || _).
  - destruct (negb serverIsOnline).
    + by apply (Hretry u1).
    + apply wp_bind.
      eapply wp_stable; [apply onboard_createAnonymousUser_flow_frame|].
      intros o u2 F2.
      assert (F12 : flow_frame u u2) by (etrans; eauto).
      destruct o as [result|e]; [|by apply Hstop].
      destruct (negb (truthy result)).
      * by apply (Hretry u2).
      * wp_go. by apply Hsuccess.
  - wp_go. by apply Hsuccess.
Qed.

(** An invocation of [onboardPlugin] made in a flow, with no timer
    pending and before the success callback was called. *)
Lemma onboardPlugin_flow_state w0 u d :
  trace u = trace w0 ++ d -> timers u = [] ->
  0 <= secondary_window_activate_counter u ->
  (length (List.filter is_deferral d) <= 1)%nat ->
  (List.filter is_deferral d <> [] -> 1 <= secondary_window_activate_counter u) ->
  List.filter is_success d = [] ->
  flow_state w0 (snd (OnboardManager.onboardPlugin env u)).
Proof.
  intros Hd Hq Hc Hdef Hshown Hsuc.
  pose proof (onboardPlugin_keeps_activations u) as Hkeep. unfold keeps in Hkeep.
  destruct (onboardPlugin_flow_step u Hq) as (d' & Hd' & Hcases).
  split; [by rewrite Hkeep|]. exists (d ++ d'). rewrite Hkeep.
  split; [by rewrite Hd', Hd, app_assoc|]. rewrite !List.filter_app.
  destruct Hcases as [(Hact & -> & Hq') | (Hact & Hdef' & Hend)].
  - rewrite Hq'. split; [right; left; by eexists|].
    assert (Hnone : List.filter is_deferral d = []).
    { destruct (List.filter is_deferral d) eqn:E; [done|]. exfalso.
      apply Hact. right. assert (1 <= secondary_window_activate_counter u) by auto.
      lia. }
    rewrite Hnone, Hsuc. cbn. split; [lia|]. split; [|by left].
    intros _. right. by eexists.
  - rewrite Hdef', app_nil_r, Hsuc. cbn [app].
    destruct Hend as [[Hq' Hn] | [Hq' Hn]]; rewrite Hq'.
    + split; [by left|]. split; [done|]. split; [intros H; left; auto|].
      destruct (List.filter is_success d') as [|e [|e' l]] eqn:E.
      * by left.
      * right. done.
      * cbn in Hn. lia.
    + split; [right; right; by eexists|]. split; [done|].
      split; [intros H; left; auto|]. by left.
Qed.

Lemma tick_flow_state w0 w w' :
  EventLoop.tick env w = Some w' -> flow_state w0 w -> flow_state w0 w'.
Proof.
  intros Htick (Hc & d & Hd & Hq & Hdef & Hshown & Hsuc).
  destruct Hq as [Hq | [[due Hq] | [due Hq]]].
  - unfold EventLoop.tick in Htick. by rewrite Hq in Htick.
  - rewrite (tick_first env due _ [] w Hq) in Htick by done.
    injection Htick as <-. cbn [EventLoop.run_callback].
    unfold mbind, M_bind, modify, detach. cbn [snd].
    apply (onboardPlugin_flow_state w0 _ d); try done.
    + world_simpl. lia.
    + intros _. world_simpl. lia.
    + destruct Hsuc as [?|[Hq' _]]; [done|]. rewrite Hq in Hq'. discriminate Hq'.
  - rewrite (tick_first env due _ [] w Hq) in Htick by done.
    injection Htick as <-. cbn [EventLoop.run_callback].
    unfold mbind, M_bind, modify, detach. cbn [snd].
    apply (onboardPlugin_flow_state w0 _ d); try done.
    + intros H. world_simpl. destruct (Hshown H) as [?|[due' Hq']]; [done|].
      rewrite Hq in Hq'. discriminate Hq'.
    + destruct Hsuc as [?|[Hq' _]]; [done|]. rewrite Hq in Hq'. discriminate Hq'.
Qed.

Lemma run_flow_state w0 turns w :
  flow_state w0 w -> flow_state w0 (EventLoop.run env turns w).
Proof.
  revert w. induction turns as [|turns IH]; intros w Hw; [done|].
  cbn [EventLoop.run]. destruct (EventLoop.tick env w) as [w'|] eqn:E; [|done].
  apply IH. by eapply tick_flow_state.
Qed.

End Flow.

(** X19. In an onboarding flow (a call of [onboardPlugin] with no timer
    pending, followed by any number of turns of the event loop) the
    five-second deferral of an unfocused window is armed at most once:
    the deferred call increments the activation counter, so the calls
    that follow proceed whether or not the window is focused. *)
Theorem onboarding_defers_at_most_once env w turns :
  timers w = [] -> 0 <= secondary_window_activate_counter w ->
  (length
     (List.filter is_deferral
        (drop (length (trace w))
           (trace (EventLoop.run env turns
                     (snd (OnboardManager.onboardPlugin env w)))))) <= 1)%nat.
Proof.
  intros Hq Hc.
  assert (Hstart : flow_state w (snd (OnboardManager.onboardPlugin env w))).
  { apply (onboardPlugin_flow_state env w w []); try done.
    - by rewrite app_nil_r.
    - cbn. lia. }
  destruct (run_flow_state env w turns _ Hstart) as (_ & d & Hd & _ & Hdef & _).
  by rewrite Hd, drop_app_length.
Qed.

Lemma onboarding_defers_at_most_once_witness :
  (length
     (List.filter is_deferral
        (drop (length (trace first_run))
           (trace (EventLoop.run unfocused 3
                     (snd (OnboardManager.onboardPlugin unfocused first_run)))))) <= 1)%nat.
Proof.
  apply (onboarding_defers_at_most_once unfocused first_run 3).
  - reflexivity.
  - cbn. lia.
Defined.

(** X20. In an onboarding flow the success callback is called at most
    once, and once it was called the flow is over: no timer is pending,
    so [onboardPlugin] does not run again. *)
Theorem onboarding_succeeds_at_most_once env w turns :
  timers w = [] -> 0 <= secondary_window_activate_counter w ->
  (length
     (List.filter is_success
        (drop (length (trace w))
           (trace (EventLoop.run env turns
                     (snd (OnboardManager.onboardPlugin env w)))))) <= 1)%nat
  /\ (List.filter is_success
        (drop (length (trace w))
           (trace (EventLoop.run env turns
                     (snd (OnboardManager.onboardPlugin env w))))) <> [] ->
      timers (EventLoop.run env turns (snd (OnboardManager.onboardPlugin env w))) = []).
Proof.
  intros Hq Hc.
  assert (Hstart : flow_state w (snd (OnboardManager.onboardPlugin env w))).
  { apply (onboardPlugin_flow_state env w w []); try done.
    - by rewrite app_nil_r.
    - cbn. lia. }
  destruct (run_flow_state env w turns _ Hstart) as (_ & d & Hd & _ & _ & _ & Hsuc).
  rewrite Hd, drop_app_length.
  destruct Hsuc as [-> | [Hq' Hn]].
  - split; [cbn; lia | done].
  - split; [lia | done].
Qed.

Lemma onboarding_succeeds_at_most_once_witness :
  (length
     (List.filter is_success
        (drop (length (trace first_run))
           (trace (EventLoop.run granting 3
                     (snd (OnboardManager.onboardPlugin granting first_run)))))) <= 1)%nat
  /\ (List.filter is_success
        (drop (length (trace first_run))
           (trace (EventLoop.run granting 3
                     (snd (OnboardManager.onboardPlugin granting first_run))))) <> [] ->
      timers (EventLoop.run granting 3
                (snd (OnboardManager.onboardPlugin granting first_run))) = []).
Proof.
  apply (onboarding_succeeds_at_most_once granting first_run 3).
  - reflexivity.
  - cbn. lia.
Defined.

(** ** The retry with the cached token *)

#[global] Instance primitive_cache_kept_refl : Reflexive primitive_cache_kept.
Proof. intros w H. exact H. Qed.

#[global] Instance primitive_cache_kept_trans : Transitive primitive_cache_kept.
Proof. intros a b c H1 H2 H. apply H2, H1, H. Qed.

Lemma keeps_cache_primitive {A} (m : M A) :
  stable (keeps cachedJwt) m -> stable primitive_cache_kept m.
Proof. intros Hm w H. pose proof (Hm w) as E. unfold keeps in E. by rewrite E. Qed.

Section StateRequests.

Variable env : environment.

Hypothesis tokens_are_primitive : primitive_tokens env.

Lemma createAnonymousUser_primitive_cache b w :
  is_primitive (cachedJwt w) = true ->
  is_primitive (cachedJwt (snd (DataController.createAnonymousUser env b w))) = true.
Proof.
  intros Hw. pattern (DataController.createAnonymousUser env b w). apply wp_pair.
  unfold DataController.createAnonymousUser. apply wp_bind.
  eapply (wp_stable (keeps cachedJwt)); [stable_auto|].
  intros [appJwt|e] w1 H1; unfold keeps in H1; cbn [snd]; [|by rewrite H1].
  assert (Hsame : forall u, cachedJwt u = cachedJwt w1 ->
                            is_primitive (cachedJwt u) = true).
  { intros u ->. by rewrite H1. }
  destruct (truthy appJwt && b); [|wp_go; by apply Hsame].
  wp_go. destruct (_ && _).
  - wp_go. destruct (transport env _ _) as [resp|] eqn:Hr; [|by apply Hsame].
    destruct (isResponseOk resp && truthy (resp_data resp));
      [|wp_go; by apply Hsame].
    wp_go. destruct (resp_data resp) as [| | | | |elems|fields] eqn:Hd;
      try (by apply Hsame); try (wp_go; by apply Hsame).
    destruct (truthy (assoc "jwt" fields)); wp_go.
    + cbn [snd]. world_simpl. by eapply tokens_are_primitive.
    + by apply Hsame.
  - destruct (_ && _); wp_go; by apply Hsame.
Qed.

(** [isLoggedOn] sends at most one request for the state, and leaves the
    store and the cache alone unless it reports the user as logged on. *)
Lemma isLoggedOn_asks_once b jwt w :
  at_most_once is_state_request w (snd (DataController.isLoggedOn env b jwt w))
  /\ (forall r, fst (DataController.isLoggedOn env b jwt w) = Returned r ->
                DataController.loggedOn r = false ->
                items (snd (DataController.isLoggedOn env b jwt w)) = items w
                /\ cachedJwt (snd (DataController.isLoggedOn env b jwt w)) = cachedJwt w).
Proof.
  split.
  - pattern (DataController.isLoggedOn env b jwt w). apply wp_pair.
    unfold DataController.isLoggedOn. destruct b.
    2:{ wp_go. cbn [snd]. apply quiet_at_most_once. reflexivity. }
    wp_go.
    assert (Hsent : at_most_once is_state_request w
                      (sent (Get "/users/plugin/state" jwt) w)).
    { exists [EHttp (Get "/users/plugin/state" jwt)]. split; [done | cbn; lia]. }
    destruct (transport env _ _) as [resp|]; [|done].
    eapply (wp_stable (quiet is_state_request)); [stable_auto|].
    intros o w2 H2. cbn [snd]. by eapply at_most_once_quiet.
  - pattern (DataController.isLoggedOn env b jwt w). apply wp_pair.
    unfold DataController.isLoggedOn. destruct b.
    2:{ wp_go. done. }
    wp_go. destruct (transport env _ _) as [resp|]; [|done].
    destruct (isResponseOk resp && truthy (resp_data resp)); [|by wp_go].
    wp_go. destruct (resp_data resp) as [| | | | |elems|fields];
      try done; try (by wp_go).
    destruct (strict_eq _ _); [|by wp_go].
    wp_go. destruct (_ && _); wp_go; cbn [fst]; by intros r [= <-].
Qed.

Lemma getUserStatus_state_requests w :
  persisted w -> is_primitive (cachedJwt w) = true ->
  at_most_once is_state_request w (snd (DataController.getUserStatus env w)).
Proof.
  intros Hw Hprim.
  pattern (DataController.getUserStatus env w). apply wp_pair.
  unfold DataController.getUserStatus. wp_go.
  set (w0 := with_trace (trace w ++ [ECleanSessionInfo]) w).
  apply wp_serverIsAvailable.
  set (w1 := sent (Get "/ping" JNull) w0).
  assert (Q1 : quiet is_state_request w w1).
  { exists [ECleanSessionInfo; EHttp (Get "/ping" JNull)].
    split; [|done]. subst w1 w0. cbn. by rewrite <- app_assoc. }
  assert (Hw1 : persisted w1) by done.
  assert (Hprim1 : is_primitive (cachedJwt w1) = true) by done.
  clearbody w1.
  (* the check of the login state *)
  apply wp_bind. destruct (probe env w0).
  2:{ apply wp_ret.
      eapply (wp_stable (quiet is_state_request)); [stable_auto|].
      intros o w2 H2. cbn [snd]. apply quiet_at_most_once. by etrans. }
  apply wp_bind. apply wp_gets. apply wp_bind.
  apply wp_mono with
    (Q := fun o w2 => persisted w2 /\ is_primitive (cachedJwt w2) = true
                      /\ quiet is_state_request w w2).
  { destruct (_ && _); [|by apply wp_ret].
    eapply (wp_post _ (fun w2 => persisted w2 /\ is_primitive (cachedJwt w2) = true
                                 /\ quiet is_state_request w1 w2)).
    - split; [by apply createAnonymousUser_persisted|].
      split; [by apply createAnonymousUser_primitive_cache|].
      revert w1 Q1 Hw1 Hprim1. intros w1 _ _ _. revert w1.
      change (stable (quiet is_state_request)
                (DataController.createAnonymousUser env true)).
      stable_auto.
    - intros o w2 (H1 & H2 & H3). split; [done|]. split; [done|]. by etrans. }
  intros o w2 (Hw2 & Hprim2 & Q2). destruct o as [[]|e];
    [|by apply quiet_at_most_once].
  apply wp_bind. apply wp_gets. fold (stored_jwt w2).
  apply wp_bind.
  destruct (isLoggedOn_asks_once true (stored_jwt w2) w2) as [Hask Hkeep].
  unfold wp at 1.
  destruct (DataController.isLoggedOn env true (stored_jwt w2) w2) as [o w3].
  cbn [fst snd] in *.
  assert (H3 : at_most_once is_state_request w w3).
  { destruct Q2 as (d2 & Hd2 & Hf2). destruct Hask as (d3 & Hd3 & Hn3).
    exists (d2 ++ d3). split; [by rewrite Hd3, Hd2, app_assoc|].
    by rewrite List.filter_app, Hf2. }
  destruct o as [r|e]; [|exact H3].
  apply wp_bind. apply wp_gets. apply wp_bind.
  assert (Hcond : negb (DataController.loggedOn r) && truthy (cachedJwt w3)
                  && strict_ne (stored_jwt w2) (cachedJwt w3) = false).
  { destruct (DataController.loggedOn r) eqn:Hr; [done|]. cbn [negb andb].
    destruct (Hkeep r eq_refl Hr) as [_ Hc]. rewrite Hc.
    destruct (truthy (cachedJwt w2)) eqn:Ht; [|done]. cbn [andb].
    rewrite (Hw2 Ht). unfold strict_ne. by rewrite strict_eq_refl. }
  rewrite Hcond. apply wp_ret. apply wp_ret.
  eapply (wp_stable (quiet is_state_request)); [stable_auto|].
  intros o w4 H4. cbn [snd]. by eapply at_most_once_quiet.
Qed.

Lemma createAnonymousUser_primitive_cache_kept b :
  stable primitive_cache_kept (DataController.createAnonymousUser env b).
Proof. intros w H. by apply createAnonymousUser_primitive_cache. Qed.

Lemma isLoggedOn_primitive_cache_kept b jwt :
  stable primitive_cache_kept (DataController.isLoggedOn env b jwt).
Proof.
  intros w Hw. pattern (DataController.isLoggedOn env b jwt w). apply wp_pair.
  unfold DataController.isLoggedOn. destruct b; [|by wp_go].
  wp_go. destruct (transport env _ _) as [resp|] eqn:Hr; [|done].
  destruct (isResponseOk resp && truthy (resp_data resp)); [|by wp_go].
  wp_go. destruct (resp_data resp) as [| | | | |elems|fields] eqn:Hd;
    try done; try (by wp_go).
  destruct (strict_eq _ _); [|by wp_go].
  wp_go. destruct (_ && _); wp_go; cbn [snd]; world_simpl;
    by eapply tokens_are_primitive.
Qed.

(** The callers: a call that may write the cache is one of the two
    above; everything else leaves the cache alone. *)
Ltac cache_step :=
  lazymatch goal with
  | |- stable _ (DataController.createAnonymousUser _ _) =>
      apply createAnonymousUser_primitive_cache_kept
  | |- stable _ (DataController.isLoggedOn _ _ _) =>
      apply isLoggedOn_primitive_cache_kept
  | |- stable _ (mbind _ _) => apply stable_bind; [tc_solve..| | intros ?]
  | |- stable _ (if ?c then _ else _) => destruct c
  | |- stable _ _ => solve [apply keeps_cache_primitive; stable_auto]
  end.

Lemma getUserStatus_primitive_cache_kept :
  stable primitive_cache_kept (DataController.getUserStatus env).
Proof. unfold DataController.getUserStatus. repeat cache_step. Qed.

Lemma run_callback_primitive_cache_kept cb :
  stable primitive_cache_kept (EventLoop.run_callback env cb).
Proof.
  destruct cb; unfold EventLoop.run_callback;
    try solve [apply keeps_cache_primitive; stable_auto].
  apply stable_detach. unfold DataController.userStatusFetchHandler.
  apply stable_bind; [tc_solve.. | apply getUserStatus_primitive_cache_kept|].
  intros ?. apply keeps_cache_primitive. stable_auto.
Qed.

Lemma perform_primitive_cache_kept op w :
  primitive_cache_kept w (perform env op w).
Proof.
  destruct op; cbn [perform];
    try (by intros H);
    try (match goal with
         | |- primitive_cache_kept w (snd (?m w)) =>
             revert w; change (stable primitive_cache_kept m);
             first [ apply createAnonymousUser_primitive_cache_kept
                   | apply getUserStatus_primitive_cache_kept
                   | apply stable_bind;
                     [tc_solve.. | apply stable_gets; tc_solve
                     | intros ?; apply isLoggedOn_primitive_cache_kept]
                   | solve [apply keeps_cache_primitive; stable_auto] ]
         end).
  unfold EventLoop.tick.
  destruct (EventLoop.next_timer _) as [[[due cb] rest]|]; [|by intros H].
  cbn [default]. set (w1 := with_now _ _).
  assert (H1 : primitive_cache_kept w w1) by (by intros H).
  etrans; [exact H1|]. apply run_callback_primitive_cache_kept.
Qed.

Lemma reachable_primitive_cache w :
  reachable env w -> is_primitive (cachedJwt w) = true.
Proof.
  induction 1 as [|op w Hr IH]; [done|]. by apply perform_primitive_cache_kept.
Qed.

End StateRequests.


Lemma granting_primitive_tokens : primitive_tokens granting.
Proof.
  intros n r resp fields Hr Hd. cbn in Hr. injection Hr as <-.
  cbn in Hd. by injection Hd as <-.
Qed.


(** ** The success callback and the stored token *)

#[global] Instance success_frame_refl : Reflexive success_frame.
Proof.
  intros w. split; [reflexivity|]. exists []. by rewrite app_nil_r.
Qed.

#[global] Instance success_frame_trans : Transitive success_frame.
Proof.
  intros a b c (K1 & d1 & Hd1 & H1) (K2 & d2 & Hd2 & H2).
  split; [by etrans|]. exists (d1 ++ d2).
  split; [by rewrite Hd2, Hd1, app_assoc|].
  rewrite List.filter_app. intros H.
  destruct (List.filter is_success d2) eqn:E2.
  - rewrite app_nil_r in H. destruct K2 as [K2|K2]; [|done].
    rewrite K2. by apply H1.
  - by apply H2.
Qed.

Lemma quiet_success_frame w w' :
  token_kept w w' -> quiet is_success w w' -> success_frame w w'.
Proof. intros K (d & Hd & Hf). split; [done|]. exists d. by rewrite Hf. Qed.

Lemma stable_success_frame {A} (m : M A) :
  stable token_kept m -> stable (quiet is_success) m -> stable success_frame m.
Proof. intros H1 H2 w. by apply quiet_success_frame. Qed.

Section Success.

Variable env : environment.

(** A token returned by the creation of OnboardManager is stored. *)
Lemma onboard_createAnonymousUser_result b w :
  forall result,
    fst (OnboardManager.createAnonymousUser env b w) = Returned result ->
    truthy result = true ->
    truthy (stored_jwt (snd (OnboardManager.createAnonymousUser env b w))) = true.
Proof.
  pattern (OnboardManager.createAnonymousUser env b w). apply wp_pair.
  unfold OnboardManager.createAnonymousUser. apply wp_bind.
  apply wp_any. intros o w1. destruct o as [appJwt|e]; [|done].
  destruct (truthy appJwt && b); [|wp_go; by intros r [= <-]].
  wp_go. destruct (negb _); [|wp_go; by intros r [= <-]].
  wp_go. destruct (transport env _ _) as [resp|]; [|done].
  destruct (isResponseOk resp && truthy (resp_data resp));
    [|wp_go; by intros r [= <-]].
  wp_go. destruct (resp_data resp) as [| | | | |elems|fields];
    try done; try (wp_go; by intros r [= <-]).
  destruct (truthy (assoc "jwt" fields)) eqn:Ht; wp_go; cbn [fst snd].
  - intros r [= <-] _. unfold stored_jwt. world_simpl.
    by rewrite lookup_insert_eq.
  - by intros r [= <-].
Qed.

Lemma onboard_createAnonymousUser_quiet b :
  stable (fun w w' => token_kept w w' /\ quiet is_success w w')
    (OnboardManager.createAnonymousUser env b).
Proof. apply stable_and; [token_auto | stable_auto]. Qed.

Lemma onboardPlugin_success_frame :
  stable success_frame (OnboardManager.onboardPlugin env).
Proof.
  intros w. pattern (OnboardManager.onboardPlugin env w). apply wp_pair.
  unfold OnboardManager.onboardPlugin. wp_go.
  destruct (_ && _).
  { wp_go. cbn [snd]. apply quiet_success_frame; [by left | by eexists [_]]. }
  wp_go.
  eapply (wp_stable (fun w w' => keeps items w w' /\ quiet is_success w w'));
    [apply stable_and; stable_auto|].
  intros o w1 [I1 Q1]. unfold keeps in I1.
  assert (F1 : success_frame w w1).
  { apply quiet_success_frame; [left; unfold stored_jwt; by rewrite I1 | done]. }
  assert (Hretry : forall v,
            success_frame w v ->
            wp OnboardManager.prompt_and_retry
              (fun _ v' => success_frame w v') v).
  { intros v Fv.
    eapply (wp_stable (fun w w' => keeps items w w' /\ quiet is_success w w'));
      [apply stable_and; stable_auto|].
    intros o' v' [Iv Qv]. unfold keeps in Iv. etrans; [exact Fv|].
    apply quiet_success_frame; [left; unfold stored_jwt; by rewrite Iv | done]. }
  destruct o as [serverIsOnline|e]; [|done].
  wp_go. fold (stored_jwt w1).
  destruct (negb (sessionFile w1) || negb (truthy (stored_jwt w1))) eqn:Hs.
  - destruct (negb serverIsOnline).
    + eapply wp_mono; [by apply Hretry|]. by intros o' v' H.
    + apply wp_bind. unfold wp at 1.
      pose proof (onboard_createAnonymousUser_result serverIsOnline w1) as Hres.
      destruct (onboard_createAnonymousUser_quiet serverIsOnline w1) as [K2 Q2].
      destruct (OnboardManager.createAnonymousUser env serverIsOnline w1)
        as [o w2]. cbn [fst snd] in *.
      assert (F2 : success_frame w w2).
      { etrans; [exact F1|]. by apply quiet_success_frame. }
      destruct o as [result|e]; [|done].
      destruct (negb (truthy result)) eqn:Ht.
      * eapply wp_mono; [by apply Hretry|]. by intros o' v' H.
      * wp_go. cbn [snd]. etrans; [exact F2|].
        split; [by left|]. exists [ESuccessFunction true]. split; [done|].
        intros _. world_simpl. apply negb_false_iff in Ht.
        by apply (Hres result eq_refl).
  - wp_go. cbn [snd]. etrans; [exact F1|].
    split; [by left|]. exists [ESuccessFunction false]. split; [done|].
    intros _. world_simpl. apply orb_false_iff in Hs as [_ Hs].
    by apply negb_false_iff in Hs.
Qed.

Lemma run_callback_success_frame cb :
  stable success_frame (EventLoop.run_callback env cb).
Proof.
  destruct cb; unfold EventLoop.run_callback.
  - apply stable_success_frame; [token_auto | stable_auto].
  - apply stable_success_frame; [token_auto | stable_auto].
  - apply stable_bind; [tc_solve..| |intros ?].
    + apply stable_success_frame; [token_auto | stable_auto].
    + apply stable_detach, onboardPlugin_success_frame.
  - apply stable_bind; [tc_solve..| |intros ?].
    + apply stable_success_frame; [token_auto | stable_auto].
    + apply stable_detach, onboardPlugin_success_frame.
Qed.

Lemma run_success_frame turns w : success_frame w (EventLoop.run env turns w).
Proof.
  revert w. induction turns as [|turns IH]; intros w; [reflexivity|].
  cbn [EventLoop.run]. unfold EventLoop.tick.
  destruct (EventLoop.next_timer _) as [[[due cb] rest]|]; [|reflexivity].
  set (w1 := with_now _ _).
  assert (H1 : success_frame w w1) by (apply quiet_success_frame;
    [by left | exists []; by rewrite app_nil_r]).
  etrans; [exact H1|]. etrans; [apply run_callback_success_frame | apply IH].
Qed.

End Success.

(** X22. Whenever the success callback was called in an onboarding flow
    (a call of [onboardPlugin] followed by any number of turns of the
    event loop), a token is stored at the end: the callback is called
    with the flag true only after the new token was written to the
    store, with the flag false only when the store already holds one,
    and nothing clears the token afterwards. *)
Theorem success_callback_means_a_token_is_stored env w turns :
  List.filter is_success
    (drop (length (trace w))
       (trace (EventLoop.run env turns (snd (OnboardManager.onboardPlugin env w)))))
    <> [] ->
  truthy (stored_jwt
            (EventLoop.run env turns (snd (OnboardManager.onboardPlugin env w))))
    = true.
Proof.
  assert (F : success_frame w
                (EventLoop.run env turns (snd (OnboardManager.onboardPlugin env w)))).
  { etrans; [apply onboardPlugin_success_frame | apply run_success_frame]. }
  destruct F as (_ & d & Hd & H). by rewrite Hd, drop_app_length.
Qed.

Lemma success_callback_means_a_token_is_stored_witness :
  truthy (stored_jwt
            (EventLoop.run granting 2
               (snd (OnboardManager.onboardPlugin granting first_run))))
    = true.
Proof.
  apply (success_callback_means_a_token_is_stored granting first_run 2).
  vm_compute. discriminate.
Defined.

(** ** A batch is sent again until it is accepted *)

Lemma sendOfflineData_nothing_to_send env w :
  dataStoreFile w = None -> DataController.sendOfflineData env w = (Returned tt, w).
Proof.
  intros H. unfold DataController.sendOfflineData, catch, readDataStoreFile, gets.
  unfold mbind, M_bind. by rewrite H.
Qed.

(** X23. Calling [sendOfflineData] again after a call that found a batch:
    when the batch was accepted (the POST answered ok or user-deactivated
    and the probe after it succeeded) the file is gone and the second
    call sends nothing and changes nothing; otherwise the file is still
    there and the second call starts by sending the same batch request
    again, with the same payload and token. *)
Theorem sendOfflineData_resends_until_accepted env w content :
  dataStoreFile w = Some content -> content <> "" ->
  if batch_accepted env content w
  then DataController.sendOfflineData env (snd (DataController.sendOfflineData env w))
       = (Returned tt, snd (DataController.sendOfflineData env w))
  else exists rest,
         emitted (DataController.sendOfflineData env)
           (snd (DataController.sendOfflineData env w))
         = EHttp (batch_post env content w) :: rest.
Proof.
  intros Hfile Hne.
  destruct (sendOfflineData_frame env w) as (Hitems & _).
  unfold keeps in Hitems.
  assert (Hkept : batch_accepted env content w = false ->
                  dataStoreFile (snd (DataController.sendOfflineData env w))
                  = Some content).
  { rewrite (sendOfflineData_run env w content Hfile Hne). cbn [snd].
    unfold batch_accepted. destruct (transport env _ _) as [resp|]; [|done].
    destruct (isResponseOk resp || isUserDeactivated resp); [|done].
    cbn [andb]. by intros ->. }
  assert (Hgone : batch_accepted env content w = true ->
                  dataStoreFile (snd (DataController.sendOfflineData env w)) = None).
  { rewrite (sendOfflineData_run env w content Hfile Hne). cbn [snd].
    unfold batch_accepted. destruct (transport env _ _) as [resp|]; [|done].
    destruct (isResponseOk resp || isUserDeactivated resp); [|done].
    cbn [andb]. by intros ->. }
  set (w' := snd (DataController.sendOfflineData env w)) in *.
  destruct (batch_accepted env content w).
  - by apply sendOfflineData_nothing_to_send, Hgone.
  - assert (Hpost : batch_post env content w' = batch_post env content w).
    { unfold batch_post, stored_jwt. by rewrite Hitems. }
    rewrite (emitted_app (DataController.sendOfflineData env) w'
               (drop (length (trace w'))
                  (trace (snd (DataController.sendOfflineData env w'))))).
    + rewrite (sendOfflineData_run env w' content (Hkept eq_refl) Hne). cbn [snd].
      rewrite Hpost.
      destruct (transport env _ _) as [resp|].
      * destruct (isResponseOk resp || isUserDeactivated resp).
        -- destruct (probe env _); cbn; rewrite <- ?app_assoc, drop_app_length;
             by eexists.
        -- cbn. rewrite drop_app_length. by eexists.
      * cbn. rewrite drop_app_length. by eexists.
    + rewrite (sendOfflineData_run env w' content (Hkept eq_refl) Hne). cbn [snd].
      destruct (transport env _ _) as [resp|].
      * destruct (isResponseOk resp || isUserDeactivated resp).
        -- destruct (probe env _); cbn; by rewrite <- ?app_assoc, drop_app_length.
        -- cbn. by rewrite drop_app_length.
      * cbn. by rewrite drop_app_length.
Qed.

Lemma sendOfflineData_resends_until_accepted_witness :
  (DataController.sendOfflineData granting
     (snd (DataController.sendOfflineData granting one_batch))
   = (Returned tt, snd (DataController.sendOfflineData granting one_batch)))
  /\ exists rest,
       emitted (DataController.sendOfflineData refusing)
         (snd (DataController.sendOfflineData refusing one_batch))
       = EHttp (batch_post refusing line_a one_batch) :: rest.
Proof.
  assert (Hne : line_a <> "") by discriminate.
  split.
  - exact (sendOfflineData_resends_until_accepted granting one_batch line_a
             eq_refl Hne).
  - exact (sendOfflineData_resends_until_accepted refusing one_batch line_a
             eq_refl Hne).
Defined.

(** ** The preferences sent to the server *)

(** X24. [sendPreferencesUpdate], given the remote preferences as an
    object, notifies the music-visibility module and sends one PUT to
    /users/:id/preferences with the stored token.  The body is the object
    it was given with showMusic, showGit and showRank replaced by the
    local settings: every other field is passed back unchanged.  A user
    id that does not parse as a number gives the path
    /users/NaN/preferences.  The configuration and the store are not
    written, and the call fails only when the transport throws. *)
Theorem sendPreferencesUpdate_replaces_three_fields env id prefs w :
  emitted (DataController.sendPreferencesUpdate env (parseInt id) (JObj prefs)) w =
    [EUpdateShowMusicMetrics (config_value w "showMusicMetrics");
     EHttp (preferences_put w id prefs)]
  /\ (forall k, k <> "showMusic" -> k <> "showGit" -> k <> "showRank" ->
                assoc k (local_preferences w prefs) = assoc k prefs)
  /\ (parseInt id = None ->
      exists body jwt,
        preferences_put w id prefs = Put "/users/NaN/preferences" body jwt)
  /\ configuration
       (snd (DataController.sendPreferencesUpdate env (parseInt id) (JObj prefs) w))
     = configuration w
  /\ items (snd (DataController.sendPreferencesUpdate env (parseInt id) (JObj prefs) w))
     = items w
  /\ fst (DataController.sendPreferencesUpdate env (parseInt id) (JObj prefs) w) =
       match transport env (requests w) (preferences_put w id prefs) with
       | Resolved _ => Returned tt
       | Rejected => Thrown TransportFailure
       end.
Proof.
  split; [|split; [|split]].
  - unfold emitted.
    pattern (DataController.sendPreferencesUpdate env (parseInt id) (JObj prefs) w).
    apply wp_pair. apply wp_sendPreferencesUpdate. intros o. cbv zeta. cbn [snd].
    world_simpl. by rewrite <- !app_assoc, drop_app_length.
  - intros k H1 H2 H3. unfold local_preferences.
    by rewrite !assoc_put_field_ne.
  - intros Hid. unfold preferences_put. rewrite Hid. by eexists _, _.
  - pattern (DataController.sendPreferencesUpdate env (parseInt id) (JObj prefs) w).
    apply wp_pair. unfold DataController.sendPreferencesUpdate. wp_go.
    fold (config_value w "showMusicMetrics") (config_value w "showGitMetrics")
         (config_value w "showWeeklyRanking").
    fold (local_preferences w prefs). world_simpl. fold (stored_jwt w).
    fold (preferences_put w id prefs).
    destruct (transport env _ _); wp_go; done.
Qed.

(** ** An ok answer that carries no data *)

(** X25. An answer classified as ok whose data is null or undefined:
    [isLoggedOn] and [getUser] test the data before they read it and give
    their defaults ({loggedOn: false, state: "UNKNOWN"}, null), but
    [getAppJwt] reads the jwt of the data without a test, so it throws a
    TypeError, and so does each [createAnonymousUser] that called it;
    no onboarding request is sent and the store is not written. *)
Theorem getAppJwt_reads_the_data_unguarded env w resp :
  isResponseOk resp = true -> is_unset (resp_data resp) = true ->
  (transport env (requests w)
     (Get ("/data/apptoken?token=" +:+ decimal (now w / 1000)) JNull) = Resolved resp ->
   fst (DataController.getAppJwt env true w) = Thrown TypeError
   /\ fst (DataController.createAnonymousUser env true w) = Thrown TypeError
   /\ fst (OnboardManager.createAnonymousUser env true w) = Thrown TypeError
   /\ List.filter is_onboard_post
        (emitted (DataController.createAnonymousUser env true) w) = []
   /\ List.filter is_onboard_post
        (emitted (OnboardManager.createAnonymousUser env true) w) = []
   /\ items (snd (DataController.createAnonymousUser env true w)) = items w
   /\ items (snd (OnboardManager.createAnonymousUser env true w)) = items w)
  /\ (forall jwt,
        transport env (requests w) (Get "/users/plugin/state" jwt) = Resolved resp ->
        fst (DataController.isLoggedOn env true jwt w) =
          Returned {| DataController.loggedOn := false;
                      DataController.state := JStr "UNKNOWN" |})
  /\ (forall jwt,
        transport env (requests w) (Get "/users/me" jwt) = Resolved resp ->
        fst (DataController.getUser env true jwt w) = Returned JNull).
Proof.
  intros Hok Hdata.
  assert (Hfalsy : truthy (resp_data resp) = false) by (by destruct (resp_data resp)).
  split; [|split].
  - intros Hr.
    assert (Hrun : DataController.getAppJwt env true w =
                   (Thrown TypeError,
                    sent (Get ("/data/apptoken?token=" +:+ decimal (now w / 1000))
                            JNull) w)).
    { unfold DataController.getAppJwt, nowInSecs, gets, softwareGet, send, sent.
      unfold mbind, M_bind. rewrite Hr, Hok. by destruct (resp_data resp). }
    assert (Hdc : DataController.createAnonymousUser env true w =
                  (Thrown TypeError,
                   sent (Get ("/data/apptoken?token=" +:+ decimal (now w / 1000))
                           JNull) w)).
    { unfold DataController.createAnonymousUser. unfold mbind, M_bind.
      by rewrite Hrun. }
    assert (Hom : OnboardManager.createAnonymousUser env true w =
                  (Thrown TypeError,
                   sent (Get ("/data/apptoken?token=" +:+ decimal (now w / 1000))
                           JNull) w)).
    { unfold OnboardManager.createAnonymousUser. unfold mbind, M_bind.
      by rewrite Hrun. }
    rewrite Hrun, Hdc, Hom. cbn [fst snd]. world_simpl.
    split; [done|]. split; [done|]. split; [done|].
    split; [|split; [|done]].
    + by rewrite (emitted_app _ w
               [EHttp (Get ("/data/apptoken?token=" +:+ decimal (now w / 1000)) JNull)])
        by (by rewrite Hdc).
    + by rewrite (emitted_app _ w
               [EHttp (Get ("/data/apptoken?token=" +:+ decimal (now w / 1000)) JNull)])
        by (by rewrite Hom).
  - intros jwt Hr.
    unfold DataController.isLoggedOn, softwareGet, send.
    unfold mbind, M_bind. by rewrite Hr, Hok, Hfalsy.
  - intros jwt Hr. unfold DataController.getUser, softwareGet, send.
    destruct (truthy jwt); [|done].
    unfold mbind, M_bind. cbn [andb]. by rewrite Hr, Hok, Hfalsy.
Qed.

Lemma getAppJwt_reads_the_data_unguarded_witness :
  fst (DataController.getAppJwt bodiless true first_run) = Thrown TypeError
  /\ fst (DataController.isLoggedOn bodiless true JNull first_run) =
       Returned {| DataController.loggedOn := false;
                   DataController.state := JStr "UNKNOWN" |}.
Proof.
  pose proof (getAppJwt_reads_the_data_unguarded bodiless first_run
                {| resp_ok := true; resp_deactivated := false;
                   resp_data := JUndefined |} eq_refl eq_refl) as (H1 & H2 & _).
  split; [exact (proj1 (H1 eq_refl)) | exact (H2 JNull eq_refl)].
Defined.

(** * The onboarding flow as a whole *)

Section OnboardingAttempts.

Variable env : environment.

Lemma prompt_and_retry_run v :
  OnboardManager.prompt_and_retry v =
    (Returned tt,
     with_trace
       (trace v ++
        (if retry_counter v =? 0 then [EShowOfflinePrompt true] else []) ++
        [ESetTimeout 600000 CbOnboardRetry])
       (with_timers (timers v ++ [(now v + 600000, CbOnboardRetry)]) v)).
Proof.
  unfold OnboardManager.prompt_and_retry, OnboardManager.showOfflinePrompt,
    setTimeout, emit, modify, gets. unfold mbind, M_bind, mret, M_ret.
  destruct (retry_counter v =? 0); unfold with_trace, with_timers; cbn;
    by rewrite <- ?app_assoc.
Qed.

(** An attempt made while no session exists: the probe, then the retry
    when the server is unreachable; otherwise the creation, and after it
    the success callback, the retry, or nothing when it threw. *)
Lemma onboardPlugin_attempt w :
  activates env w -> no_session w ->
  OnboardManager.onboardPlugin env w =
    if probe env w then
      match OnboardManager.createAnonymousUser env true (sent (Get "/ping" JNull) w) with
      | (Returned result, w') =>
          if truthy result
          then (Returned tt, with_trace (trace w' ++ [ESuccessFunction true]) w')
          else OnboardManager.prompt_and_retry w'
      | (Thrown e, w') => (Thrown e, w')
      end
    else OnboardManager.prompt_and_retry (sent (Get "/ping" JNull) w).
Proof.
  intros Hact Hns. unfold OnboardManager.onboardPlugin.
  unfold mbind, M_bind, gets. rewrite (activates_branch env w Hact).
  rewrite serverIsAvailable_run. unfold softwareSessionFileExists, jwtExists, gets.
  world_simpl. fold (stored_jwt w).
  replace (negb (sessionFile w) || negb (truthy (stored_jwt w))) with true.
  2:{ destruct Hns as [-> | ->]; [done|]. by rewrite orb_true_r. }
  destruct (probe env w); cbn [negb]; [|done].
  destruct (OnboardManager.createAnonymousUser env true _) as [[result|e] w']; [|done].
  destruct (truthy result); cbn [negb]; [|done].
  unfold OnboardManager.successFunction, emit, modify. done.
Qed.

(** What the creation leaves alone, in one place. *)
Lemma onboard_createAnonymousUser_frames b w :
  let w' := snd (OnboardManager.createAnonymousUser env b w) in
  now w' = now w /\ timers w' = timers w /\ retry_counter w' = retry_counter w
  /\ exists d, trace w' = trace w ++ d
               /\ List.filter is_prompt d = [] /\ List.filter is_timeout d = []
               /\ List.filter is_success d = [].
Proof.
  intros w'.
  destruct (createAnonymousUser_onboard_frame env b w)
    as (Hn & Ht & Hr & (d & Hd & Hp) & (d1 & Hd1 & Hto)).
  destruct (onboard_createAnonymousUser_flow_frame env b w)
    as (_ & _ & _ & (d2 & Hd2 & Hs)).
  fold w' in Hn, Ht, Hr, Hd, Hd1, Hd2. unfold keeps in *.
  assert (d1 = d) by (rewrite Hd in Hd1; by apply app_inv_head in Hd1).
  assert (d2 = d) by (rewrite Hd in Hd2; by apply app_inv_head in Hd2).
  subst d1 d2. split; [done|]. split; [done|]. split; [done|]. by exists d.
Qed.

(** Every outcome of an attempt made while no session exists. *)
Lemma onboardPlugin_attempt_outcome w :
  timers w = [] -> activates env w -> no_session w ->
  match fst (OnboardManager.onboardPlugin env w) with
  | Returned _ =>
      (List.filter is_success (emitted (OnboardManager.onboardPlugin env) w)
         = [ESuccessFunction true]
       /\ List.filter is_timeout (emitted (OnboardManager.onboardPlugin env) w) = []
       /\ timers (snd (OnboardManager.onboardPlugin env w)) = [])
      \/ (List.filter is_success (emitted (OnboardManager.onboardPlugin env) w) = []
          /\ List.filter is_timeout (emitted (OnboardManager.onboardPlugin env) w)
             = [ESetTimeout 600000 CbOnboardRetry]
          /\ List.filter is_prompt (emitted (OnboardManager.onboardPlugin env) w)
             = (if retry_counter w =? 0 then [EShowOfflinePrompt true] else [])
          /\ timers (snd (OnboardManager.onboardPlugin env w))
             = [(now w + 600000, CbOnboardRetry)])
  | Thrown e =>
      probe env w = true
      /\ fst (OnboardManager.createAnonymousUser env true (sent (Get "/ping" JNull) w))
         = Thrown e
  end.
Proof.
  intros Hq Hact Hns. unfold emitted.
  rewrite (onboardPlugin_attempt w Hact Hns).
  destruct (probe env w) eqn:Hp.
  - destruct (onboard_createAnonymousUser_frames true (sent (Get "/ping" JNull) w))
      as (Hn & Ht & Hr & d & Hd & Hpr & Hto & Hs).
    cbv zeta in *.
    destruct (OnboardManager.createAnonymousUser env true _) as [[result|e] w'];
      cbn [fst snd] in *; [|done].
    cbn [now timers retry_counter trace sent with_requests with_trace]
      in Hn, Ht, Hr, Hd.
    destruct (truthy result).
    + left. cbn [fst snd]. world_simpl.
      rewrite Hd, Ht, Hq, <- !app_assoc, drop_app_length.
      rewrite !List.filter_app, Hs, Hto. done.
    + rewrite prompt_and_retry_run. right. cbn [fst snd]. world_simpl.
      rewrite Hd, Ht, Hq, Hn, Hr, <- !app_assoc, drop_app_length.
      rewrite !List.filter_app, Hs, Hto, Hpr.
      by destruct (retry_counter w =? 0).
  - rewrite prompt_and_retry_run. right. cbn [fst snd]. world_simpl.
    rewrite Hq, <- !app_assoc, drop_app_length.
    by destruct (retry_counter w =? 0).
Qed.

Lemma activates_dec w : activates env w \/ ~ activates env w.
Proof.
  unfold activates. destruct (window_focused env (now w)); [by left; left|].
  destruct (Z.eq_dec (secondary_window_activate_counter w) 0) as [E|E].
  - right. intros [H|H]; congruence.
  - left. by right.
Qed.

Lemma session_dec w :
  no_session w \/ (sessionFile w = true /\ truthy (stored_jwt w) = true).
Proof.
  unfold no_session. destruct (sessionFile w); [|by left; left].
  destruct (truthy (stored_jwt w)); [by right | by left; right].
Qed.

Hypothesis creation_never_throws : creation_returns env.

Lemma onboardPlugin_returns w :
  fst (OnboardManager.onboardPlugin env w) = Returned tt.
Proof.
  destruct (activates_dec w) as [Hact|Hact];
    [|by rewrite (onboardPlugin_deferred env w Hact)].
  destruct (session_dec w) as [Hns|[Hs Hj]];
    [|by rewrite (onboardPlugin_session_exists env w Hact Hs Hj)].
  rewrite (onboardPlugin_attempt w Hact Hns).
  destruct (probe env w) eqn:Hp; [|by rewrite prompt_and_retry_run].
  destruct (creation_never_throws w Hp) as [result Hres].
  destruct (OnboardManager.createAnonymousUser env true _) as [[r|e] w'];
    cbn [fst] in Hres; [|done].
  destruct (truthy r); [done | by rewrite prompt_and_retry_run].
Qed.

(** An attempt made with no timer pending leaves the flow live. *)
Lemma onboardPlugin_live w0 u d :
  trace u = trace w0 ++ d -> timers u = [] -> List.filter is_success d = [] ->
  live w0 (snd (OnboardManager.onboardPlugin env u)).
Proof.
  intros Hd Hq Hs.
  destruct (activates_dec u) as [Hact|Hact].
  2:{ rewrite (onboardPlugin_deferred env u Hact). cbn [snd].
      exists (d ++ [ESetTimeout 5000 CbOnboardSecondaryWindow]). world_simpl.
      split; [by rewrite Hd, <- app_assoc|]. right. rewrite Hq.
      split; [eexists; by left|]. by rewrite List.filter_app, Hs. }
  destruct (session_dec u) as [Hns|[Hsf Hj]].
  2:{ rewrite (onboardPlugin_session_exists env u Hact Hsf Hj). cbn [snd].
      exists (d ++ [EHttp (Get "/ping" JNull); ESuccessFunction false]).
      world_simpl. split; [by rewrite Hd, <- app_assoc|]. left.
      split; [done|]. by rewrite List.filter_app, Hs. }
  pose proof (onboardPlugin_attempt_outcome u Hq Hact Hns) as Hout.
  rewrite (onboardPlugin_returns u) in Hout.
  exists (d ++ emitted (OnboardManager.onboardPlugin env) u).
  split.
  { unfold emitted. rewrite app_assoc, <- Hd.
    destruct (onboardPlugin_flow_step env u Hq) as (d' & Hd' & _).
    by rewrite Hd', drop_app_length. }
  rewrite List.filter_app, Hs.
  destruct Hout as [(H1 & _ & H2) | (H1 & _ & _ & H2)]; rewrite H1, H2.
  - by left.
  - right. split; [eexists; by right | done].
Qed.

Lemma tick_live w0 w w' :
  EventLoop.tick env w = Some w' -> live w0 w -> live w0 w'.
Proof.
  intros Htick (d & Hd & Hcases).
  destruct Hcases as [[Hq _] | [[due [Hq|Hq]] Hs]].
  - unfold EventLoop.tick in Htick. by rewrite Hq in Htick.
  - rewrite (tick_first env due _ [] w Hq) in Htick by done.
    injection Htick as <-. cbn [EventLoop.run_callback].
    unfold mbind, M_bind, modify, detach. cbn [snd].
    by apply (onboardPlugin_live w0 _ d).
  - rewrite (tick_first env due _ [] w Hq) in Htick by done.
    injection Htick as <-. cbn [EventLoop.run_callback].
    unfold mbind, M_bind, modify, detach. cbn [snd].
    by apply (onboardPlugin_live w0 _ d).
Qed.

Lemma run_live w0 turns w : live w0 w -> live w0 (EventLoop.run env turns w).
Proof.
  revert w. induction turns as [|turns IH]; intros w Hw; [done|].
  cbn [EventLoop.run]. destruct (EventLoop.tick env w) as [w'|] eqn:E; [|done].
  apply IH. by eapply tick_live.
Qed.

End OnboardingAttempts.

(** C9, as the code has it.  In an onboarding flow (a call of
    [onboardPlugin] with no timer pending, followed by any number of
    turns of the event loop): the offline prompt is shown at most once,
    and an invocation that finds the retry counter different from zero
    shows none; every timer armed is the five-second deferral of an
    unfocused window or the retry of [onboardPlugin] after ten minutes.
    An attempt made while no session exists and that returns either
    calls the success callback with the flag true and arms nothing, or
    arms the retry ten minutes ahead and calls no callback; an attempt
    throws only when the creation of the anonymous user threw.  The
    retry is armed when the server is unreachable and when the creation
    returns without a token, with the prompt when the retry counter is
    zero.  When a session exists the success callback is called at once
    with the flag false; when the anonymous user is created it is called
    with the flag true; in both cases nothing is armed.  An unfocused
    window that has not deferred yet does nothing but arm the deferral.
    As long as the creation does not throw the flow has no terminal
    state but success: after any number of turns a deferral or a retry
    is pending, or the success callback was called, once.  While the
    server cannot be reached and no session exists, the retry is armed
    again after every attempt, whatever the number of attempts made. *)
Theorem onboarding_flow env w :
  timers w = [] -> 0 <= retry_counter w ->
  (forall turns,
     (length (List.filter is_prompt
                (drop (length (trace w))
                   (trace (EventLoop.run env turns
                             (snd (OnboardManager.onboardPlugin env w))))))
      <= 1)%nat
     /\ Forall onboard_timeout
          (List.filter is_timeout
             (drop (length (trace w))
                (trace (EventLoop.run env turns
                          (snd (OnboardManager.onboardPlugin env w)))))))
  /\ (retry_counter w <> 0 ->
      List.filter is_prompt (emitted (OnboardManager.onboardPlugin env) w) = [])
  /\ (activates env w -> no_session w ->
      match fst (OnboardManager.onboardPlugin env w) with
      | Returned _ =>
          (List.filter is_success (emitted (OnboardManager.onboardPlugin env) w)
             = [ESuccessFunction true]
           /\ List.filter is_timeout (emitted (OnboardManager.onboardPlugin env) w)
              = []
           /\ timers (snd (OnboardManager.onboardPlugin env w)) = [])
          \/ (List.filter is_success (emitted (OnboardManager.onboardPlugin env) w)
                = []
              /\ List.filter is_timeout (emitted (OnboardManager.onboardPlugin env) w)
                 = [ESetTimeout 600000 CbOnboardRetry]
              /\ List.filter is_prompt (emitted (OnboardManager.onboardPlugin env) w)
                 = (if retry_counter w =? 0 then [EShowOfflinePrompt true] else [])
              /\ timers (snd (OnboardManager.onboardPlugin env w))
                 = [(now w + 600000, CbOnboardRetry)])
      | Thrown e =>
          probe env w = true
          /\ fst (OnboardManager.createAnonymousUser env true
                    (sent (Get "/ping" JNull) w)) = Thrown e
      end)
  /\ (activates env w -> no_session w -> probe env w = false ->
      emitted (OnboardManager.onboardPlugin env) w =
        EHttp (Get "/ping" JNull) ::
        (if retry_counter w =? 0 then [EShowOfflinePrompt true] else []) ++
        [ESetTimeout 600000 CbOnboardRetry]
      /\ timers (snd (OnboardManager.onboardPlugin env w)) =
           [(now w + 600000, CbOnboardRetry)])
  /\ (forall result w',
        activates env w -> no_session w -> probe env w = true ->
        OnboardManager.createAnonymousUser env true (sent (Get "/ping" JNull) w)
          = (Returned result, w') ->
        truthy result = false ->
        trace (snd (OnboardManager.onboardPlugin env w)) =
          trace w' ++
          (if retry_counter w =? 0 then [EShowOfflinePrompt true] else []) ++
          [ESetTimeout 600000 CbOnboardRetry]
        /\ timers (snd (OnboardManager.onboardPlugin env w)) =
             [(now w + 600000, CbOnboardRetry)])
  /\ (forall result w',
        activates env w -> no_session w -> probe env w = true ->
        OnboardManager.createAnonymousUser env true (sent (Get "/ping" JNull) w)
          = (Returned result, w') ->
        truthy result = true ->
        trace (snd (OnboardManager.onboardPlugin env w)) =
          trace w' ++ [ESuccessFunction true]
        /\ timers (snd (OnboardManager.onboardPlugin env w)) = [])
  /\ (activates env w -> sessionFile w = true -> truthy (stored_jwt w) = true ->
      emitted (OnboardManager.onboardPlugin env) w =
        [EHttp (Get "/ping" JNull); ESuccessFunction false]
      /\ timers (snd (OnboardManager.onboardPlugin env w)) = [])
  /\ (~ activates env w ->
      emitted (OnboardManager.onboardPlugin env) w =
        [ESetTimeout 5000 CbOnboardSecondaryWindow]
      /\ timers (snd (OnboardManager.onboardPlugin env w)) =
           [(now w + 5000, CbOnboardSecondaryWindow)])
  /\ (creation_returns env ->
      forall turns,
        (exists due,
           timers (EventLoop.run env turns (snd (OnboardManager.onboardPlugin env w)))
             = [(due, CbOnboardSecondaryWindow)]
           \/ timers (EventLoop.run env turns
                        (snd (OnboardManager.onboardPlugin env w)))
              = [(due, CbOnboardRetry)])
        \/ (timers (EventLoop.run env turns
                      (snd (OnboardManager.onboardPlugin env w))) = []
            /\ length
                 (List.filter is_success
                    (drop (length (trace w))
                       (trace (EventLoop.run env turns
                                 (snd (OnboardManager.onboardPlugin env w))))))
               = 1%nat))
  /\ ((forall w0, probe env w0 = false) ->
      (forall t, window_focused env t = true) ->
      no_session w ->
      forall turns,
        timers (EventLoop.run env turns (snd (OnboardManager.onboardPlugin env w)))
          = [(now w + (Z.of_nat turns + 1) * 600000, CbOnboardRetry)]
        /\ retry_counter
             (EventLoop.run env turns (snd (OnboardManager.onboardPlugin env w)))
           = retry_counter w + Z.of_nat turns).
Proof.
  intros Hq Hr.
  split; [|split; [|split; [|split; [|split; [|split; [|split; [|split; [|split]]]]]]]].
  - intros turns.
    assert (Hstart : onboarding w (snd (OnboardManager.onboardPlugin env w))).
    { apply (onboardPlugin_onboarding env w w []).
      - by rewrite app_nil_r.
      - done.
      - done.
      - cbn. lia.
      - constructor.
      - done. }
    destruct (run_onboarding env w turns _ Hstart)
      as (_ & d & Hd & Hp & Ht & _).
    by rewrite Hd, drop_app_length.
  - intros Hne. destruct (onboardPlugin_step env w Hq) as (_ & d & Hd & Hcases).
    rewrite (emitted_app _ w d Hd).
    destruct Hcases as [(_ & Hp & _) | [(_ & Hp & _) | (_ & Hp & _)]]; try done.
    apply Z.eqb_neq in Hne. by rewrite Hne in Hp.
  - intros Hact Hns. by apply onboardPlugin_attempt_outcome.
  - intros Hact Hns Hp.
    rewrite (emitted_app _ w
               (EHttp (Get "/ping" JNull) ::
                (if retry_counter w =? 0 then [EShowOfflinePrompt true] else []) ++
                [ESetTimeout 600000 CbOnboardRetry])).
    + split; [done|].
      rewrite (onboardPlugin_offline env w Hact Hns Hp). cbv zeta. world_simpl.
      by rewrite Hq.
    + rewrite (onboardPlugin_offline env w Hact Hns Hp). cbv zeta. world_simpl.
      by rewrite <- app_assoc.
  - intros result w' Hact Hns Hp Hcreate Hres.
    rewrite (onboardPlugin_creation_failed env w result w' Hact Hns Hp Hcreate Hres).
    pose proof (createAnonymousUser_onboard_frame env true
                  (sent (Get "/ping" JNull) w)) as (Hn & Ht & Hrc & _).
    rewrite Hcreate in Hn, Ht, Hrc. unfold keeps in *. cbn in Hn, Ht, Hrc.
    world_simpl. by rewrite Hn, Ht, Hrc, Hq.
  - intros result w' Hact Hns Hp Hcreate Hres.
    rewrite (onboardPlugin_created env w result w' Hact Hns Hp Hcreate Hres).
    split; [done|]. cbn.
    pose proof (createAnonymousUser_onboard_frame env true
                  (sent (Get "/ping" JNull) w)) as (_ & Ht & _).
    rewrite Hcreate in Ht. unfold keeps in Ht. cbn in Ht. by rewrite Ht.
  - intros Hact Hs Hj. rewrite (emitted_app _ w
      [EHttp (Get "/ping" JNull); ESuccessFunction false]);
      by rewrite (onboardPlugin_session_exists env w Hact Hs Hj).
  - intros Hact. rewrite (emitted_app _ w [ESetTimeout 5000 CbOnboardSecondaryWindow]);
      by rewrite (onboardPlugin_deferred env w Hact), ?Hq.
  - intros Hcreation turns.
    assert (Hstart : live w (snd (OnboardManager.onboardPlugin env w))).
    { apply (onboardPlugin_live env Hcreation w w []); try done.
      by rewrite app_nil_r. }
    destruct (run_live env Hcreation w turns _ Hstart) as (d & Hd & Hcases).
    rewrite Hd, drop_app_length.
    destruct Hcases as [[Hend Hs] | [Hpending _]]; [by right | by left].
  - intros Hoff Hfocus Hns turns. by apply onboarding_never_gives_up.
Qed.

Lemma offline_creation_returns : creation_returns offline.
Proof. intros u Hp. discriminate Hp. Qed.

Lemma refusing_creation_returns : creation_returns refusing.
Proof.
  intros u _. exists JNull.
  unfold OnboardManager.createAnonymousUser. unfold mbind at 1, M_bind at 1.
  rewrite getAppJwt_not_ok; [done|]. eexists. split; reflexivity.
Qed.

Lemma granting_creation_returns : creation_returns granting.
Proof.
  intros u _.
  unfold OnboardManager.createAnonymousUser, DataController.getAppJwt, nowInSecs,
    softwareGet, softwarePost, send, getItem, setItem, gets, modify.
  unfold mbind, M_bind, mret, M_ret. cbn. destruct (truthy _); by eexists.
Qed.

Lemma onboarding_flow_witness :
  ((length (List.filter is_prompt
              (trace (EventLoop.run offline 5
                        (snd (OnboardManager.onboardPlugin offline first_run)))))
    <= 1)%nat
   /\ timers (EventLoop.run offline 5
                (snd (OnboardManager.onboardPlugin offline first_run)))
      = [(3600000, CbOnboardRetry)]
   /\ retry_counter
        (EventLoop.run offline 5
           (snd (OnboardManager.onboardPlugin offline first_run)))
      = 5)
  /\ ((exists due,
         timers (EventLoop.run refusing 3
                   (snd (OnboardManager.onboardPlugin refusing first_run)))
           = [(due, CbOnboardSecondaryWindow)]
         \/ timers (EventLoop.run refusing 3
                      (snd (OnboardManager.onboardPlugin refusing first_run)))
            = [(due, CbOnboardRetry)])
      \/ (timers (EventLoop.run refusing 3
                    (snd (OnboardManager.onboardPlugin refusing first_run))) = []
          /\ length
               (List.filter is_success
                  (drop (length (trace first_run))
                     (trace (EventLoop.run refusing 3
                               (snd (OnboardManager.onboardPlugin refusing
                                       first_run))))))
             = 1%nat))
  /\ (trace (snd (OnboardManager.onboardPlugin granting first_run)) =
        trace (snd (OnboardManager.createAnonymousUser granting true
                      (sent (Get "/ping" JNull) first_run)))
        ++ [ESuccessFunction true]
      /\ timers (snd (OnboardManager.onboardPlugin granting first_run)) = []).
Proof.
  split; [|split].
  - pose proof (onboarding_flow offline first_run eq_refl ltac:(simpl; lia))
      as (H1 & _ & _ & _ & _ & _ & _ & _ & _ & H10).
    split; [exact (proj1 (H1 5%nat))|].
    apply (H10 (fun _ => eq_refl) (fun _ => eq_refl) (or_introl eq_refl) 5%nat).
  - pose proof (onboarding_flow refusing first_run eq_refl ltac:(simpl; lia))
      as (_ & _ & _ & _ & _ & _ & _ & _ & H9 & _).
    exact (H9 refusing_creation_returns 3%nat).
  - pose proof (onboarding_flow granting first_run eq_refl ltac:(simpl; lia))
      as (_ & _ & _ & _ & _ & H6 & _).
    apply (H6 (JStr "T1")
              (snd (OnboardManager.createAnonymousUser granting true
                      (sent (Get "/ping" JNull) first_run))));
      first [ reflexivity | by left ].
Defined.

(** C9 as stated fails when the creation of the anonymous user throws:
    [onboardPlugin] awaits it with no handler, so a request rejected
    after a successful probe, or an ok answer to the app-token request
    that carries no body, ends the attempt before the retry is armed.  No
    session exists, and the flow is over: no prompt, no timer, no
    callback, whatever the number of turns. *)
Lemma thrown_creation_ends_onboarding :
  (timers first_run = [] /\ sessionFile first_run = false)
  /\ fst (OnboardManager.onboardPlugin flaky first_run) = Thrown TransportFailure
  /\ emitted (OnboardManager.onboardPlugin flaky) first_run =
       [EHttp (Get "/ping" JNull); EHttp (Get "/data/apptoken?token=0" JNull)]
  /\ timers (snd (OnboardManager.onboardPlugin flaky first_run)) = []
  /\ (forall turns,
        EventLoop.run flaky turns (snd (OnboardManager.onboardPlugin flaky first_run))
        = snd (OnboardManager.onboardPlugin flaky first_run))
  /\ fst (OnboardManager.onboardPlugin bodiless first_run) = Thrown TypeError
  /\ emitted (OnboardManager.onboardPlugin bodiless) first_run =
       [EHttp (Get "/ping" JNull); EHttp (Get "/data/apptoken?token=0" JNull)]
  /\ (forall turns,
        EventLoop.run bodiless turns
          (snd (OnboardManager.onboardPlugin bodiless first_run))
        = snd (OnboardManager.onboardPlugin bodiless first_run)).
Proof.
  split; [done|]. split; [vm_compute; reflexivity|].
  split; [vm_compute; reflexivity|]. split; [vm_compute; reflexivity|].
  split; [intros turns; apply run_idle; vm_compute; reflexivity|].
  split; [vm_compute; reflexivity|]. split; [vm_compute; reflexivity|].
  intros turns. apply run_idle. vm_compute. reflexivity.
Qed.
